(** * The [_msprime] extension module: a shallow embedding

    This development models [_msprimemodule.c], the CPython extension that
    wraps the msprime simulation kernel, and proves properties of its
    argument parsing, of the dictionary encoding of table collections, of
    the driver loop of [Simulator.run] and of the handling of the GSL error
    handler.

    Conventions.
    - C integers are [Z] with the wrap-around of each conversion written
      out ([wrap_signed], [wrap_unsigned]); the data model is LP64.
    - C [double]s are the binary64 floats of the kernel ([PrimFloat.float]).
    - A function that returns [-1]/[NULL] with a Python exception set
      returns [Raise e]; a function that returns [0] or an object returns
      [Ok v].  The methods of [Simulator] thread the kernel state and
      return it next to the outcome, on the error path too; the table
      parsers return the table on success only, and a collection whose
      [fromdict] raised is not followed further.
    - Failure of [PyMem_Malloc], [PyDict_New], [Py_BuildValue] and the like
      (memory exhaustion) is outside the model. *)

From Stdlib Require Import ZArith List Bool Lia Floats Sorted.
From stdpp Require Import base option list strings gmap.

#[local] Set Warnings "-register-all".
#[local] Open Scope Z_scope.

(** ** Machine integers *)

(** Conversion of [z] to a signed two's complement integer of [w] bits. *)
Definition wrap_signed (w : Z) (z : Z) : Z :=
  (z + 2 ^ (w - 1)) mod 2 ^ w - 2 ^ (w - 1).

(** Conversion of [z] to an unsigned integer of [w] bits. *)
Definition wrap_unsigned (w : Z) (z : Z) : Z := z mod 2 ^ w.

Definition LONG_MIN : Z := - 2 ^ 63.
Definition LONG_MAX : Z := 2 ^ 63 - 1.

(** ** Doubles *)

Definition double : Type := float.
Bind Scope float_scope with double.

(** The C comparisons on doubles; every comparison with a NaN is false. *)
Definition dlt (x y : double) : bool := PrimFloat.ltb x y.
Definition dle (x y : double) : bool := PrimFloat.leb x y.
Definition dgt (x y : double) : bool := PrimFloat.ltb y x.
Definition dge (x y : double) : bool := PrimFloat.leb y x.
Arguments dlt (x y)%_float.
Arguments dle (x y)%_float.
Arguments dgt (x y)%_float.
Arguments dge (x y)%_float.

(** Rounding of an integer to the nearest double (ties to even), as the
    conversion of a Python [int] to [float] does; [infinity] when the
    integer is beyond the range of finite doubles. *)
Definition Z_to_double (z : Z) : double :=
  SF2Prim (binary_normalize prec emax z 0 false).

(** ** Python objects *)

Inductive npy_type := NPY_FLOAT64 | NPY_INT32 | NPY_UINT32 | NPY_INT8.

(** The buffer of a numpy array, by element type. *)
Inductive npy_data :=
| Float64Data (l : list double)
| Int32Data (l : list Z)
| UInt32Data (l : list Z)
| Int8Data (l : list Z).

Record ndarray := mk_ndarray {
  nd_shape : list Z;     (* PyArray_DIMS *)
  nd_data : npy_data     (* PyArray_DATA, C order *)
}.

Inductive PyObject :=
| Py_None
| PyBool (b : bool)
| PyLong (n : Z)
| PyFloat (d : double)
| PyUnicode (s : string)
| PyTuple (items : list PyObject)
| PyList (items : list PyObject)
| PyDict (items : gmap string PyObject)
| PyArray (a : ndarray).

Definition Py_True : PyObject := PyBool true.
Definition Py_False : PyObject := PyBool false.

Definition npy_dtype (d : npy_data) : npy_type :=
  match d with
  | Float64Data _ => NPY_FLOAT64
  | Int32Data _ => NPY_INT32
  | UInt32Data _ => NPY_UINT32
  | Int8Data _ => NPY_INT8
  end.

Definition npy_size (d : npy_data) : Z :=
  match d with
  | Float64Data l => Z.of_nat (length l)
  | Int32Data l | UInt32Data l | Int8Data l => Z.of_nat (length l)
  end.

(** ** Exceptions *)

Inductive exc_type :=
| PyExc_TypeError
| PyExc_ValueError
| PyExc_SystemError
| PyExc_KeyboardInterrupt
| MsprimeInputError
| MsprimeLibraryError.

(** The arguments of a [PyErr_Format] call. *)
Inductive fmt_arg :=
| ArgInt (n : Z)              (* %d *)
| ArgStr (s : string)         (* %s *)
| ArgMspStrerror (err : Z)    (* %s of msp_strerror(err) *)
| ArgTskStrerror (err : Z).   (* %s of tsk_strerror(err) *)

Record PyErr := mk_err {
  err_type : exc_type;
  err_format : string;
  err_args : list fmt_arg
}.

Definition PyErr_SetString (t : exc_type) (msg : string) : PyErr :=
  mk_err t msg [].

Definition PyErr_Format (t : exc_type) (fmt : string) (args : list fmt_arg)
  : PyErr := mk_err t fmt args.

Definition handle_library_error (err : Z) : PyErr :=
  PyErr_Format MsprimeLibraryError "%s" [ArgMspStrerror err].

Definition handle_tskit_library_error (err : Z) : PyErr :=
  PyErr_Format MsprimeLibraryError "%s" [ArgTskStrerror err].

Definition handle_input_error (section : string) (err : Z) : PyErr :=
  PyErr_Format MsprimeInputError "Input error in %s: %s"
    [ArgStr section; ArgMspStrerror err].

(** The outcome of a fallible call.  [Undefined] stands for undefined
    behaviour of the C code: a read past the end of a buffer or through a
    NULL pointer. *)
Inductive result (A : Type) :=
| Ok (a : A)
| Raise (e : PyErr)
| Undefined.
Arguments Ok {A} a.
Arguments Raise {A} e.
Arguments Undefined {A}.

Definition rbind {A B} (r : result A) (k : A -> result B) : result B :=
  match r with
  | Ok a => k a
  | Raise e => Raise e
  | Undefined => Undefined
  end.

#[global] Instance result_ret : MRet result := @Ok.
#[global] Instance result_bind : MBind result :=
  fun A B k r => rbind r k.

Definition failed {A} (r : result A) : Prop := exists e, r = Raise e.

(** ** The C API of the interpreter, as far as this module uses it *)

(** [PyNumber_Check]: the object implements the number protocol. *)
Definition PyNumber_Check (o : PyObject) : bool :=
  match o with
  | PyBool _ | PyLong _ | PyFloat _ | PyArray _ => true
  | _ => false
  end.

(** The single element of a one-element array, as a double. *)
Definition array_item_as_double (d : npy_data) : option double :=
  match d with
  | Float64Data [x] => Some x
  | Int32Data [n] | UInt32Data [n] | Int8Data [n] => Some (Z_to_double n)
  | _ => None
  end.

(** The value of a float, int or array as a double, as [__float__] gives
    it: an int is rounded, which fails when it is too large; an array is
    converted when it has one element.  [None] when the conversion
    raises. *)
Definition float_of_object (o : PyObject) : option double :=
  match o with
  | PyFloat d => Some d
  | PyBool b => Some (if b then 1 else 0)%float
  | PyLong n =>
      let d := Z_to_double n in
      if PrimFloat.eqb (abs d) infinity then None else Some d
  | PyArray a => array_item_as_double (nd_data a)
  | _ => None
  end.

(** [PyFloat_AsDouble]: on failure the function returns [-1.0] with an
    exception set.  No caller in this module asks whether an exception
    is set: it reads the [-1.0]. *)
Definition PyFloat_AsDouble (o : PyObject) : double :=
  default (-1)%float (float_of_object o).

(** [PyLong_AsLong]: the value of an int that fits a C [long]; [-1] with
    [OverflowError] set when it does not fit, and [-1] with [TypeError]
    set for an object without [__index__]. *)
Definition PyLong_AsLong (o : PyObject) : Z :=
  match o with
  | PyBool b => if b then 1 else 0
  | PyLong n => if (LONG_MIN <=? n) && (n <=? LONG_MAX) then n else -1
  | PyArray (mk_ndarray [] (Int32Data [n]))
  | PyArray (mk_ndarray [] (UInt32Data [n]))
  | PyArray (mk_ndarray [] (Int8Data [n])) => n
  | _ => -1
  end.

Definition PyDict_Check (o : PyObject) : bool :=
  match o with PyDict _ => true | _ => false end.

Definition PyDict_GetItemString (d : gmap string PyObject) (key : string)
  : option PyObject := d !! key.

Definition PyDict_SetItemString (d : gmap string PyObject) (key : string)
    (v : PyObject) : gmap string PyObject := <[key := v]> d.

(** ** Helpers of the module *)

Definition get_dict_value (dict : gmap string PyObject) (key_str : string)
  : result PyObject :=
  match PyDict_GetItemString dict key_str with
  | Some v => Ok v
  | None => Raise (PyErr_Format PyExc_ValueError "'%s' not specified"
                     [ArgStr key_str])
  end.

Definition get_dict_number (dict : gmap string PyObject) (key_str : string)
  : result PyObject :=
  value ← get_dict_value dict key_str;
  if negb (PyNumber_Check value)
  then Raise (PyErr_Format PyExc_TypeError "'%s' is not number"
                [ArgStr key_str])
  else Ok value.

(** ** Sample parsing *)

Record sample_t := mk_sample {
  population_id : Z;     (* population_id_t, a 32-bit id *)
  time : double
}.

(** The cast [(population_id_t) tmp_long]. *)
Definition population_id_of_long (tmp_long : Z) : Z := wrap_signed 32 tmp_long.

(** One iteration of the loop of [parse_samples], for the entry at index
    [j]. *)
Definition parse_sample (j : Z) (num_populations : Z) (sample : PyObject)
  : result sample_t :=
  match sample with
  | PyTuple items =>
      match items with
      | [value0; value1] =>
          if negb (PyNumber_Check value0)
          then Raise (PyErr_Format PyExc_TypeError
                        "'population' is not number" [])
          else
            let tmp_long := PyLong_AsLong value0 in
            if tmp_long <? 0
            then Raise (PyErr_Format PyExc_ValueError
                          "Negative population ID in sample at index %d"
                          [ArgInt (wrap_signed 32 j)])
            else if tmp_long >=? num_populations
            then Raise (PyErr_Format PyExc_ValueError
                          "Invalid population reference '%d' in sample at index %d"
                          [ArgInt (wrap_signed 32 tmp_long);
                           ArgInt (wrap_signed 32 j)])
            else if negb (PyNumber_Check value1)
            then Raise (PyErr_Format PyExc_TypeError "'time' is not number" [])
            else
              let t := PyFloat_AsDouble value1 in
              if dlt t 0
              then Raise (PyErr_SetString PyExc_ValueError
                            "negative times not valid")
              else Ok (mk_sample (population_id_of_long tmp_long) t)
      | _ => Raise (PyErr_SetString PyExc_ValueError
                      "sample must be (population,time) tuple")
      end
  | _ => Raise (PyErr_SetString PyExc_TypeError "not a tuple")
  end.

(** The loop [for (j = 0; j < n; j++)] from index [j] on. *)
Fixpoint parse_samples_from (j : Z) (num_populations : Z)
    (py_samples : list PyObject) : result (list sample_t) :=
  match py_samples with
  | [] => Ok []
  | sample :: rest =>
      s ← parse_sample j num_populations sample;
      ss ← parse_samples_from (j + 1) num_populations rest;
      Ok (s :: ss)
  end.

(** [parse_samples]: on success, [( *num_samples, *samples )]. *)
Definition parse_samples (py_samples : list PyObject) (num_populations : Z)
  : result (Z * list sample_t) :=
  let n := Z.of_nat (length py_samples) in
  ret_samples ← parse_samples_from 0 num_populations py_samples;
  Ok (n, ret_samples).

(** *** What the parser accepts *)

(** The values that the properties speak of are read off the Python
    object itself, apart from the C API, and have none of its error
    returns.  The integer that an object denotes: an int, a bool, or a
    zero-dimensional array of one integer. *)
Definition integer_of (o : PyObject) : option Z :=
  match o with
  | PyLong n => Some n
  | PyBool true => Some 1
  | PyBool false => Some 0
  | PyArray (mk_ndarray [] (Int32Data [n]))
  | PyArray (mk_ndarray [] (UInt32Data [n]))
  | PyArray (mk_ndarray [] (Int8Data [n])) => Some n
  | _ => None
  end.

(** The double that holds a Python number: a float is its own double, an
    int has the nearest double when that is finite and none when it is
    too large, an array of one element has the double of that
    element.  Other objects have none. *)
Definition double_of (o : PyObject) : option double :=
  match o with
  | PyFloat d => Some d
  | PyBool true => Some 1%float
  | PyBool false => Some 0%float
  | PyLong n =>
      if PrimFloat.eqb (abs (Z_to_double n)) infinity then None
      else Some (Z_to_double n)
  | PyArray (mk_ndarray _ (Float64Data [x])) => Some x
  | PyArray (mk_ndarray _ (Int32Data [n]))
  | PyArray (mk_ndarray _ (UInt32Data [n]))
  | PyArray (mk_ndarray _ (Int8Data [n])) => Some (Z_to_double n)
  | _ => None
  end.

(** The sample that an entry of the list denotes: the entry is a tuple
    of two objects, the first denotes an integer, the population id,
    and the second has a double, the time. *)
Definition sample_of (o : PyObject) : option sample_t :=
  match o with
  | PyTuple [p; t] =>
      id ← integer_of p; x ← double_of t; Some (mk_sample id x)
  | _ => None
  end.

(** The entry is refused: it denotes no sample, or its population id is
    below zero or not below the number of populations, or its time is
    below zero. *)
Definition refused_sample (num_populations : Z) (o : PyObject) : Prop :=
  match sample_of o with
  | Some s =>
      population_id s < 0 \/ population_id s >= num_populations \/
      dlt (time s) 0 = true
  | None => True
  end.

(** The conditions as the claim first had them, on the numbers of the
    entry as they are written: a number is below zero, and an entry is
    a pair when it is a tuple of two numbers. *)
Definition below_zero (o : PyObject) : Prop :=
  match o with
  | PyLong n => n < 0
  | PyFloat d => dlt d 0 = true
  | _ => False
  end.

Definition is_population_time_pair (o : PyObject) : Prop :=
  exists p t, o = PyTuple [p; t] /\
              PyNumber_Check p = true /\ PyNumber_Check t = true.

Definition refused_as_claimed (num_populations : Z) (o : PyObject) : Prop :=
  ~ is_population_time_pair o \/
  exists p t, o = PyTuple [p; t] /\
    (below_zero p \/
     (exists id, integer_of p = Some id /\ id >= num_populations) \/
     below_zero t).

(** ** RandomGenerator *)

(** The state of a GSL generator after [gsl_rng_set]: only the seed it
    was set with matters here. *)
Inductive gsl_rng := gsl_rng_seeded (seed : Z).

Record RandomGenerator := mk_RandomGenerator {
  rg_seed : Z;                (* unsigned long seed *)
  rg_rng : option gsl_rng     (* gsl_rng *rng, None for NULL *)
}.

(** The format unit [K] of [PyArg_ParseTupleAndKeywords]: a Python int is
    converted to [unsigned long long] without overflow checking, that is
    reduced modulo [2^64]; another object is a [TypeError]. *)
Definition PyArg_Parse_K (arg : PyObject) : result Z :=
  match arg with
  | PyBool b => Ok (if b then 1 else 0)
  | PyLong n => Ok (wrap_unsigned 64 n)
  | _ => Raise (PyErr_SetString PyExc_TypeError "an integer is required")
  end.

Definition RandomGenerator_check_state (self : RandomGenerator)
  : result unit :=
  match rg_rng self with
  | None => Raise (PyErr_SetString PyExc_SystemError
                     "RandomGenerator not initialised")
  | Some _ => Ok tt
  end.

(** [RandomGenerator_init], called with the argument [seed]. *)
Definition RandomGenerator_init (arg : PyObject) : result RandomGenerator :=
  seed ← PyArg_Parse_K arg;
  if (seed =? 0) || (seed >=? 2 ^ 32)
  then Raise (PyErr_Format PyExc_ValueError
                "seeds must be greater than 0 and less than 2^32" [])
  else
    let self_seed := wrap_unsigned 64 seed in
    Ok (mk_RandomGenerator self_seed (Some (gsl_rng_seeded self_seed))).

Definition RandomGenerator_get_seed (self : RandomGenerator)
  : result PyObject :=
  _ ← RandomGenerator_check_state self;
  Ok (PyLong (rg_seed self)).

(** ** Table collections *)

(** The tables of [tsk_table_collection_t].  A column is the list of its
    meaningful elements: [num_rows] elements for a fixed-width column,
    [num_rows + 1] for an offset column, and the packed data of a
    variable-length column ([metadata_length] and the like are the
    lengths of these lists). *)

Module IndividualTable.
Record t := mk {
  num_rows : Z;
  flags : list Z;                (* uint32 *)
  location : list double;
  location_offset : list Z;      (* uint32 *)
  metadata : list Z;             (* char *)
  metadata_offset : list Z       (* uint32 *)
}.
End IndividualTable.

Module NodeTable.
Record t := mk {
  num_rows : Z;
  time : list double;
  flags : list Z;                (* uint32 *)
  population : list Z;           (* int32 *)
  individual : list Z;           (* int32 *)
  metadata : list Z;
  metadata_offset : list Z
}.
End NodeTable.

Module EdgeTable.
Record t := mk {
  num_rows : Z;
  left : list double;
  right : list double;
  parent : list Z;
  child : list Z
}.
End EdgeTable.

Module MigrationTable.
Record t := mk {
  num_rows : Z;
  left : list double;
  right : list double;
  node : list Z;
  source : list Z;
  dest : list Z;
  time : list double
}.
End MigrationTable.

Module SiteTable.
Record t := mk {
  num_rows : Z;
  position : list double;
  ancestral_state : list Z;
  ancestral_state_offset : list Z;
  metadata : list Z;
  metadata_offset : list Z
}.
End SiteTable.

Module MutationTable.
Record t := mk {
  num_rows : Z;
  site : list Z;
  node : list Z;
  parent : list Z;
  derived_state : list Z;
  derived_state_offset : list Z;
  metadata : list Z;
  metadata_offset : list Z
}.
End MutationTable.

Module PopulationTable.
Record t := mk {
  num_rows : Z;
  metadata : list Z;
  metadata_offset : list Z
}.
End PopulationTable.

Module ProvenanceTable.
Record t := mk {
  num_rows : Z;
  timestamp : list Z;
  timestamp_offset : list Z;
  record : list Z;
  record_offset : list Z
}.
End ProvenanceTable.

Record tsk_table_collection_t := mk_table_collection {
  sequence_length : double;
  individuals : IndividualTable.t;
  nodes : NodeTable.t;
  edges : EdgeTable.t;
  migrations : MigrationTable.t;
  sites : SiteTable.t;
  mutations : MutationTable.t;
  populations : PopulationTable.t;
  provenances : ProvenanceTable.t
}.

Definition TSK_NULL : Z := -1.

(** Error codes of the table library, which are negative; the module only
    tests them against zero and passes them to [tsk_strerror]. *)
Definition TSK_ERR_BAD_PARAM_VALUE : Z := -4.
Definition TSK_ERR_BAD_OFFSET : Z := -200.

(** *** The table library *)

(** Reading [n] elements from a buffer; [None] when the buffer is shorter
    (a read past its end). *)
Definition read_buffer {A} (n : Z) (buf : list A) : option (list A) :=
  if Z.of_nat (length buf) <? n then None
  else Some (take (Z.to_nat n) buf).

Fixpoint offsets_monotone (offsets : list Z) : bool :=
  match offsets with
  | a :: (b :: _) as rest => (a <=? b) && offsets_monotone rest
  | _ => true
  end.

(** An offset column starts at zero and never decreases. *)
Definition check_offsets (offsets : list Z) : bool :=
  match offsets with
  | o0 :: _ => (o0 =? 0) && offsets_monotone offsets
  | [] => false
  end.

(** A NULL pointer in place of an optional column is [None]. *)
Definition same_nullness {A B} (a : option A) (b : option B) : bool :=
  match a, b with
  | None, None | Some _, Some _ => true
  | _, _ => false
  end.

(** Modelled from the spec: how the table library (not part of this
    module's source) extends a variable-length column by [num_rows] rows.
    Following the encoding contract, the offset column keeps [rows + 1]
    entries that start at zero and end at the length of the packed data;
    the new offsets are shifted by the current length.  A missing column
    appends empty entries; offsets that do not start at zero or that
    decrease are refused. *)
Definition append_ragged {A} (data : list A) (offset : list Z) (rows : Z)
    (num_rows : Z) (new_data : option (list A)) (new_offset : option (list Z))
  : option (Z * (list A * list Z)) :=
  let len := Z.of_nat (length data) in
  match new_data, new_offset with
  | None, None =>
      Some (0, (data, take (Z.to_nat rows + 1) offset
                        ++ replicate (Z.to_nat num_rows) len))
  | Some d, Some o =>
      o' ← read_buffer (num_rows + 1) o;
      if negb (check_offsets o') then Some (TSK_ERR_BAD_OFFSET, (data, offset))
      else
        d' ← read_buffer (List.last o' 0) d;
        Some (0, (data ++ d',
                  take (Z.to_nat rows) offset
                    ++ map (fun x => wrap_unsigned 32 (len + x)) o'))
  | _, _ => Some (TSK_ERR_BAD_PARAM_VALUE, (data, offset))
  end.

(** A missing id column is filled with [TSK_NULL]. *)
Definition read_ids (num_rows : Z) (ids : option (list Z))
  : option (list Z) :=
  match ids with
  | None => Some (replicate (Z.to_nat num_rows) TSK_NULL)
  | Some buf => read_buffer num_rows buf
  end.

(** Modelled from the spec: the [clear] and [append_columns] operations of
    the table library for each table, which this module calls and whose
    source is not part of it.  [clear] empties the table; [append_columns]
    appends [num_rows] rows read from the column buffers.  The result is
    the library's return code and the table; [None] stands for a read past
    the end of a buffer. *)
Definition tsk_individual_table_clear (self : IndividualTable.t)
  : Z * IndividualTable.t := (0, IndividualTable.mk 0 [] [] [0] [] [0]).

Definition tsk_individual_table_append_columns (self : IndividualTable.t)
    (num_rows : Z) (flags : list Z)
    (location : option (list double)) (location_offset : option (list Z))
    (metadata : option (list Z)) (metadata_offset : option (list Z))
  : option (Z * IndividualTable.t) :=
  if negb (same_nullness location location_offset)
     || negb (same_nullness metadata metadata_offset)
  then Some (TSK_ERR_BAD_PARAM_VALUE, self)
  else
    flags' ← read_buffer num_rows flags;
    '(err1, (loc, loc_off)) ←
      append_ragged (IndividualTable.location self)
        (IndividualTable.location_offset self) (IndividualTable.num_rows self)
        num_rows location location_offset;
    if negb (err1 =? 0) then Some (err1, self)
    else
      '(err2, (md, md_off)) ←
        append_ragged (IndividualTable.metadata self)
          (IndividualTable.metadata_offset self) (IndividualTable.num_rows self)
          num_rows metadata metadata_offset;
      if negb (err2 =? 0) then Some (err2, self)
      else
        Some (0, IndividualTable.mk
                   (wrap_unsigned 32 (IndividualTable.num_rows self + num_rows))
                   (IndividualTable.flags self ++ flags')
                   loc loc_off md md_off).

(** Modelled from the spec: [clear] and [append_columns] of the node
    table, as above. *)
Definition tsk_node_table_clear (self : NodeTable.t) : Z * NodeTable.t :=
  (0, NodeTable.mk 0 [] [] [] [] [] [0]).

Definition tsk_node_table_append_columns (self : NodeTable.t)
    (num_rows : Z) (flags : list Z) (time : list double)
    (population : option (list Z)) (individual : option (list Z))
    (metadata : option (list Z)) (metadata_offset : option (list Z))
  : option (Z * NodeTable.t) :=
  if negb (same_nullness metadata metadata_offset)
  then Some (TSK_ERR_BAD_PARAM_VALUE, self)
  else
    time' ← read_buffer num_rows time;
    flags' ← read_buffer num_rows flags;
    '(err, (md, md_off)) ←
      append_ragged (NodeTable.metadata self) (NodeTable.metadata_offset self)
        (NodeTable.num_rows self) num_rows metadata metadata_offset;
    if negb (err =? 0) then Some (err, self)
    else
      population' ← read_ids num_rows population;
      individual' ← read_ids num_rows individual;
      Some (0, NodeTable.mk
                 (wrap_unsigned 32 (NodeTable.num_rows self + num_rows))
                 (NodeTable.time self ++ time')
                 (NodeTable.flags self ++ flags')
                 (NodeTable.population self ++ population')
                 (NodeTable.individual self ++ individual')
                 md md_off).

(** Modelled from the spec: [clear] and [append_columns] of the edge
    table, as above. *)
Definition tsk_edge_table_clear (self : EdgeTable.t) : Z * EdgeTable.t :=
  (0, EdgeTable.mk 0 [] [] [] []).

Definition tsk_edge_table_append_columns (self : EdgeTable.t)
    (num_rows : Z) (left right : list double) (parent child : list Z)
  : option (Z * EdgeTable.t) :=
  left' ← read_buffer num_rows left;
  right' ← read_buffer num_rows right;
  parent' ← read_buffer num_rows parent;
  child' ← read_buffer num_rows child;
  Some (0, EdgeTable.mk
             (wrap_unsigned 32 (EdgeTable.num_rows self + num_rows))
             (EdgeTable.left self ++ left')
             (EdgeTable.right self ++ right')
             (EdgeTable.parent self ++ parent')
             (EdgeTable.child self ++ child')).

(** Modelled from the spec: [clear] and [append_columns] of the migration
    table, as above. *)
Definition tsk_migration_table_clear (self : MigrationTable.t)
  : Z * MigrationTable.t := (0, MigrationTable.mk 0 [] [] [] [] [] []).

Definition tsk_migration_table_append_columns (self : MigrationTable.t)
    (num_rows : Z) (left right : list double) (node source dest : list Z)
    (time : list double) : option (Z * MigrationTable.t) :=
  left' ← read_buffer num_rows left;
  right' ← read_buffer num_rows right;
  node' ← read_buffer num_rows node;
  source' ← read_buffer num_rows source;
  dest' ← read_buffer num_rows dest;
  time' ← read_buffer num_rows time;
  Some (0, MigrationTable.mk
             (wrap_unsigned 32 (MigrationTable.num_rows self + num_rows))
             (MigrationTable.left self ++ left')
             (MigrationTable.right self ++ right')
             (MigrationTable.node self ++ node')
             (MigrationTable.source self ++ source')
             (MigrationTable.dest self ++ dest')
             (MigrationTable.time self ++ time')).

(** Modelled from the spec: [clear] and [append_columns] of the site
    table, as above. *)
Definition tsk_site_table_clear (self : SiteTable.t) : Z * SiteTable.t :=
  (0, SiteTable.mk 0 [] [] [0] [] [0]).

Definition tsk_site_table_append_columns (self : SiteTable.t)
    (num_rows : Z) (position : list double)
    (ancestral_state : list Z) (ancestral_state_offset : list Z)
    (metadata : option (list Z)) (metadata_offset : option (list Z))
  : option (Z * SiteTable.t) :=
  if negb (same_nullness metadata metadata_offset)
  then Some (TSK_ERR_BAD_PARAM_VALUE, self)
  else
    position' ← read_buffer num_rows position;
    '(err1, (st, st_off)) ←
      append_ragged (SiteTable.ancestral_state self)
        (SiteTable.ancestral_state_offset self) (SiteTable.num_rows self)
        num_rows (Some ancestral_state) (Some ancestral_state_offset);
    if negb (err1 =? 0) then Some (err1, self)
    else
      '(err2, (md, md_off)) ←
        append_ragged (SiteTable.metadata self) (SiteTable.metadata_offset self)
          (SiteTable.num_rows self) num_rows metadata metadata_offset;
      if negb (err2 =? 0) then Some (err2, self)
      else
        Some (0, SiteTable.mk
                   (wrap_unsigned 32 (SiteTable.num_rows self + num_rows))
                   (SiteTable.position self ++ position')
                   st st_off md md_off).

(** Modelled from the spec: [clear] and [append_columns] of the mutation
    table, as above. *)
Definition tsk_mutation_table_clear (self : MutationTable.t)
  : Z * MutationTable.t := (0, MutationTable.mk 0 [] [] [] [] [0] [] [0]).

Definition tsk_mutation_table_append_columns (self : MutationTable.t)
    (num_rows : Z) (site node : list Z) (parent : option (list Z))
    (derived_state : list Z) (derived_state_offset : list Z)
    (metadata : option (list Z)) (metadata_offset : option (list Z))
  : option (Z * MutationTable.t) :=
  if negb (same_nullness metadata metadata_offset)
  then Some (TSK_ERR_BAD_PARAM_VALUE, self)
  else
    site' ← read_buffer num_rows site;
    node' ← read_buffer num_rows node;
    parent' ← read_ids num_rows parent;
    '(err1, (st, st_off)) ←
      append_ragged (MutationTable.derived_state self)
        (MutationTable.derived_state_offset self) (MutationTable.num_rows self)
        num_rows (Some derived_state) (Some derived_state_offset);
    if negb (err1 =? 0) then Some (err1, self)
    else
      '(err2, (md, md_off)) ←
        append_ragged (MutationTable.metadata self)
          (MutationTable.metadata_offset self) (MutationTable.num_rows self)
          num_rows metadata metadata_offset;
      if negb (err2 =? 0) then Some (err2, self)
      else
        Some (0, MutationTable.mk
                   (wrap_unsigned 32 (MutationTable.num_rows self + num_rows))
                   (MutationTable.site self ++ site')
                   (MutationTable.node self ++ node')
                   (MutationTable.parent self ++ parent')
                   st st_off md md_off).

(** Modelled from the spec: [clear] and [append_columns] of the population
    table, as above. *)
Definition tsk_population_table_clear (self : PopulationTable.t)
  : Z * PopulationTable.t := (0, PopulationTable.mk 0 [] [0]).

Definition tsk_population_table_append_columns (self : PopulationTable.t)
    (num_rows : Z) (metadata : list Z) (metadata_offset : list Z)
  : option (Z * PopulationTable.t) :=
  '(err, (md, md_off)) ←
    append_ragged (PopulationTable.metadata self)
      (PopulationTable.metadata_offset self) (PopulationTable.num_rows self)
      num_rows (Some metadata) (Some metadata_offset);
  if negb (err =? 0) then Some (err, self)
  else
    Some (0, PopulationTable.mk
               (wrap_unsigned 32 (PopulationTable.num_rows self + num_rows))
               md md_off).

(** Modelled from the spec: [clear] and [append_columns] of the provenance
    table, as above. *)
Definition tsk_provenance_table_clear (self : ProvenanceTable.t)
  : Z * ProvenanceTable.t := (0, ProvenanceTable.mk 0 [] [0] [] [0]).

Definition tsk_provenance_table_append_columns (self : ProvenanceTable.t)
    (num_rows : Z) (timestamp : list Z) (timestamp_offset : list Z)
    (record : list Z) (record_offset : list Z)
  : option (Z * ProvenanceTable.t) :=
  '(err1, (ts, ts_off)) ←
    append_ragged (ProvenanceTable.timestamp self)
      (ProvenanceTable.timestamp_offset self) (ProvenanceTable.num_rows self)
      num_rows (Some timestamp) (Some timestamp_offset);
  if negb (err1 =? 0) then Some (err1, self)
  else
    '(err2, (rc, rc_off)) ←
      append_ragged (ProvenanceTable.record self)
        (ProvenanceTable.record_offset self) (ProvenanceTable.num_rows self)
        num_rows (Some record) (Some record_offset);
    if negb (err2 =? 0) then Some (err2, self)
    else
      Some (0, ProvenanceTable.mk
                 (wrap_unsigned 32 (ProvenanceTable.num_rows self + num_rows))
                 ts ts_off rc rc_off).

(** *** The dictionary encoding *)

Definition is_None (o : PyObject) : bool :=
  match o with Py_None => true | _ => false end.

(** [PyArray_DATA], read at the element type the caller casts it to. *)
Definition float64_data (a : ndarray) : list double :=
  match nd_data a with Float64Data l => l | _ => [] end.
Definition int32_data (a : ndarray) : list Z :=
  match nd_data a with Int32Data l => l | _ => [] end.
Definition uint32_data (a : ndarray) : list Z :=
  match nd_data a with UInt32Data l => l | _ => [] end.
Definition int8_data (a : ndarray) : list Z :=
  match nd_data a with Int8Data l => l | _ => [] end.

(** [PyArray_SimpleNewFromData(1, &num_rows, type, data)]: a
    one-dimensional array over the column. *)
Definition PyArray_SimpleNewFromData (num_rows : Z) (data : npy_data)
  : PyObject := PyArray (mk_ndarray [num_rows] data).

Definition size_t_of (z : Z) : Z := wrap_unsigned 64 z.
Definition uint32_t_of (z : Z) : Z := wrap_unsigned 32 z.

Definition get_table_dict_value (dict : gmap string PyObject)
    (key_str : string) (required : bool) : result PyObject :=
  match PyDict_GetItemString dict key_str with
  | None => Raise (PyErr_Format PyExc_ValueError "'%s' not specified"
                     [ArgStr key_str])
  | Some ret =>
      if required && is_None ret
      then Raise (PyErr_Format PyExc_TypeError "'%s' is required"
                    [ArgStr key_str])
      else Ok ret
  end.

Section TableDict.

(** numpy's conversion of an object to an array of a given element type
    and number of dimensions ([PyArray_FROMANY] with
    [NPY_ARRAY_IN_ARRAY]).  The module relies on it without defining it;
    the properties below state what they assume of it. *)
Variable PyArray_FROMANY : PyObject -> npy_type -> Z -> Z -> result ndarray.

(** The value of [*num_rows] after the call comes with the array. *)
Definition table_read_column_array (input : PyObject) (npy_type : npy_type)
    (num_rows : Z) (check_num_rows : bool) : result (ndarray * Z) :=
  array ← PyArray_FROMANY input npy_type 1 1;
  let shape0 := hd 0 (nd_shape array) in
  if check_num_rows
  then
    if negb (num_rows =? size_t_of shape0)
    then Raise (PyErr_SetString PyExc_ValueError
                  "Input array dimensions must be equal.")
    else Ok (array, num_rows)
  else Ok (array, size_t_of shape0).

Definition table_read_offset_array (input : PyObject) (num_rows : Z)
    (length : Z) (check_num_rows : bool) : result (ndarray * Z) :=
  array ← PyArray_FROMANY input NPY_UINT32 1 1;
  let shape0 := hd 0 (nd_shape array) in
  num_rows ←
    (if negb check_num_rows
     then
       if size_t_of shape0 =? 0
       then Raise (PyErr_SetString PyExc_ValueError
                     "Offset arrays must have at least one element")
       else Ok (size_t_of (size_t_of shape0 - 1))
     else Ok num_rows);
  if negb (size_t_of shape0 =? size_t_of (num_rows + 1))
  then Raise (PyErr_SetString PyExc_ValueError
                "offset columns must have n + 1 rows.")
  else
    match uint32_data array !! Z.to_nat num_rows with
    | None => Undefined
    | Some last =>
        if negb (last =? uint32_t_of length)
        then Raise (PyErr_SetString PyExc_ValueError
                      "Bad offset column encoding")
        else Ok (array, num_rows)
    end.

(** The block that reads an optional variable-length column and its
    offsets; the table parsers repeat it for each such column. *)
Definition read_optional_ragged (data_input offset_input : PyObject)
    (npy_type : npy_type) (num_rows : Z) (check_num_rows : bool)
    (together : string) : result (option (ndarray * ndarray) * Z) :=
  if xorb (is_None data_input) (is_None offset_input)
  then Raise (PyErr_SetString PyExc_TypeError together)
  else if is_None data_input then Ok (None, num_rows)
  else
    '(data_array, data_length)
      ← table_read_column_array data_input npy_type 0 false;
    '(offset_array, num_rows)
      ← table_read_offset_array offset_input num_rows data_length
            check_num_rows;
    Ok (Some (data_array, offset_array), num_rows).

Definition metadata_together : string :=
  "metadata and metadata_offset must be specified together".

(** The end of each parser: the library's return code becomes an
    exception. *)
Definition after_append {T} (r : option (Z * T)) : result T :=
  match r with
  | None => Undefined
  | Some (err, table) =>
      if negb (err =? 0) then Raise (handle_library_error err) else Ok table
  end.

Definition after_clear {T} (clear_table : bool) (clear : T -> Z * T)
    (table : T) : result T :=
  if clear_table
  then
    let (err, table) := clear table in
    if negb (err =? 0) then Raise (handle_library_error err) else Ok table
  else Ok table.

Definition parse_individual_table_dict (table : IndividualTable.t)
    (dict : gmap string PyObject) (clear_table : bool)
  : result IndividualTable.t :=
  flags_input ← get_table_dict_value dict "flags" true;
  location_input ← get_table_dict_value dict "location" false;
  location_offset_input ← get_table_dict_value dict "location_offset" false;
  metadata_input ← get_table_dict_value dict "metadata" false;
  metadata_offset_input ← get_table_dict_value dict "metadata_offset" false;
  '(flags_array, num_rows)
    ← table_read_column_array flags_input NPY_UINT32 0 false;
  '(location, num_rows)
    ← read_optional_ragged location_input location_offset_input NPY_FLOAT64
          num_rows true
          "location and location_offset must be specified together";
  '(metadata, num_rows)
    ← read_optional_ragged metadata_input metadata_offset_input NPY_INT8
          num_rows true metadata_together;
  table ← after_clear clear_table tsk_individual_table_clear table;
  after_append
    (tsk_individual_table_append_columns table (uint32_t_of num_rows)
       (uint32_data flags_array)
       (float64_data ∘ fst <$> location) (uint32_data ∘ snd <$> location)
       (int8_data ∘ fst <$> metadata) (uint32_data ∘ snd <$> metadata)).

Definition read_optional_column (input : PyObject) (npy_type : npy_type)
    (num_rows : Z) : result (option ndarray) :=
  if is_None input then Ok None
  else
    '(array, _) ← table_read_column_array input npy_type num_rows true;
    Ok (Some array).

Definition parse_node_table_dict (table : NodeTable.t)
    (dict : gmap string PyObject) (clear_table : bool) : result NodeTable.t :=
  flags_input ← get_table_dict_value dict "flags" true;
  time_input ← get_table_dict_value dict "time" true;
  population_input ← get_table_dict_value dict "population" false;
  individual_input ← get_table_dict_value dict "individual" false;
  metadata_input ← get_table_dict_value dict "metadata" false;
  metadata_offset_input ← get_table_dict_value dict "metadata_offset" false;
  '(flags_array, num_rows)
    ← table_read_column_array flags_input NPY_UINT32 0 false;
  '(time_array, num_rows)
    ← table_read_column_array time_input NPY_FLOAT64 num_rows true;
  population ← read_optional_column population_input NPY_INT32 num_rows;
  individual ← read_optional_column individual_input NPY_INT32 num_rows;
  '(metadata, num_rows)
    ← read_optional_ragged metadata_input metadata_offset_input NPY_INT8
          num_rows true metadata_together;
  table ← after_clear clear_table tsk_node_table_clear table;
  after_append
    (tsk_node_table_append_columns table (uint32_t_of num_rows)
       (uint32_data flags_array) (float64_data time_array)
       (int32_data <$> population) (int32_data <$> individual)
       (int8_data ∘ fst <$> metadata) (uint32_data ∘ snd <$> metadata)).

Definition parse_edge_table_dict (table : EdgeTable.t)
    (dict : gmap string PyObject) (clear_table : bool) : result EdgeTable.t :=
  left_input ← get_table_dict_value dict "left" true;
  right_input ← get_table_dict_value dict "right" true;
  parent_input ← get_table_dict_value dict "parent" true;
  child_input ← get_table_dict_value dict "child" true;
  '(left_array, num_rows)
    ← table_read_column_array left_input NPY_FLOAT64 0 false;
  '(right_array, num_rows)
    ← table_read_column_array right_input NPY_FLOAT64 num_rows true;
  '(parent_array, num_rows)
    ← table_read_column_array parent_input NPY_INT32 num_rows true;
  '(child_array, num_rows)
    ← table_read_column_array child_input NPY_INT32 num_rows true;
  table ← after_clear clear_table tsk_edge_table_clear table;
  after_append
    (tsk_edge_table_append_columns table (uint32_t_of num_rows)
       (float64_data left_array) (float64_data right_array)
       (int32_data parent_array) (int32_data child_array)).

Definition parse_migration_table_dict (table : MigrationTable.t)
    (dict : gmap string PyObject) (clear_table : bool)
  : result MigrationTable.t :=
  left_input ← get_table_dict_value dict "left" true;
  right_input ← get_table_dict_value dict "right" true;
  node_input ← get_table_dict_value dict "node" true;
  source_input ← get_table_dict_value dict "source" true;
  dest_input ← get_table_dict_value dict "dest" true;
  time_input ← get_table_dict_value dict "time" true;
  '(left_array, num_rows)
    ← table_read_column_array left_input NPY_FLOAT64 0 false;
  '(right_array, num_rows)
    ← table_read_column_array right_input NPY_FLOAT64 num_rows true;
  '(node_array, num_rows)
    ← table_read_column_array node_input NPY_INT32 num_rows true;
  '(source_array, num_rows)
    ← table_read_column_array source_input NPY_INT32 num_rows true;
  '(dest_array, num_rows)
    ← table_read_column_array dest_input NPY_INT32 num_rows true;
  '(time_array, num_rows)
    ← table_read_column_array time_input NPY_FLOAT64 num_rows true;
  table ← after_clear clear_table tsk_migration_table_clear table;
  after_append
    (tsk_migration_table_append_columns table (uint32_t_of num_rows)
       (float64_data left_array) (float64_data right_array)
       (int32_data node_array) (int32_data source_array)
       (int32_data dest_array) (float64_data time_array)).

Definition parse_site_table_dict (table : SiteTable.t)
    (dict : gmap string PyObject) (clear_table : bool) : result SiteTable.t :=
  position_input ← get_table_dict_value dict "position" true;
  ancestral_state_input ← get_table_dict_value dict "ancestral_state" true;
  ancestral_state_offset_input
    ← get_table_dict_value dict "ancestral_state_offset" true;
  metadata_input ← get_table_dict_value dict "metadata" false;
  metadata_offset_input ← get_table_dict_value dict "metadata_offset" false;
  '(position_array, num_rows)
    ← table_read_column_array position_input NPY_FLOAT64 0 false;
  '(ancestral_state_array, ancestral_state_length)
    ← table_read_column_array ancestral_state_input NPY_INT8 0 false;
  '(ancestral_state_offset_array, num_rows)
    ← table_read_offset_array ancestral_state_offset_input num_rows
          ancestral_state_length true;
  '(metadata, num_rows)
    ← read_optional_ragged metadata_input metadata_offset_input NPY_INT8
          num_rows false metadata_together;
  table ← after_clear clear_table tsk_site_table_clear table;
  after_append
    (tsk_site_table_append_columns table (uint32_t_of num_rows)
       (float64_data position_array) (int8_data ancestral_state_array)
       (uint32_data ancestral_state_offset_array)
       (int8_data ∘ fst <$> metadata) (uint32_data ∘ snd <$> metadata)).

Definition parse_mutation_table_dict (table : MutationTable.t)
    (dict : gmap string PyObject) (clear_table : bool)
  : result MutationTable.t :=
  site_input ← get_table_dict_value dict "site" true;
  node_input ← get_table_dict_value dict "node" true;
  parent_input ← get_table_dict_value dict "parent" false;
  derived_state_input ← get_table_dict_value dict "derived_state" true;
  derived_state_offset_input
    ← get_table_dict_value dict "derived_state_offset" true;
  metadata_input ← get_table_dict_value dict "metadata" false;
  metadata_offset_input ← get_table_dict_value dict "metadata_offset" false;
  '(site_array, num_rows)
    ← table_read_column_array site_input NPY_INT32 0 false;
  '(derived_state_array, derived_state_length)
    ← table_read_column_array derived_state_input NPY_INT8 0 false;
  '(derived_state_offset_array, num_rows)
    ← table_read_offset_array derived_state_offset_input num_rows
          derived_state_length true;
  '(node_array, num_rows)
    ← table_read_column_array node_input NPY_INT32 num_rows true;
  parent ← read_optional_column parent_input NPY_INT32 num_rows;
  '(metadata, num_rows)
    ← read_optional_ragged metadata_input metadata_offset_input NPY_INT8
          num_rows false metadata_together;
  table ← after_clear clear_table tsk_mutation_table_clear table;
  after_append
    (tsk_mutation_table_append_columns table (uint32_t_of num_rows)
       (int32_data site_array) (int32_data node_array)
       (int32_data <$> parent)
       (int8_data derived_state_array) (uint32_data derived_state_offset_array)
       (int8_data ∘ fst <$> metadata) (uint32_data ∘ snd <$> metadata)).

Definition parse_population_table_dict (table : PopulationTable.t)
    (dict : gmap string PyObject) (clear_table : bool)
  : result PopulationTable.t :=
  metadata_input ← get_table_dict_value dict "metadata" true;
  metadata_offset_input ← get_table_dict_value dict "metadata_offset" true;
  '(metadata_array, metadata_length)
    ← table_read_column_array metadata_input NPY_INT8 0 false;
  '(metadata_offset_array, num_rows)
    ← table_read_offset_array metadata_offset_input 0 metadata_length false;
  table ← after_clear clear_table tsk_population_table_clear table;
  after_append
    (tsk_population_table_append_columns table (uint32_t_of num_rows)
       (int8_data metadata_array) (uint32_data metadata_offset_array)).

Definition parse_provenance_table_dict (table : ProvenanceTable.t)
    (dict : gmap string PyObject) (clear_table : bool)
  : result ProvenanceTable.t :=
  timestamp_input ← get_table_dict_value dict "timestamp" true;
  timestamp_offset_input
    ← get_table_dict_value dict "timestamp_offset" true;
  record_input ← get_table_dict_value dict "record" true;
  record_offset_input ← get_table_dict_value dict "record_offset" true;
  '(timestamp_array, timestamp_length)
    ← table_read_column_array timestamp_input NPY_INT8 0 false;
  '(timestamp_offset_array, num_rows)
    ← table_read_offset_array timestamp_offset_input 0 timestamp_length
          false;
  '(record_array, record_length)
    ← table_read_column_array record_input NPY_INT8 0 false;
  '(record_offset_array, num_rows)
    ← table_read_offset_array record_offset_input num_rows record_length
          true;
  table ← after_clear clear_table tsk_provenance_table_clear table;
  after_append
    (tsk_provenance_table_append_columns table (uint32_t_of num_rows)
       (int8_data timestamp_array) (uint32_data timestamp_offset_array)
       (int8_data record_array) (uint32_data record_offset_array)).

(** The lookup of one table's dictionary in the collection's. *)
Definition get_table_dict (tables_dict : gmap string PyObject)
    (name : string) : result (gmap string PyObject) :=
  value ← get_table_dict_value tables_dict name true;
  match value with
  | PyDict d => Ok d
  | _ => Raise (PyErr_SetString PyExc_TypeError "not a dictionary")
  end.

(** [tables] is the pointer the caller holds: the object's collection, or
    the null pointer of an object that was never initialised, whose first
    dereference is the store of the sequence length. *)
Definition parse_table_collection_dict
    (tables : option tsk_table_collection_t)
    (tables_dict : gmap string PyObject) : result tsk_table_collection_t :=
  value ← get_table_dict_value tables_dict "sequence_length" true;
  if negb (PyNumber_Check value)
  then Raise (PyErr_Format PyExc_TypeError "'sequence_length' is not number" [])
  else
    match tables with
    | None => Undefined
    | Some tables =>
        let sequence_length := PyFloat_AsDouble value in
        value ← get_table_dict tables_dict "individuals";
        individuals
          ← parse_individual_table_dict (individuals tables) value true;
        value ← get_table_dict tables_dict "nodes";
        nodes ← parse_node_table_dict (nodes tables) value true;
        value ← get_table_dict tables_dict "edges";
        edges ← parse_edge_table_dict (edges tables) value true;
        value ← get_table_dict tables_dict "migrations";
        migrations
          ← parse_migration_table_dict (migrations tables) value true;
        value ← get_table_dict tables_dict "sites";
        sites ← parse_site_table_dict (sites tables) value true;
        value ← get_table_dict tables_dict "mutations";
        mutations ← parse_mutation_table_dict (mutations tables) value true;
        value ← get_table_dict tables_dict "populations";
        populations
          ← parse_population_table_dict (populations tables) value true;
        value ← get_table_dict tables_dict "provenances";
        provenances
          ← parse_provenance_table_dict (provenances tables) value true;
        Ok (mk_table_collection sequence_length individuals nodes edges
              migrations sites mutations populations provenances)
    end.

End TableDict.

(** A column of [write_table_arrays]: its name and the array over it. *)
Definition table_col (name : string) (data : npy_data) (num_rows : Z)
  : string * PyObject := (name, PyArray_SimpleNewFromData num_rows data).

(** The inner loop of [write_table_arrays]: a new dictionary with one
    array per column. *)
Definition write_cols (cols : list (string * PyObject))
  : gmap string PyObject :=
  fold_left (fun table_dict col =>
               PyDict_SetItemString table_dict (fst col) (snd col))
            cols ∅.

Definition individual_cols (t : IndividualTable.t)
  : list (string * PyObject) :=
  let n := IndividualTable.num_rows t in
  [ table_col "flags" (UInt32Data (IndividualTable.flags t)) n;
    table_col "location" (Float64Data (IndividualTable.location t))
      (Z.of_nat (length (IndividualTable.location t)));
    table_col "location_offset"
      (UInt32Data (IndividualTable.location_offset t)) (n + 1);
    table_col "metadata" (Int8Data (IndividualTable.metadata t))
      (Z.of_nat (length (IndividualTable.metadata t)));
    table_col "metadata_offset"
      (UInt32Data (IndividualTable.metadata_offset t)) (n + 1) ].

Definition node_cols (t : NodeTable.t) : list (string * PyObject) :=
  let n := NodeTable.num_rows t in
  [ table_col "time" (Float64Data (NodeTable.time t)) n;
    table_col "flags" (UInt32Data (NodeTable.flags t)) n;
    table_col "population" (Int32Data (NodeTable.population t)) n;
    table_col "individual" (Int32Data (NodeTable.individual t)) n;
    table_col "metadata" (Int8Data (NodeTable.metadata t))
      (Z.of_nat (length (NodeTable.metadata t)));
    table_col "metadata_offset" (UInt32Data (NodeTable.metadata_offset t))
      (n + 1) ].

Definition edge_cols (t : EdgeTable.t) : list (string * PyObject) :=
  let n := EdgeTable.num_rows t in
  [ table_col "left" (Float64Data (EdgeTable.left t)) n;
    table_col "right" (Float64Data (EdgeTable.right t)) n;
    table_col "parent" (Int32Data (EdgeTable.parent t)) n;
    table_col "child" (Int32Data (EdgeTable.child t)) n ].

Definition migration_cols (t : MigrationTable.t)
  : list (string * PyObject) :=
  let n := MigrationTable.num_rows t in
  [ table_col "left" (Float64Data (MigrationTable.left t)) n;
    table_col "right" (Float64Data (MigrationTable.right t)) n;
    table_col "node" (Int32Data (MigrationTable.node t)) n;
    table_col "source" (Int32Data (MigrationTable.source t)) n;
    table_col "dest" (Int32Data (MigrationTable.dest t)) n;
    table_col "time" (Float64Data (MigrationTable.time t)) n ].

Definition site_cols (t : SiteTable.t) : list (string * PyObject) :=
  let n := SiteTable.num_rows t in
  [ table_col "position" (Float64Data (SiteTable.position t)) n;
    table_col "ancestral_state" (Int8Data (SiteTable.ancestral_state t))
      (Z.of_nat (length (SiteTable.ancestral_state t)));
    table_col "ancestral_state_offset"
      (UInt32Data (SiteTable.ancestral_state_offset t)) (n + 1);
    table_col "metadata" (Int8Data (SiteTable.metadata t))
      (Z.of_nat (length (SiteTable.metadata t)));
    table_col "metadata_offset" (UInt32Data (SiteTable.metadata_offset t))
      (n + 1) ].

Definition mutation_cols (t : MutationTable.t) : list (string * PyObject) :=
  let n := MutationTable.num_rows t in
  [ table_col "site" (Int32Data (MutationTable.site t)) n;
    table_col "node" (Int32Data (MutationTable.node t)) n;
    table_col "parent" (Int32Data (MutationTable.parent t)) n;
    table_col "derived_state" (Int8Data (MutationTable.derived_state t))
      (Z.of_nat (length (MutationTable.derived_state t)));
    table_col "derived_state_offset"
      (UInt32Data (MutationTable.derived_state_offset t)) (n + 1);
    table_col "metadata" (Int8Data (MutationTable.metadata t))
      (Z.of_nat (length (MutationTable.metadata t)));
    table_col "metadata_offset" (UInt32Data (MutationTable.metadata_offset t))
      (n + 1) ].

Definition population_cols (t : PopulationTable.t)
  : list (string * PyObject) :=
  let n := PopulationTable.num_rows t in
  [ table_col "metadata" (Int8Data (PopulationTable.metadata t))
      (Z.of_nat (length (PopulationTable.metadata t)));
    table_col "metadata_offset" (UInt32Data (PopulationTable.metadata_offset t))
      (n + 1) ].

Definition provenance_cols (t : ProvenanceTable.t)
  : list (string * PyObject) :=
  let n := ProvenanceTable.num_rows t in
  [ table_col "timestamp" (Int8Data (ProvenanceTable.timestamp t))
      (Z.of_nat (length (ProvenanceTable.timestamp t)));
    table_col "timestamp_offset"
      (UInt32Data (ProvenanceTable.timestamp_offset t)) (n + 1);
    table_col "record" (Int8Data (ProvenanceTable.record t))
      (Z.of_nat (length (ProvenanceTable.record t)));
    table_col "record_offset" (UInt32Data (ProvenanceTable.record_offset t))
      (n + 1) ].

Definition table_descs (tables : tsk_table_collection_t)
  : list (string * list (string * PyObject)) :=
  [ ("individuals", individual_cols (individuals tables));
    ("nodes", node_cols (nodes tables));
    ("edges", edge_cols (edges tables));
    ("migrations", migration_cols (migrations tables));
    ("sites", site_cols (sites tables));
    ("mutations", mutation_cols (mutations tables));
    ("populations", population_cols (populations tables));
    ("provenances", provenance_cols (provenances tables)) ].

Definition write_table_arrays (tables : tsk_table_collection_t)
    (dict : gmap string PyObject) : gmap string PyObject :=
  fold_left (fun dict desc =>
               PyDict_SetItemString dict (fst desc)
                 (PyDict (write_cols (snd desc))))
            (table_descs tables) dict.

Definition dump_tables_dict (tables : tsk_table_collection_t) : PyObject :=
  let dict := PyDict_SetItemString ∅ "sequence_length"
                (PyFloat (sequence_length tables)) in
  PyDict (write_table_arrays tables dict).

Record LightweightTableCollection := mk_LightweightTableCollection {
  tables : option tsk_table_collection_t     (* None for NULL *)
}.

Definition tables_of (self : LightweightTableCollection)
  : option tsk_table_collection_t := tables self.

Definition LightweightTableCollection_check_state
    (self : LightweightTableCollection) : result tsk_table_collection_t :=
  match tables self with
  | None => Raise (PyErr_SetString PyExc_SystemError
                     "LightweightTableCollection not initialised")
  | Some t => Ok t
  end.

Definition LightweightTableCollection_asdict
    (self : LightweightTableCollection) : result PyObject :=
  t ← LightweightTableCollection_check_state self;
  Ok (dump_tables_dict t).

(** [fromdict(dict)]: on success the method returns [None] and the
    collection holds the parsed tables. *)
Definition LightweightTableCollection_fromdict
    (PyArray_FROMANY : PyObject -> npy_type -> Z -> Z -> result ndarray)
    (self : LightweightTableCollection) (arg : PyObject)
  : result (PyObject * LightweightTableCollection) :=
  match arg with
  | PyDict dict =>
      t' ← parse_table_collection_dict PyArray_FROMANY (tables self) dict;
      Ok (Py_None, mk_LightweightTableCollection (Some t'))
  | _ => Raise (PyErr_SetString PyExc_TypeError "argument 1 must be dict")
  end.

(** *** The encoding contract of a table collection *)

Definition UINT32_MAX : Z := 2 ^ 32 - 1.

(** An offset column for [num_rows] rows over [data_length] packed
    elements: [num_rows + 1] offsets that start at zero, end at
    [data_length] and never decrease. *)
Definition wf_offsets (num_rows : Z) (offset : list Z) (data_length : Z)
  : Prop :=
  Z.of_nat (length offset) = num_rows + 1 /\
  offset !! 0%nat = Some 0 /\
  offset !! Z.to_nat num_rows = Some data_length /\
  Sorted Z.le offset /\
  data_length <= UINT32_MAX.

Definition wf_column {A} (num_rows : Z) (column : list A) : Prop :=
  Z.of_nat (length column) = num_rows.

Definition wf_ragged {A} (num_rows : Z) (data : list A) (offset : list Z)
  : Prop := wf_offsets num_rows offset (Z.of_nat (length data)).

Definition wf_num_rows (num_rows : Z) : Prop := 0 <= num_rows < UINT32_MAX.

Definition wf_individual_table (t : IndividualTable.t) : Prop :=
  let n := IndividualTable.num_rows t in
  wf_num_rows n /\
  wf_column n (IndividualTable.flags t) /\
  wf_ragged n (IndividualTable.location t) (IndividualTable.location_offset t) /\
  wf_ragged n (IndividualTable.metadata t) (IndividualTable.metadata_offset t).

Definition wf_node_table (t : NodeTable.t) : Prop :=
  let n := NodeTable.num_rows t in
  wf_num_rows n /\
  wf_column n (NodeTable.time t) /\ wf_column n (NodeTable.flags t) /\
  wf_column n (NodeTable.population t) /\
  wf_column n (NodeTable.individual t) /\
  wf_ragged n (NodeTable.metadata t) (NodeTable.metadata_offset t).

Definition wf_edge_table (t : EdgeTable.t) : Prop :=
  let n := EdgeTable.num_rows t in
  wf_num_rows n /\
  wf_column n (EdgeTable.left t) /\ wf_column n (EdgeTable.right t) /\
  wf_column n (EdgeTable.parent t) /\ wf_column n (EdgeTable.child t).

Definition wf_migration_table (t : MigrationTable.t) : Prop :=
  let n := MigrationTable.num_rows t in
  wf_num_rows n /\
  wf_column n (MigrationTable.left t) /\ wf_column n (MigrationTable.right t) /\
  wf_column n (MigrationTable.node t) /\ wf_column n (MigrationTable.source t) /\
  wf_column n (MigrationTable.dest t) /\ wf_column n (MigrationTable.time t).

Definition wf_site_table (t : SiteTable.t) : Prop :=
  let n := SiteTable.num_rows t in
  wf_num_rows n /\
  wf_column n (SiteTable.position t) /\
  wf_ragged n (SiteTable.ancestral_state t)
    (SiteTable.ancestral_state_offset t) /\
  wf_ragged n (SiteTable.metadata t) (SiteTable.metadata_offset t).

Definition wf_mutation_table (t : MutationTable.t) : Prop :=
  let n := MutationTable.num_rows t in
  wf_num_rows n /\
  wf_column n (MutationTable.site t) /\ wf_column n (MutationTable.node t) /\
  wf_column n (MutationTable.parent t) /\
  wf_ragged n (MutationTable.derived_state t)
    (MutationTable.derived_state_offset t) /\
  wf_ragged n (MutationTable.metadata t) (MutationTable.metadata_offset t).

Definition wf_population_table (t : PopulationTable.t) : Prop :=
  let n := PopulationTable.num_rows t in
  wf_num_rows n /\
  wf_ragged n (PopulationTable.metadata t) (PopulationTable.metadata_offset t).

Definition wf_provenance_table (t : ProvenanceTable.t) : Prop :=
  let n := ProvenanceTable.num_rows t in
  wf_num_rows n /\
  wf_ragged n (ProvenanceTable.timestamp t)
    (ProvenanceTable.timestamp_offset t) /\
  wf_ragged n (ProvenanceTable.record t) (ProvenanceTable.record_offset t).

(** A table collection as the table library keeps it. *)
Definition wf_table_collection (T : tsk_table_collection_t) : Prop :=
  wf_individual_table (individuals T) /\ wf_node_table (nodes T) /\
  wf_edge_table (edges T) /\ wf_migration_table (migrations T) /\
  wf_site_table (sites T) /\ wf_mutation_table (mutations T) /\
  wf_population_table (populations T) /\
  wf_provenance_table (provenances T).

(** What the round trip assumes of numpy: an array that already has the
    requested element type and one dimension is taken as it is. *)
Definition keeps_arrays
    (PyArray_FROMANY : PyObject -> npy_type -> Z -> Z -> result ndarray)
  : Prop :=
  forall shape0 data,
    PyArray_FROMANY (PyArray (mk_ndarray [shape0] data)) (npy_dtype data) 1 1
    = Ok (mk_ndarray [shape0] data).

(** The first entry of a list of named values with the given name. *)
Fixpoint assoc {A} (key : string) (l : list (string * A)) : option A :=
  match l with
  | [] => None
  | (k, v) :: rest => if String.eqb k key then Some v else assoc key rest
  end.

(** ** The simulation kernel *)

(** The kernel ([msprime.h], [likelihood.h]) and the tree-sequence part of
    the table library are used through their C interface only.  Their
    state is opaque to this module, except for the simulation model,
    which the module reads.  A kernel function that returns an [int] and
    updates [*self] returns the code next to the new state. *)

Inductive model_type :=
| MSP_MODEL_HUDSON
| MSP_MODEL_SMC
| MSP_MODEL_SMC_PRIME
| MSP_MODEL_BETA
| MSP_MODEL_DIRAC
| MSP_MODEL_DTWF
| MSP_MODEL_SWEEP
| MSP_MODEL_WF_PED.

(** The union [params] of [simulation_model_t]. *)
Inductive model_params :=
| no_params
| dirac_coalescent (psi c : double)
| beta_coalescent (alpha truncation_point : double)
| sweep (locus : double).

Record simulation_model_t := mk_model {
  type : model_type;
  reference_size : double;
  params : model_params
}.

Definition model_type_eqb (a b : model_type) : bool :=
  match a, b with
  | MSP_MODEL_HUDSON, MSP_MODEL_HUDSON | MSP_MODEL_SMC, MSP_MODEL_SMC
  | MSP_MODEL_SMC_PRIME, MSP_MODEL_SMC_PRIME | MSP_MODEL_BETA, MSP_MODEL_BETA
  | MSP_MODEL_DIRAC, MSP_MODEL_DIRAC | MSP_MODEL_DTWF, MSP_MODEL_DTWF
  | MSP_MODEL_SWEEP, MSP_MODEL_SWEEP | MSP_MODEL_WF_PED, MSP_MODEL_WF_PED =>
      true
  | _, _ => false
  end.

(** The exit statuses of [msp_run], as [msprime.h] numbers them. *)
Definition MSP_EXIT_COALESCENCE : Z := 0.
Definition MSP_EXIT_MAX_EVENTS : Z := 1.
Definition MSP_EXIT_MAX_TIME : Z := 2.

Record msp_api := mk_msp_api {
  msp_t : Type;
  recomb_map_t : Type;
  tsk_treeseq_t : Type;
  msp_alloc : Z -> list sample_t -> recomb_map_t ->
              option tsk_table_collection_t -> gsl_rng -> Z * msp_t;
  msp_get_model : msp_t -> simulation_model_t;
  msp_get_model_name : msp_t -> string;
  msp_get_num_populations : msp_t -> Z;
  msp_set_simulation_model_hudson : msp_t -> double -> Z * msp_t;
  msp_set_simulation_model_dtwf : msp_t -> double -> Z * msp_t;
  msp_set_simulation_model_wf_ped : msp_t -> double -> Z * msp_t;
  msp_set_simulation_model_smc : msp_t -> double -> Z * msp_t;
  msp_set_simulation_model_smc_prime : msp_t -> double -> Z * msp_t;
  msp_set_simulation_model_dirac :
    msp_t -> double -> double -> double -> Z * msp_t;
  msp_set_simulation_model_beta :
    msp_t -> double -> double -> double -> Z * msp_t;
  msp_set_simulation_model_sweep_genic_selection :
    msp_t -> double -> double -> double -> double -> double -> double ->
    Z * msp_t;
  msp_set_start_time : msp_t -> double -> Z * msp_t;
  msp_set_store_migrations : msp_t -> bool -> Z * msp_t;
  msp_set_avl_node_block_size : msp_t -> Z -> Z * msp_t;
  msp_set_segment_block_size : msp_t -> Z -> Z * msp_t;
  msp_set_node_mapping_block_size : msp_t -> Z -> Z * msp_t;
  msp_set_gene_conversion_rate : msp_t -> double -> double -> Z * msp_t;
  msp_set_dimensions : msp_t -> Z -> Z -> Z * msp_t;
  msp_alloc_pedigree : msp_t -> Z -> Z -> Z * msp_t;
  msp_set_pedigree :
    msp_t -> Z -> list Z -> list Z -> list double -> list Z -> Z * msp_t;
  msp_set_population_configuration :
    msp_t -> Z -> double -> double -> Z * msp_t;
  msp_set_migration_matrix : msp_t -> Z -> list double -> Z * msp_t;
  msp_add_population_parameters_change :
    msp_t -> double -> Z -> double -> double -> Z * msp_t;
  msp_add_migration_rate_change : msp_t -> double -> Z -> double -> Z * msp_t;
  msp_add_mass_migration : msp_t -> double -> Z -> Z -> double -> Z * msp_t;
  msp_add_simple_bottleneck : msp_t -> double -> Z -> double -> Z * msp_t;
  msp_add_instantaneous_bottleneck :
    msp_t -> double -> Z -> double -> Z * msp_t;
  msp_add_census_event : msp_t -> double -> Z * msp_t;
  msp_set_store_full_arg : msp_t -> bool -> Z * msp_t;
  msp_initialise : msp_t -> Z * msp_t;
  msp_run : msp_t -> double -> Z -> Z * msp_t;
  tsk_treeseq_init :
    tsk_table_collection_t -> Z * tsk_treeseq_t * tsk_table_collection_t;
  msp_log_likelihood_arg : tsk_treeseq_t -> double -> double -> Z * double
}.

(** ** Computations on the simulator state *)

(** A computation that may raise and that updates a state, which it
    leaves as it is at the point of failure. *)
Definition M (S A : Type) : Type := S -> result A * S.

Definition M_ret_def {S A} (a : A) : M S A := fun s => (Ok a, s).

Definition M_bind_def {S A B} (k : A -> M S B) (m : M S A) : M S B :=
  fun s =>
    match m s with
    | (Ok a, s') => k a s'
    | (Raise e, s') => (Raise e, s')
    | (Undefined, s') => (Undefined, s')
    end.

#[global] Instance M_ret S : MRet (M S) := @M_ret_def S.
#[global] Instance M_bind S : MBind (M S) := @M_bind_def S.

Definition raise {S A} (e : PyErr) : M S A := fun s => (Raise e, s).

Definition lift {S A} (r : result A) : M S A := fun s => (r, s).

(** A call of a kernel function: its code is the value. *)
Definition kernel_call {S} (f : S -> Z * S) : M S Z :=
  fun s => let (err, s') := f s in (Ok err, s').

(** [if (err != 0) { handle_input_error(section, err); goto out; }] *)
Definition check_input {S} (section : string) (err : Z) : M S unit :=
  if negb (err =? 0) then raise (handle_input_error section err)
  else mret tt.

(** The loop [for (j = 0; j < PyList_Size(l); j++)], from index [j]. *)
Fixpoint for_each {S A} (body : Z -> A -> M S unit) (j : Z) (l : list A)
  : M S unit :=
  match l with
  | [] => mret tt
  | item :: rest => _ ← body j item; for_each body (j + 1) rest
  end.

(** The format unit [d] of [PyArg_ParseTuple]. *)
Definition PyArg_Parse_d (arg : PyObject) : result double :=
  match float_of_object arg with
  | Some d => Ok d
  | None => Raise (PyErr_SetString PyExc_TypeError "a float is required")
  end.

(** [PyObject_RichCompareBool(o, s, Py_EQ)] for a string [s] built by the
    module: a string equals the strings with the same characters; the
    comparison of an array of several elements has no truth value. *)
Definition PyObject_RichCompareBool_EQ (o : PyObject) (s : string)
  : result bool :=
  match o with
  | PyUnicode name => Ok (String.eqb name s)
  | PyArray a =>
      if npy_size (nd_data a) <=? 1 then Ok false
      else Raise (PyErr_SetString PyExc_ValueError
                    "The truth value of an array with more than one element is ambiguous")
  | _ => Ok false
  end.

Definition DBL_MAX : double := 0x1.fffffffffffffp+1023%float.
Definition GSL_NAN : double := nan.

(** ** Simulator *)

Section Simulator.

Context (K : msp_api).
Variable PyArray_FROMANY : PyObject -> npy_type -> Z -> Z -> result ndarray.

(** [self->sim], [None] for NULL.  The generator, map and tables that the
    object refers to are arguments of [Simulator_init] and are not read
    again by the functions below. *)
Record Simulator := mk_Simulator {
  sim : option (msp_t K)
}.

Definition Simulator_check_sim (self : Simulator) : result (msp_t K) :=
  match sim self with
  | None => Raise (PyErr_SetString PyExc_SystemError
                     "simulator not initialised")
  | Some s => Ok s
  end.

(** Runs a computation on [*self->sim] after [Simulator_check_sim]. *)
Definition on_sim {A} (self : Simulator) (m : M (msp_t K) A)
  : result A * Simulator :=
  match Simulator_check_sim self with
  | Ok s => let (r, s') := m s in (r, mk_Simulator (Some s'))
  | Raise e => (Raise e, self)
  | Undefined => (Undefined, self)
  end.

Definition parse_population_configuration (py_pop_config : list PyObject)
  : M (msp_t K) unit :=
  for_each
    (fun j item =>
       match item with
       | PyDict item =>
           value ← lift (get_dict_number item "initial_size");
           let initial_size := PyFloat_AsDouble value in
           value ← lift (get_dict_number item "growth_rate");
           let growth_rate := PyFloat_AsDouble value in
           err ← kernel_call (fun s =>
                    msp_set_population_configuration K s j
                      initial_size growth_rate);
           check_input "population configuration" err
       | _ => raise (PyErr_SetString PyExc_TypeError "not a dictionary")
       end)
    0 py_pop_config.

Definition Simulator_parse_population_configuration (self : Simulator)
    (py_pop_config : list PyObject) : result unit * Simulator :=
  on_sim self (parse_population_configuration py_pop_config).

(** [Simulator_parse_pedigree]; the function does not check [self->sim],
    its caller has allocated it. *)
Definition Simulator_parse_pedigree (pedigree_dict : gmap string PyObject)
  : M (msp_t K) unit :=
  inds_input ← lift (get_table_dict_value pedigree_dict "individual" true);
  parents_input ← lift (get_table_dict_value pedigree_dict "parents" true);
  times_input ← lift (get_table_dict_value pedigree_dict "time" true);
  is_sample_input ← lift (get_table_dict_value pedigree_dict "is_sample" true);
  parents_array ← lift (PyArray_FROMANY parents_input NPY_INT32 2 2);
  let shape := nd_shape parents_array in
  let parents := int32_data parents_array in
  let num_inds := size_t_of (nth 0 shape 0) in
  let ploidy := wrap_signed 32 (nth 1 shape 0) in
  '(inds_array, num_inds) ←
    lift (table_read_column_array PyArray_FROMANY inds_input NPY_INT32
            num_inds true);
  '(times_array, num_inds) ←
    lift (table_read_column_array PyArray_FROMANY times_input NPY_FLOAT64
            num_inds true);
  '(is_sample_array, num_inds) ←
    lift (table_read_column_array PyArray_FROMANY is_sample_input NPY_UINT32
            num_inds true);
  ret ← kernel_call (fun s => msp_alloc_pedigree K s num_inds ploidy);
  _ ← check_input "pedigree" ret;
  ret ← kernel_call (fun s =>
           msp_set_pedigree K s num_inds (int32_data inds_array) parents
             (float64_data times_array) (uint32_data is_sample_array));
  check_input "pedigree" ret.

(** The loop of [Simulator_parse_migration_matrix] over the entries. *)
Fixpoint parse_migration_rates (py_migration_matrix : list PyObject)
  : result (list double) :=
  match py_migration_matrix with
  | [] => Ok []
  | value :: rest =>
      if negb (PyNumber_Check value)
      then Raise (PyErr_Format PyExc_TypeError "Migration rate not a number" [])
      else
        let rate := PyFloat_AsDouble value in
        if dlt rate 0
        then Raise (PyErr_Format PyExc_ValueError
                      "Negative values not permitted" [])
        else rates ← parse_migration_rates rest; Ok (rate :: rates)
  end.

Definition parse_migration_matrix (py_migration_matrix : list PyObject)
  : M (msp_t K) unit :=
  fun s =>
    let size := Z.of_nat (length py_migration_matrix) in
    let num_populations := size_t_of (msp_get_num_populations K s) in
    if negb (size_t_of (num_populations * num_populations) =? size)
    then (Raise (PyErr_Format PyExc_ValueError
                   "Migration matrix must be a flattened num_populations*num_populations square array"
                   []), s)
    else
      match parse_migration_rates py_migration_matrix with
      | Ok migration_matrix =>
          let (err, s') :=
            msp_set_migration_matrix K s size migration_matrix in
          if negb (err =? 0)
          then (Raise (handle_input_error "migration matrix" err), s')
          else (Ok tt, s')
      | Raise e => (Raise e, s)
      | Undefined => (Undefined, s)
      end.

Definition Simulator_parse_migration_matrix (self : Simulator)
    (py_migration_matrix : list PyObject) : result unit * Simulator :=
  on_sim self (parse_migration_matrix py_migration_matrix).

Definition Simulator_parse_sweep_genic_selection_model
    (py_model : gmap string PyObject) (reference_size : double)
  : M (msp_t K) unit :=
  value ← lift (get_dict_number py_model "position");
  let position := PyFloat_AsDouble value in
  value ← lift (get_dict_number py_model "start_frequency");
  let start_frequency := PyFloat_AsDouble value in
  value ← lift (get_dict_number py_model "end_frequency");
  let end_frequency := PyFloat_AsDouble value in
  value ← lift (get_dict_number py_model "alpha");
  let alpha := PyFloat_AsDouble value in
  value ← lift (get_dict_number py_model "dt");
  let dt := PyFloat_AsDouble value in
  err ← kernel_call (fun s =>
           msp_set_simulation_model_sweep_genic_selection K s reference_size
             position start_frequency end_frequency alpha dt);
  check_input "sweep genic selection" err.

(** [if (is_x) { err = set(self->sim, reference_size); }] *)
Definition set_if (is_x : bool) (err : Z) (set : msp_t K -> Z * msp_t K)
  : M (msp_t K) Z :=
  if is_x then kernel_call set else mret err.

Definition parse_simulation_model (py_model : gmap string PyObject)
  : M (msp_t K) unit :=
  let err := 0 in
  value ← lift (get_dict_number py_model "reference_size");
  let reference_size := PyFloat_AsDouble value in
  if dle reference_size 0
  then raise (PyErr_SetString PyExc_ValueError "population size must be >= 0")
  else
    py_name ← lift (get_dict_value py_model "name");
    is_hudson ← lift (PyObject_RichCompareBool_EQ py_name "hudson");
    err ← set_if is_hudson err (fun s =>
             msp_set_simulation_model_hudson K s reference_size);
    is_dtwf ← lift (PyObject_RichCompareBool_EQ py_name "dtwf");
    err ← set_if is_dtwf err (fun s =>
             msp_set_simulation_model_dtwf K s reference_size);
    is_wf_ped ← lift (PyObject_RichCompareBool_EQ py_name "wf_ped");
    err ← set_if is_wf_ped err (fun s =>
             msp_set_simulation_model_wf_ped K s reference_size);
    is_smc ← lift (PyObject_RichCompareBool_EQ py_name "smc");
    err ← set_if is_smc err (fun s =>
             msp_set_simulation_model_smc K s reference_size);
    is_smc_prime ← lift (PyObject_RichCompareBool_EQ py_name "smc_prime");
    err ← set_if is_smc_prime err (fun s =>
             msp_set_simulation_model_smc_prime K s reference_size);
    is_dirac ← lift (PyObject_RichCompareBool_EQ py_name "dirac");
    err ←
      (if is_dirac
       then
         value ← lift (get_dict_number py_model "psi");
         let psi := PyFloat_AsDouble value in
         value ← lift (get_dict_number py_model "c");
         let c := PyFloat_AsDouble value in
         if dle psi 0 || dge psi 1
         then raise (PyErr_SetString PyExc_ValueError "Must have 0 < psi < 1")
         else if dlt c 0
         then raise (PyErr_SetString PyExc_ValueError "c >= 0")
         else kernel_call (fun s =>
                msp_set_simulation_model_dirac K s reference_size psi c)
       else mret err);
    is_beta ← lift (PyObject_RichCompareBool_EQ py_name "beta");
    err ←
      (if is_beta
       then
         value ← lift (get_dict_number py_model "alpha");
         let alpha := PyFloat_AsDouble value in
         value ← lift (get_dict_number py_model "truncation_point");
         let truncation_point := PyFloat_AsDouble value in
         (* TODO range checking on alpha and truncation_point *)
         kernel_call (fun s =>
           msp_set_simulation_model_beta K s reference_size
             alpha truncation_point)
       else mret err);
    is_sweep_genic_selection ←
      lift (PyObject_RichCompareBool_EQ py_name "sweep_genic_selection");
    _ ← (if is_sweep_genic_selection
         then Simulator_parse_sweep_genic_selection_model py_model
                reference_size
         else mret tt);
    if negb (is_hudson || is_dtwf || is_smc || is_smc_prime || is_dirac
             || is_beta || is_sweep_genic_selection || is_wf_ped)
    then raise (PyErr_SetString PyExc_ValueError "Unknown simulation model")
    else check_input "simulation model" err.

Definition Simulator_parse_simulation_model (self : Simulator)
    (py_model : gmap string PyObject) : result unit * Simulator :=
  on_sim self (parse_simulation_model py_model).

Definition Simulator_get_model (self : Simulator) : result PyObject :=
  s ← Simulator_check_sim self;
  let model := msp_get_model K s in
  let d := PyDict_SetItemString
             (PyDict_SetItemString ∅ "name"
                (PyUnicode (msp_get_model_name K s)))
             "reference_size" (PyFloat (reference_size model)) in
  match type model with
  | MSP_MODEL_DIRAC =>
      match params model with
      | dirac_coalescent psi c =>
          Ok (PyDict (PyDict_SetItemString
                        (PyDict_SetItemString d "psi" (PyFloat psi))
                        "c" (PyFloat c)))
      | _ => Undefined
      end
  | MSP_MODEL_BETA =>
      match params model with
      | beta_coalescent alpha truncation_point =>
          Ok (PyDict (PyDict_SetItemString
                        (PyDict_SetItemString d "alpha" (PyFloat alpha))
                        "truncation_point" (PyFloat truncation_point)))
      | _ => Undefined
      end
  | MSP_MODEL_SWEEP =>
      match params model with
      | sweep locus => Ok (PyDict (PyDict_SetItemString d "locus"
                                     (PyFloat locus)))
      | _ => Undefined
      end
  | _ => Ok (PyDict d)
  end.

(** [Simulator_set_model(model)] *)
Definition Simulator_set_model (self : Simulator) (arg : PyObject)
  : result PyObject * Simulator :=
  match Simulator_check_sim self with
  | Ok _ =>
      match arg with
      | PyDict py_model =>
          match Simulator_parse_simulation_model self py_model with
          | (Ok _, self') => (Ok Py_None, self')
          | (Raise e, self') => (Raise e, self')
          | (Undefined, self') => (Undefined, self')
          end
      | _ => (Raise (PyErr_SetString PyExc_TypeError
                       "argument 1 must be dict"), self)
      end
  | Raise e => (Raise e, self)
  | Undefined => (Undefined, self)
  end.

Definition int_of_long (z : Z) : Z := wrap_signed 32 z.

(** The body of the loop of [Simulator_parse_demographic_events] for the
    event at index [j]. *)
Definition parse_demographic_event (j : Z) (item : PyObject)
  : M (msp_t K) unit :=
  match item with
  | PyDict item =>
      value ← lift (get_dict_number item "time");
      let time := PyFloat_AsDouble value in
      if dlt time 0
      then raise (PyErr_SetString PyExc_ValueError "negative times not valid")
      else
        type ← lift (get_dict_value item "type");
        is_population_parameter_change ←
          lift (PyObject_RichCompareBool_EQ type "population_parameters_change");
        is_migration_rate_change ←
          lift (PyObject_RichCompareBool_EQ type "migration_rate_change");
        is_mass_migration ←
          lift (PyObject_RichCompareBool_EQ type "mass_migration");
        is_simple_bottleneck ←
          lift (PyObject_RichCompareBool_EQ type "simple_bottleneck");
        is_instantaneous_bottleneck ←
          lift (PyObject_RichCompareBool_EQ type "instantaneous_bottleneck");
        is_census_event ←
          lift (PyObject_RichCompareBool_EQ type "census_event");
        err ←
          (if (is_population_parameter_change : bool)
           then
             initial_size ←
               (if bool_decide (is_Some (item !! "initial_size"))
                then value ← lift (get_dict_number item "initial_size");
                     mret (PyFloat_AsDouble value)
                else mret GSL_NAN) : M (msp_t K) double;
             growth_rate ←
               (if bool_decide (is_Some (item !! "growth_rate"))
                then value ← lift (get_dict_number item "growth_rate");
                     mret (PyFloat_AsDouble value)
                else mret GSL_NAN) : M (msp_t K) double;
             value ← lift (get_dict_number item "population");
             let population_id := int_of_long (PyLong_AsLong value) in
             kernel_call (fun s =>
               msp_add_population_parameters_change K s time population_id
                 initial_size growth_rate)
           else if (is_migration_rate_change : bool)
           then
             value ← lift (get_dict_number item "migration_rate");
             let migration_rate := PyFloat_AsDouble value in
             value ← lift (get_dict_number item "matrix_index");
             let matrix_index := int_of_long (PyLong_AsLong value) in
             kernel_call (fun s =>
               msp_add_migration_rate_change K s time matrix_index
                 migration_rate)
           else if (is_mass_migration : bool)
           then
             value ← lift (get_dict_number item "proportion");
             let proportion := PyFloat_AsDouble value in
             value ← lift (get_dict_number item "source");
             let source := int_of_long (PyLong_AsLong value) in
             value ← lift (get_dict_number item "dest");
             let destination := int_of_long (PyLong_AsLong value) in
             kernel_call (fun s =>
               msp_add_mass_migration K s time source destination proportion)
           else if (is_simple_bottleneck : bool)
           then
             value ← lift (get_dict_number item "proportion");
             let proportion := PyFloat_AsDouble value in
             value ← lift (get_dict_number item "population");
             let population_id := int_of_long (PyLong_AsLong value) in
             kernel_call (fun s =>
               msp_add_simple_bottleneck K s time population_id proportion)
           else if (is_instantaneous_bottleneck : bool)
           then
             value ← lift (get_dict_number item "strength");
             let strength := PyFloat_AsDouble value in
             value ← lift (get_dict_number item "population");
             let population_id := int_of_long (PyLong_AsLong value) in
             kernel_call (fun s =>
               msp_add_instantaneous_bottleneck K s time population_id
                 strength)
           else if (is_census_event : bool)
           then kernel_call (fun s => msp_add_census_event K s time)
           else raise (PyErr_Format PyExc_ValueError
                         "Unknown demographic event type" []))
          : M (msp_t K) Z;
        if negb (err =? 0)
        then raise (PyErr_Format MsprimeInputError
                      "Input error in demographic_events[%d]: %s"
                      [ArgInt (int_of_long j); ArgMspStrerror err])
        else mret tt
  | _ => raise (PyErr_SetString PyExc_TypeError "not a dictionary")
  end.

Definition Simulator_parse_demographic_events (self : Simulator)
    (py_events : list PyObject) : result unit * Simulator :=
  on_sim self (for_each parse_demographic_event 0 py_events).

Record RecombinationMap := mk_RecombinationMap {
  recomb_map : option (recomb_map_t K)
}.

Definition RecombinationMap_check_recomb_map (self : RecombinationMap)
  : result (recomb_map_t K) :=
  match recomb_map self with
  | None => Raise (PyErr_SetString PyExc_ValueError
                     "recomb_map not initialised")
  | Some m => Ok m
  end.

(** The arguments of [Simulator_init] after [PyArg_ParseTupleAndKeywords]
    has checked their types; an optional argument that was not given is
    [None], except [pedigree], whose default is the object [Py_None]. *)
Record Simulator_args := mk_Simulator_args {
  py_samples : list PyObject;
  recombination_map : RecombinationMap;
  random_generator : RandomGenerator;
  tables_arg : LightweightTableCollection;
  population_configuration : option (list PyObject);
  pedigree : PyObject;
  migration_matrix : option (list PyObject);
  demographic_events : option (list PyObject);
  py_model : option (gmap string PyObject);
  avl_node_block_size : Z;
  segment_block_size : Z;
  node_mapping_block_size : Z;
  store_migrations : Z;
  start_time : double;
  store_full_arg : Z;
  num_labels : Z;
  gene_conversion_rate : double;
  gene_conversion_track_length : double
}.

(** [Simulator_init] up to the allocation of the simulator: the number of
    populations, the samples and the state that [msp_alloc] is given. *)
Definition Simulator_init_samples (args : Simulator_args)
  : result (Z * Z * list sample_t * recomb_map_t K * gsl_rng) :=
  _ ← RandomGenerator_check_state (random_generator args);
  recomb ← RecombinationMap_check_recomb_map (recombination_map args);
  num_populations ←
    match population_configuration args with
    | Some l =>
        if Z.of_nat (length l) =? 0
        then Raise (PyErr_SetString PyExc_ValueError
                      "Empty population configuration")
        else Ok (Z.of_nat (length l))
    | None => Ok 1
    end;
  '(num_samples, samples) ← parse_samples (py_samples args) num_populations;
  match rg_rng (random_generator args) with
  | Some rng => Ok (num_populations, num_samples, samples, recomb, rng)
  | None => Undefined
  end.

(** From the model to [msp_set_dimensions]. *)
Definition Simulator_init_configure (args : Simulator_args)
    (num_populations : Z) : M (msp_t K) unit :=
  _ ← match py_model args with
      | Some py_model => parse_simulation_model py_model
      | None => mret tt
      end;
  _ ← (if dge (start_time args) 0
       then sim_ret ← kernel_call (fun s =>
                         msp_set_start_time K s (start_time args));
            check_input "start time" sim_ret
       else mret tt);
  sim_ret ← kernel_call (fun s =>
               msp_set_store_migrations K s
                 (negb (store_migrations args =? 0)));
  _ ← check_input "store migrations" sim_ret;
  sim_ret ← kernel_call (fun s =>
               msp_set_avl_node_block_size K s
                 (size_t_of (avl_node_block_size args)));
  _ ← check_input "avl_node_block_size" sim_ret;
  sim_ret ← kernel_call (fun s =>
               msp_set_segment_block_size K s
                 (size_t_of (segment_block_size args)));
  _ ← check_input "segment_block_size" sim_ret;
  sim_ret ← kernel_call (fun s =>
               msp_set_node_mapping_block_size K s
                 (size_t_of (node_mapping_block_size args)));
  _ ← check_input "node_mapping_block_size" sim_ret;
  sim_ret ← kernel_call (fun s =>
               msp_set_gene_conversion_rate K s (gene_conversion_rate args)
                 (gene_conversion_track_length args));
  _ ← check_input "set_gene_conversion_rate" sim_ret;
  sim_ret ← kernel_call (fun s =>
               msp_set_dimensions K s (size_t_of num_populations)
                 (size_t_of (num_labels args)));
  check_input "set_dimensions" sim_ret.

(** From the check of the code of [msp_alloc] to [msp_set_dimensions]. *)
Definition Simulator_init_to_pedigree (args : Simulator_args)
    (num_populations : Z) (sim_ret : Z) : M (msp_t K) unit :=
  _ ← check_input "simulator alloc" sim_ret;
  Simulator_init_configure args num_populations.

(** [if (pedigree != Py_None) { ... }] *)
Definition Simulator_init_pedigree (args : Simulator_args)
  : M (msp_t K) unit :=
  if negb (is_None (pedigree args))
  then
    match pedigree args with
    | PyDict pedigree =>
        fun s =>
          if negb (model_type_eqb (type (msp_get_model K s)) MSP_MODEL_WF_PED)
          then (Raise (PyErr_SetString PyExc_ValueError
                         "A pedigree can only be supplied under the `msprime.WrightFisherPedigree` simulation model"),
                s)
          else Simulator_parse_pedigree pedigree s
    | _ => raise (PyErr_SetString PyExc_TypeError
                    "Pedigree must be a dictionary")
    end
  else mret tt.

(** From the population configuration to [msp_initialise]. *)
Definition Simulator_init_demography (args : Simulator_args)
  : M (msp_t K) unit :=
  _ ← match population_configuration args with
      | Some population_configuration =>
          _ ← parse_population_configuration population_configuration;
          match migration_matrix args with
          | None =>
              raise (PyErr_SetString PyExc_ValueError
                       "A migration matrix must be provided when a non-default population configuration is used.")
          | Some migration_matrix => parse_migration_matrix migration_matrix
          end
      | None =>
          match migration_matrix args with
          | Some _ =>
              raise (PyErr_SetString PyExc_ValueError
                       "Cannot supply migration_matrix without population_configuration.")
          | None => mret tt
          end
      end;
  _ ← match demographic_events args with
      | Some demographic_events =>
          for_each parse_demographic_event 0 demographic_events
      | None => mret tt
      end;
  _ ← kernel_call (fun s =>
         msp_set_store_full_arg K s (negb (store_full_arg args =? 0)));
  sim_ret ← kernel_call (msp_initialise K);
  check_input "initialise" sim_ret.

(** [Simulator_init]: the outcome and the object, whose [sim] is NULL
    when the failure comes before the allocation. *)
Definition Simulator_init (args : Simulator_args) : result unit * Simulator :=
  match Simulator_init_samples args with
  | Ok (num_populations, num_samples, samples, recomb, rng) =>
      let (sim_ret, s) :=
        msp_alloc K (size_t_of num_samples) samples recomb
          (tables (tables_arg args)) rng in
      let (r, s') :=
        (_ ← Simulator_init_to_pedigree args num_populations sim_ret;
         _ ← Simulator_init_pedigree args;
         Simulator_init_demography args) s in
      (r, mk_Simulator (Some s'))
  | Raise e => (Raise e, mk_Simulator None)
  | Undefined => (Undefined, mk_Simulator None)
  end.

(** The loop of [Simulator_run].  [signals n] is what the [n]-th call of
    [PyErr_CheckSignals] during the run finds: [Some e] when a signal
    handler has raised [e].  [calls] counts the calls made so far, and
    [fuel] bounds the iterations: [None] when it runs out. *)
Fixpoint Simulator_run_loop (fuel : nat) (end_time : double)
    (signals : nat -> option PyErr) (calls : nat) (s : msp_t K)
  : option (result PyObject * msp_t K) :=
  match fuel with
  | O => None
  | S fuel =>
      let chunk := 1024 in
      let (status, s) := msp_run K s end_time chunk in
      if status <? 0 then Some (Raise (handle_library_error status), s)
      else
        let not_done := status =? MSP_EXIT_MAX_EVENTS in
        match signals calls with
        | Some e => Some (Raise e, s)
        | None =>
            if not_done
            then Simulator_run_loop fuel end_time signals (S calls) s
            else
              let coalesced := status =? 0 in
              Some (Ok (if coalesced then Py_True else Py_False), s)
        end
  end.

(** The format [|d] of [Simulator_run]: the end time, [DBL_MAX] when the
    argument is not given. *)
Definition run_end_time (arg : option PyObject) : result double :=
  match arg with
  | Some o => PyArg_Parse_d o
  | None => Ok DBL_MAX
  end.

(** [Simulator_run(end_time)] *)
Definition Simulator_run (fuel : nat) (signals : nat -> option PyErr)
    (self : Simulator) (arg : option PyObject)
  : option (result PyObject * Simulator) :=
  match Simulator_check_sim self with
  | Ok s =>
      match run_end_time arg with
      | Ok end_time =>
          if dlt end_time 0
          then Some (Raise (PyErr_SetString PyExc_ValueError
                              "end_time must be > 0"), self)
          else
            match Simulator_run_loop fuel end_time signals 0 s with
            | Some (r, s') => Some (r, mk_Simulator (Some s'))
            | None => None
            end
      | Raise e => Some (Raise e, self)
      | Undefined => Some (Undefined, self)
      end
  | Raise e => Some (Raise e, self)
  | Undefined => Some (Undefined, self)
  end.

(** ** Module level functions *)

(** [log_likelihood_arg(tables, Ne, recombination_rate)]: the outcome and
    the table collection, which [tsk_treeseq_init] is given with
    [TSK_BUILD_INDEXES]. *)
Definition msprime_log_likelihood_arg (tables : LightweightTableCollection)
    (Ne recombination_rate : double)
  : result PyObject * LightweightTableCollection :=
  if dlt recombination_rate 0
  then (Raise (PyErr_SetString PyExc_ValueError
                 "recombination_rate must be >= 0"), tables)
  else
    match tables_of tables with
    | None => (Undefined, tables)
    | Some t =>
        let '(err, ts, t') := tsk_treeseq_init K t in
        let tables := mk_LightweightTableCollection (Some t') in
        if negb (err =? 0)
        then (Raise (handle_tskit_library_error err), tables)
        else
          let (err, ret_likelihood) :=
            msp_log_likelihood_arg K ts recombination_rate Ne in
          if negb (err =? 0) then (Raise (handle_library_error err), tables)
          else (Ok (PyFloat ret_likelihood), tables)
    end.

End Simulator.

(** ** The GSL error handler *)

(** A value of type [gsl_error_handler_t *]. *)
Inductive gsl_error_handler_t :=
| NULL_handler                  (* NULL: GSL's default, which aborts *)
| no_error_handler              (* the handler that ignores errors *)
| user_handler (id : nat).      (* a handler installed by someone else *)

(** The file-scope variables of the module, and the handler variable of
    GSL, which belongs to the process. *)
Record globals := mk_globals {
  gsl_error_handler : gsl_error_handler_t;       (* inside GSL *)
  old_gsl_error_handler : gsl_error_handler_t;   (* static, this module *)
  MsprimeInputError_obj : option string;         (* static PyObject * *)
  MsprimeLibraryError_obj : option string        (* static PyObject * *)
}.

(** [gsl_set_error_handler]: installs a handler, returns the previous. *)
Definition gsl_set_error_handler (new_handler : gsl_error_handler_t)
    (g : globals) : gsl_error_handler_t * globals :=
  (gsl_error_handler g,
   mk_globals new_handler (old_gsl_error_handler g)
     (MsprimeInputError_obj g) (MsprimeLibraryError_obj g)).

(** [gsl_set_error_handler_off]: installs the handler that ignores
    errors, returns the previous. *)
Definition gsl_set_error_handler_off (g : globals)
  : gsl_error_handler_t * globals :=
  gsl_set_error_handler no_error_handler g.

Definition msprime_restore_gsl_error_handler (g : globals)
  : PyObject * globals :=
  let (_, g) := gsl_set_error_handler (old_gsl_error_handler g) g in
  (Py_None, g).

Definition msprime_unset_gsl_error_handler (g : globals)
  : PyObject * globals :=
  let (previous, g) := gsl_set_error_handler_off g in
  (Py_None,
   mk_globals (gsl_error_handler g) previous
     (MsprimeInputError_obj g) (MsprimeLibraryError_obj g)).

(** [PyInit__msprime], as far as the globals go: the two exception
    classes are created and the saved handler is set to NULL. *)
Definition PyInit__msprime (g : globals) : globals :=
  mk_globals (gsl_error_handler g) NULL_handler
    (Some "_msprime.InputError") (Some "_msprime.LibraryError").

(** ** What the properties speak of *)

(** *** The driver loop *)

Section KernelRuns.

Context (K : msp_api).

(** The kernel state before the [n]-th call of [msp_run] of a run that
    started in [s] (calls are counted from zero). *)
Fixpoint state_before (end_time : double) (s : msp_t K) (n : nat)
  : msp_t K :=
  match n with
  | O => s
  | S n => snd (msp_run K (state_before end_time s n) end_time 1024)
  end.

(** The status that the [n]-th call returns. *)
Definition status_of (end_time : double) (s : msp_t K) (n : nat) : Z :=
  fst (msp_run K (state_before end_time s n) end_time 1024).

(** What [Simulator_run] answers when its loop ends with the status
    [status] and the signal check finds [signal]. *)
Definition run_outcome (status : Z) (signal : option PyErr)
  : result PyObject :=
  if status <? 0 then Raise (handle_library_error status)
  else
    match signal with
    | Some e => Raise e
    | None => Ok (if status =? 0 then Py_True else Py_False)
    end.

(** *** The kernel's configuration calls *)

Definition valid_beta (alpha truncation_point : double) : bool :=
  dlt 1 alpha && dlt alpha 2 && dlt 0 truncation_point
  && dle truncation_point 1.

Definition valid_dirac (psi c : double) : bool :=
  dlt 0 psi && dlt psi 1 && dle 0 c.

(** Modelled from the spec: the kernel function
    [msp_set_simulation_model_beta] ([msprime.c] is not part of the
    sources).  The spec gives the Beta model the parameters alpha in
    (1,2) and truncation_point in (0,1] and has every fallible
    operation report an error by a negative code: for parameters
    outside these ranges the setter returns a negative code and leaves
    the model as it was. *)
Definition beta_setter_validates : Prop :=
  forall s reference_size alpha truncation_point,
    valid_beta alpha truncation_point = false ->
    fst (msp_set_simulation_model_beta K s reference_size alpha
           truncation_point) < 0 /\
    msp_get_model K
      (snd (msp_set_simulation_model_beta K s reference_size alpha
              truncation_point))
    = msp_get_model K s.

(** Modelled from the spec: the kernel function
    [msp_set_simulation_model_dirac] ([msprime.c] is not part of the
    sources).  The spec gives the Dirac model a reference size above
    zero and the parameters psi in (0,1) and c >= 0: for such values the
    setter succeeds and the model of the simulator is the Dirac model
    with that reference size, psi and c. *)
Definition dirac_setter_installs : Prop :=
  forall s reference_size psi c,
    dlt 0 reference_size = true -> valid_dirac psi c = true ->
    fst (msp_set_simulation_model_dirac K s reference_size psi c) = 0 /\
    msp_get_model K
      (snd (msp_set_simulation_model_dirac K s reference_size psi c))
    = mk_model MSP_MODEL_DIRAC reference_size (dirac_coalescent psi c).

(** Modelled from the spec: the kernel function
    [msp_set_migration_matrix] ([msprime.c] is not part of the sources).
    The spec takes a row-major P x P matrix of non-negative doubles and
    ignores the diagonal: the setter accepts every matrix of P * P
    doubles each of which is at least zero.  Nothing is assumed of a
    matrix with an entry that is below zero or is not a number. *)
Definition migration_matrix_setter_accepts : Prop :=
  forall s size migration_matrix,
    size = msp_get_num_populations K s * msp_get_num_populations K s ->
    Z.of_nat (length migration_matrix) = size ->
    Forall (fun rate => dle 0 rate = true) migration_matrix ->
    fst (msp_set_migration_matrix K s size migration_matrix) = 0.

End KernelRuns.

(** *** The constructor *)

(** [Simulator_init] has allocated the simulator and configured it up to
    [msp_set_dimensions] without an error, and [s] is the state of the
    kernel at that point, where the pedigree is looked at. *)
Definition reaches_pedigree_check (K : msp_api) (args : Simulator_args K)
    (s : msp_t K) : Prop :=
  exists num_populations num_samples samples recomb rng,
    let allocated :=
      msp_alloc K (size_t_of num_samples) samples recomb
        (tables (tables_arg K args)) rng in
    Simulator_init_samples K args
    = Ok (num_populations, num_samples, samples, recomb, rng) /\
    Simulator_init_to_pedigree K args num_populations (fst allocated)
      (snd allocated)
    = (Ok tt, s).

(** *** A kernel for the examples *)

(** The table library refuses a sequence length that is not positive. *)
Definition TSK_ERR_BAD_SEQUENCE_LENGTH : Z := -204.
Definition MSP_ERR_BAD_PARAM_VALUE : Z := -4.

(** The state of the example kernel: the model, the number of
    populations, the migration matrix, and the statuses that the next
    calls of [msp_run] return. *)
Record example_msp_t := mk_example_msp {
  ex_model : simulation_model_t;
  ex_num_populations : Z;
  ex_migration_matrix : list double;
  ex_statuses : list Z
}.

Definition ex_set_model (t : model_type) (p : model_params)
    (s : example_msp_t) (reference_size : double) : Z * example_msp_t :=
  (0, mk_example_msp (mk_model t reference_size p) (ex_num_populations s)
        (ex_migration_matrix s) (ex_statuses s)).

Definition ex_model_name (t : model_type) : string :=
  match t with
  | MSP_MODEL_HUDSON => "hudson"
  | MSP_MODEL_SMC => "smc"
  | MSP_MODEL_SMC_PRIME => "smc_prime"
  | MSP_MODEL_DTWF => "dtwf"
  | MSP_MODEL_WF_PED => "wf_ped"
  | MSP_MODEL_DIRAC => "dirac"
  | MSP_MODEL_BETA => "beta"
  | MSP_MODEL_SWEEP => "sweep_genic_selection"
  end.

Definition ex_keep (s : example_msp_t) : Z * example_msp_t := (0, s).

Definition ex_run (s : example_msp_t) (end_time : double) (chunk : Z)
  : Z * example_msp_t :=
  match ex_statuses s with
  | [] => (MSP_EXIT_COALESCENCE, s)
  | status :: rest =>
      (status, mk_example_msp (ex_model s) (ex_num_populations s)
                 (ex_migration_matrix s) rest)
  end.

(** A kernel that keeps what the configuration calls give it, checks the
    parameters of the Dirac and Beta models and the migration matrix as
    the spec states them, and plays a script of exit statuses. *)
Definition example_kernel : msp_api := {|
  msp_t := example_msp_t;
  recomb_map_t := unit;
  tsk_treeseq_t := unit;
  msp_alloc := fun _ _ _ _ _ =>
    (0, mk_example_msp (mk_model MSP_MODEL_HUDSON 1 no_params) 1 [0%float] []);
  msp_get_model := ex_model;
  msp_get_model_name := fun s => ex_model_name (type (ex_model s));
  msp_get_num_populations := ex_num_populations;
  msp_set_simulation_model_hudson := ex_set_model MSP_MODEL_HUDSON no_params;
  msp_set_simulation_model_dtwf := ex_set_model MSP_MODEL_DTWF no_params;
  msp_set_simulation_model_wf_ped := ex_set_model MSP_MODEL_WF_PED no_params;
  msp_set_simulation_model_smc := ex_set_model MSP_MODEL_SMC no_params;
  msp_set_simulation_model_smc_prime :=
    ex_set_model MSP_MODEL_SMC_PRIME no_params;
  msp_set_simulation_model_dirac := fun s reference_size psi c =>
    if valid_dirac psi c
    then ex_set_model MSP_MODEL_DIRAC (dirac_coalescent psi c) s reference_size
    else (MSP_ERR_BAD_PARAM_VALUE, s);
  msp_set_simulation_model_beta := fun s reference_size alpha truncation_point =>
    if valid_beta alpha truncation_point
    then ex_set_model MSP_MODEL_BETA
           (beta_coalescent alpha truncation_point) s reference_size
    else (MSP_ERR_BAD_PARAM_VALUE, s);
  msp_set_simulation_model_sweep_genic_selection :=
    fun s reference_size position _ _ _ _ =>
      ex_set_model MSP_MODEL_SWEEP (sweep position) s reference_size;
  msp_set_start_time := fun s _ => ex_keep s;
  msp_set_store_migrations := fun s _ => ex_keep s;
  msp_set_avl_node_block_size := fun s _ => ex_keep s;
  msp_set_segment_block_size := fun s _ => ex_keep s;
  msp_set_node_mapping_block_size := fun s _ => ex_keep s;
  msp_set_gene_conversion_rate := fun s _ _ => ex_keep s;
  msp_set_dimensions := fun s num_populations _ =>
    (0, mk_example_msp (ex_model s) num_populations (ex_migration_matrix s)
          (ex_statuses s));
  msp_alloc_pedigree := fun s _ _ => ex_keep s;
  msp_set_pedigree := fun s _ _ _ _ _ => ex_keep s;
  msp_set_population_configuration := fun s _ _ _ => ex_keep s;
  msp_set_migration_matrix := fun s size migration_matrix =>
    if (size =? ex_num_populations s * ex_num_populations s)
       && forallb (fun rate => negb (dlt rate 0)) migration_matrix
    then (0, mk_example_msp (ex_model s) (ex_num_populations s)
               migration_matrix (ex_statuses s))
    else (MSP_ERR_BAD_PARAM_VALUE, s);
  msp_add_population_parameters_change := fun s _ _ _ _ => ex_keep s;
  msp_add_migration_rate_change := fun s _ _ _ => ex_keep s;
  msp_add_mass_migration := fun s _ _ _ _ => ex_keep s;
  msp_add_simple_bottleneck := fun s _ _ _ => ex_keep s;
  msp_add_instantaneous_bottleneck := fun s _ _ _ => ex_keep s;
  msp_add_census_event := fun s _ => ex_keep s;
  msp_set_store_full_arg := fun s _ => ex_keep s;
  msp_initialise := ex_keep;
  msp_run := ex_run;
  tsk_treeseq_init := fun t =>
    if dle (sequence_length t) 0 then (TSK_ERR_BAD_SEQUENCE_LENGTH, tt, t)
    else (0, tt, t);
  msp_log_likelihood_arg := fun _ _ _ => (0, 0%float)
|}.

(** A conversion that takes an array of the requested element type and
    number of dimensions as it is and refuses every other object: the
    part of numpy's conversion that the examples use. *)
Definition npy_type_eqb (a b : npy_type) : bool :=
  match a, b with
  | NPY_FLOAT64, NPY_FLOAT64 | NPY_INT32, NPY_INT32
  | NPY_UINT32, NPY_UINT32 | NPY_INT8, NPY_INT8 => true
  | _, _ => false
  end.

Definition example_FROMANY (o : PyObject) (t : npy_type)
    (min_depth max_depth : Z) : result ndarray :=
  match o with
  | PyArray a =>
      let ndim := Z.of_nat (length (nd_shape a)) in
      if npy_type_eqb (npy_dtype (nd_data a)) t
         && (min_depth <=? ndim) && (ndim <=? max_depth)
      then Ok a
      else Raise (PyErr_SetString PyExc_TypeError "cannot convert the array")
  | _ => Raise (PyErr_SetString PyExc_TypeError "not an array")
  end.

(** A table collection with two nodes and one edge, and an empty one. *)
Definition example_tables : tsk_table_collection_t := {|
  sequence_length := 1;
  individuals := IndividualTable.mk 0 [] [] [0] [] [0];
  nodes := NodeTable.mk 2 [0; 1.5]%float [1; 0] [0; 0] [-1; -1]
             [97; 98; 99] [0; 1; 3];
  edges := EdgeTable.mk 1 [0%float] [1%float] [1] [0];
  migrations := MigrationTable.mk 0 [] [] [] [] [] [];
  sites := SiteTable.mk 0 [] [] [0] [] [0];
  mutations := MutationTable.mk 0 [] [] [] [] [0] [] [0];
  populations := PopulationTable.mk 1 [] [0; 0];
  provenances := ProvenanceTable.mk 0 [] [0] [] [0]
|}.

Definition empty_tables (sequence_length : double)
  : tsk_table_collection_t := {|
  sequence_length := sequence_length;
  individuals := IndividualTable.mk 0 [] [] [0] [] [0];
  nodes := NodeTable.mk 0 [] [] [] [] [] [0];
  edges := EdgeTable.mk 0 [] [] [] [];
  migrations := MigrationTable.mk 0 [] [] [] [] [] [];
  sites := SiteTable.mk 0 [] [] [0] [] [0];
  mutations := MutationTable.mk 0 [] [] [] [] [0] [] [0];
  populations := PopulationTable.mk 0 [] [0];
  provenances := ProvenanceTable.mk 0 [] [0] [] [0]
|}.

Definition KeyboardInterrupt : PyErr :=
  PyErr_SetString PyExc_KeyboardInterrupt "".

(** *** Model dictionaries *)

(** The entry [key] of the dictionary is a number, and [x] is its value
    as a double. *)
Definition model_entry (py_model : gmap string PyObject) (key : string)
    (x : double) : Prop :=
  exists v, py_model !! key = Some v /\ PyNumber_Check v = true /\
            PyFloat_AsDouble v = x.

(** The call raises an exception of the type [t]. *)
Definition raises {A} (t : exc_type) (r : result A) : Prop :=
  exists e, r = Raise e /\ err_type e = t.

(** The state of the example kernel after its allocation, with a script
    of statuses. *)
Definition example_state (statuses : list Z) : example_msp_t :=
  mk_example_msp (mk_model MSP_MODEL_HUDSON 1 no_params) 1 [0%float] statuses.

(** Arguments of the constructor: two samples, one population, the
    default values of the optional arguments, a model and a pedigree. *)
Definition example_args (py_model : option (gmap string PyObject))
    (pedigree : PyObject) : Simulator_args example_kernel := {|
  py_samples := [PyTuple [PyLong 0; PyFloat 0]; PyTuple [PyLong 0; PyFloat 0]];
  recombination_map := mk_RecombinationMap example_kernel (Some tt);
  random_generator := mk_RandomGenerator 1 (Some (gsl_rng_seeded 1));
  tables_arg := mk_LightweightTableCollection (Some (empty_tables 1));
  population_configuration := None;
  pedigree := pedigree;
  migration_matrix := None;
  demographic_events := None;
  py_model := py_model;
  avl_node_block_size := 10;
  segment_block_size := 10;
  node_mapping_block_size := 10;
  store_migrations := 0;
  start_time := (-1)%float;
  store_full_arg := 0;
  num_labels := 1;
  gene_conversion_rate := 0;
  gene_conversion_track_length := 1
|}.

(** Model dictionaries for the examples. *)
Definition beta_model (alpha truncation_point : double)
  : gmap string PyObject :=
  <["name" := PyUnicode "beta"]>
    (<["reference_size" := PyFloat 1]>
       (<["alpha" := PyFloat alpha]>
          (<["truncation_point" := PyFloat truncation_point]> ∅))).

Definition dirac_model (psi c : double) : gmap string PyObject :=
  <["name" := PyUnicode "dirac"]>
    (<["reference_size" := PyFloat 1]>
       (<["psi" := PyFloat psi]> (<["c" := PyFloat c]> ∅))).

(** A dictionary of the model "dirac" with the given objects as its
    reference size, psi and c. *)
Definition dirac_dict (reference_size psi c : PyObject)
  : gmap string PyObject :=
  <["name" := PyUnicode "dirac"]>
    (<["reference_size" := reference_size]>
       (<["psi" := psi]> (<["c" := c]> ∅))).

(** The entry [key] of the dictionary is there and has the double value
    [x]. *)
Definition number_entry (py_model : gmap string PyObject) (key : string)
    (x : double) : Prop :=
  exists v, py_model !! key = Some v /\ double_of v = Some x.

(** ** The other objects of the module *)

(** *** LightweightTableCollection.__init__ *)

(** The assignment [tables->sequence_length = sequence_length]. *)
Definition set_sequence_length (sequence_length : double)
    (t : tsk_table_collection_t) : tsk_table_collection_t :=
  mk_table_collection sequence_length (individuals t) (nodes t) (edges t)
    (migrations t) (sites t) (mutations t) (populations t) (provenances t).

(** [LightweightTableCollection_init(sequence_length)].  [arg] is the
    optional argument of the format [|d], whose default is [-1];
    [tsk_table_collection_init] is what the table library's function of
    this name gives: its code and the collection it has initialised. *)
Definition LightweightTableCollection_init
    (tsk_table_collection_init : Z * tsk_table_collection_t)
    (arg : option PyObject) : result unit * LightweightTableCollection :=
  let parsed :=
    match arg with
    | Some o => PyArg_Parse_d o
    | None => Ok (-1)%float
    end in
  match parsed with
  | Ok sequence_length =>
      let (err, t) := tsk_table_collection_init in
      if negb (err =? 0)
      then (Raise (handle_library_error err),
            mk_LightweightTableCollection (Some t))
      else (Ok tt,
            mk_LightweightTableCollection
              (Some (set_sequence_length sequence_length t)))
  | Raise e => (Raise e, mk_LightweightTableCollection None)
  | Undefined => (Undefined, mk_LightweightTableCollection None)
  end.

(** *** Interval maps, recombination maps and mutation generators *)

(** The maps and the mutation generator of the kernel ([msprime.h]) are
    used through their C interface; the alphabets are constants of that
    header.  [interval_map_size] and the two functions after it stand
    for the fields [size], [position] and [value] that the module
    reads, [mutgen_alphabet] for the field [alphabet]. *)
Record maps_api (K : msp_api) := mk_maps_api {
  interval_map_t : Type;
  mutgen_t : Type;
  interval_map_alloc : Z -> list double -> list double -> Z * interval_map_t;
  interval_map_size : interval_map_t -> Z;
  interval_map_position : interval_map_t -> list double;
  interval_map_value : interval_map_t -> list double;
  recomb_map_alloc :
    Z -> list double -> list double -> bool -> Z * recomb_map_t K;
  recomb_map_get_size : recomb_map_t K -> Z;
  recomb_map_get_total_recombination_rate : recomb_map_t K -> double;
  recomb_map_get_sequence_length : recomb_map_t K -> double;
  recomb_map_get_discrete : recomb_map_t K -> bool;
  recomb_map_get_positions : recomb_map_t K -> Z * list double;
  recomb_map_get_rates : recomb_map_t K -> Z * list double;
  MSP_ALPHABET_BINARY : Z;
  MSP_ALPHABET_NUCLEOTIDE : Z;
  mutgen_alloc : gsl_rng -> interval_map_t -> Z -> Z -> Z * mutgen_t;
  mutgen_set_time_interval : mutgen_t -> double -> double -> Z * mutgen_t;
  mutgen_alphabet : mutgen_t -> Z
}.

Section Maps.

Context (K : msp_api) (L : maps_api K).
Variable PyArray_FROMANY : PyObject -> npy_type -> Z -> Z -> result ndarray.

(** The converter of the format unit [O&]: the argument as a
    one-dimensional array of doubles. *)
Definition double_PyArray_converter (input : PyObject) : result ndarray :=
  PyArray_FROMANY input NPY_FLOAT64 1 1.

(** [PyObject_Size] of a one-dimensional array: its first dimension. *)
Definition PyObject_Size (a : ndarray) : Z := hd 0 (nd_shape a).

(** The two [O&] arguments of the constructors of the maps. *)
Definition parse_two_arrays (first second : PyObject)
  : result (ndarray * ndarray) :=
  a ← double_PyArray_converter first;
  b ← double_PyArray_converter second;
  Ok (a, b).

Record IntervalMap := mk_IntervalMap {
  interval_map : option (interval_map_t K L)     (* None for NULL *)
}.

Definition IntervalMap_check_state (self : IntervalMap)
  : result (interval_map_t K L) :=
  match interval_map self with
  | None => Raise (PyErr_SetString PyExc_SystemError
                     "IntervalMap not initialised")
  | Some m => Ok m
  end.

(** [IntervalMap_init(position, value)]: the outcome and the object. *)
Definition IntervalMap_init (py_position py_value : PyObject)
  : result unit * IntervalMap :=
  match parse_two_arrays py_position py_value with
  | Ok (py_position, py_value) =>
      let size := PyObject_Size py_position in
      if negb (size =? PyObject_Size py_value)
      then (Raise (PyErr_SetString PyExc_ValueError
                     "position and  list must be the same length"),
            mk_IntervalMap None)
      else
        let (err, m) :=
          interval_map_alloc K L size (float64_data py_position)
            (float64_data py_value) in
        if negb (err =? 0)
        then (Raise (handle_library_error err), mk_IntervalMap (Some m))
        else (Ok tt, mk_IntervalMap (Some m))
  | Raise e => (Raise e, mk_IntervalMap None)
  | Undefined => (Undefined, mk_IntervalMap None)
  end.

(** A new array of [dims = (npy_intp) size] doubles, which numpy refuses
    for a negative [dims], and the copy
    [memcpy(PyArray_DATA(array), column, size * sizeof(double))]. *)
Definition copy_doubles (size : Z) (column : list double) : result PyObject :=
  let dims := wrap_signed 64 size in
  if dims <? 0
  then Raise (PyErr_SetString PyExc_ValueError
                "negative dimensions are not allowed")
  else
    match read_buffer size column with
    | None => Undefined
    | Some data => Ok (PyArray (mk_ndarray [dims] (Float64Data data)))
    end.

(** The getters of [position] and [value] read [self->interval_map]
    without a check of the pointer. *)
Definition IntervalMap_get_position (self : IntervalMap) : result PyObject :=
  match interval_map self with
  | None => Undefined
  | Some m =>
      copy_doubles (interval_map_size K L m) (interval_map_position K L m)
  end.

Definition IntervalMap_get_value (self : IntervalMap) : result PyObject :=
  match interval_map self with
  | None => Undefined
  | Some m =>
      copy_doubles (interval_map_size K L m) (interval_map_value K L m)
  end.

(** [RecombinationMap_init(positions, rates, discrete)]; [discrete] is
    the truth value that the format unit [p] has taken of the third
    argument. *)
Definition RecombinationMap_init (py_positions py_rates : PyObject)
    (discrete : bool) : result unit * RecombinationMap K :=
  match parse_two_arrays py_positions py_rates with
  | Ok (py_positions, py_rates) =>
      let size := PyObject_Size py_positions in
      if negb (size =? PyObject_Size py_rates)
      then (Raise (PyErr_SetString PyExc_ValueError
                     "positions and rates list must be the same length"),
            mk_RecombinationMap K None)
      else
        let positions := float64_data py_positions in
        let rates := float64_data py_rates in
        let (err, m) := recomb_map_alloc K L size positions rates discrete in
        if negb (err =? 0)
        then (Raise (handle_library_error err), mk_RecombinationMap K (Some m))
        else (Ok tt, mk_RecombinationMap K (Some m))
  | Raise e => (Raise e, mk_RecombinationMap K None)
  | Undefined => (Undefined, mk_RecombinationMap K None)
  end.

Definition RecombinationMap_get_total_recombination_rate
    (self : RecombinationMap K) : result PyObject :=
  m ← RecombinationMap_check_recomb_map K self;
  Ok (PyFloat (recomb_map_get_total_recombination_rate K L m)).

Definition RecombinationMap_get_size (self : RecombinationMap K)
  : result PyObject :=
  m ← RecombinationMap_check_recomb_map K self;
  Ok (PyLong (wrap_signed 64 (recomb_map_get_size K L m))).

Definition RecombinationMap_get_sequence_length (self : RecombinationMap K)
  : result PyObject :=
  m ← RecombinationMap_check_recomb_map K self;
  Ok (PyFloat (recomb_map_get_sequence_length K L m)).

Definition RecombinationMap_get_discrete (self : RecombinationMap K)
  : result PyObject :=
  m ← RecombinationMap_check_recomb_map K self;
  Ok (PyLong (if recomb_map_get_discrete K L m then 1 else 0)).

(** The two getters that fill a new array of [recomb_map_get_size]
    doubles through a kernel function. *)
Definition recomb_map_array (self : RecombinationMap K)
    (fill : recomb_map_t K -> Z * list double) : result PyObject :=
  m ← RecombinationMap_check_recomb_map K self;
  let size := wrap_signed 64 (recomb_map_get_size K L m) in
  let (err, data) := fill m in
  if negb (err =? 0) then Raise (handle_library_error err)
  else Ok (PyArray (mk_ndarray [size] (Float64Data data))).

Definition RecombinationMap_get_positions (self : RecombinationMap K)
  : result PyObject :=
  recomb_map_array self (recomb_map_get_positions K L).

Definition RecombinationMap_get_rates (self : RecombinationMap K)
  : result PyObject :=
  recomb_map_array self (recomb_map_get_rates K L).

Record MutationGenerator := mk_MutationGenerator {
  mutgen : option (mutgen_t K L);                 (* None for NULL *)
  mg_random_generator : option RandomGenerator;
  rate_map : option IntervalMap
}.

Definition MutationGenerator_check_state (self : MutationGenerator)
  : result (mutgen_t K L) :=
  match mutgen self with
  | None => Raise (PyErr_SetString PyExc_SystemError
                     "MutationGenerator not initialised")
  | Some g =>
      match mg_random_generator self with
      | None => Undefined
      | Some random_generator =>
          _ ← RandomGenerator_check_state random_generator; Ok g
      end
  end.

(** [MutationGenerator_init(random_generator, rate_map, alphabet,
    start_time, end_time)], the optional arguments with the values that
    the format [O!O!|idd] has left in them. *)
Definition MutationGenerator_init (random_generator : RandomGenerator)
    (rate_map : IntervalMap) (alphabet : Z) (start_time end_time : double)
  : result unit * MutationGenerator :=
  match RandomGenerator_check_state random_generator with
  | Raise e => (Raise e, mk_MutationGenerator None (Some random_generator) None)
  | Undefined =>
      (Undefined, mk_MutationGenerator None (Some random_generator) None)
  | Ok _ =>
      let self g :=
        mk_MutationGenerator g (Some random_generator) (Some rate_map) in
      match IntervalMap_check_state rate_map with
      | Raise e => (Raise e, self None)
      | Undefined => (Undefined, self None)
      | Ok map =>
          if negb (alphabet =? MSP_ALPHABET_BINARY K L)
             && negb (alphabet =? MSP_ALPHABET_NUCLEOTIDE K L)
          then (Raise (PyErr_Format PyExc_ValueError "Bad mutation alphabet" []),
                self None)
          else
            match rg_rng random_generator with
            | None => (Undefined, self None)
            | Some rng =>
                let (err, g) := mutgen_alloc K L rng map alphabet 0 in
                if negb (err =? 0)
                then (Raise (handle_library_error err), self (Some g))
                else
                  let (err, g) :=
                    mutgen_set_time_interval K L g start_time end_time in
                  if negb (err =? 0)
                  then (Raise (handle_library_error err), self (Some g))
                  else (Ok tt, self (Some g))
            end
      end
  end.

Definition MutationGenerator_get_alphabet (self : MutationGenerator)
  : result PyObject :=
  g ← MutationGenerator_check_state self;
  Ok (PyLong (mutgen_alphabet K L g)).

End Maps.

(** ** The queries of Simulator *)

Module Edge.
Record t := mk { left : double; right : double; parent : Z; child : Z }.
End Edge.

Module Migration.
Record t := mk {
  left : double; right : double; node : Z; source : Z; dest : Z;
  time : double
}.
End Migration.

(** The conversion [(int) id] of a 32-bit id. *)
Definition int_of_id (id : Z) : Z := wrap_signed 32 id.

(** [Py_BuildValue("ddii", ...)] *)
Definition make_edge (edge : Edge.t) : PyObject :=
  PyTuple [PyFloat (Edge.left edge); PyFloat (Edge.right edge);
           PyLong (int_of_id (Edge.parent edge));
           PyLong (int_of_id (Edge.child edge))].

(** [Py_BuildValue("ddiiid", ...)] *)
Definition make_migration (r : Migration.t) : PyObject :=
  let source :=
    if Migration.source r =? TSK_NULL then -1 else Migration.source r in
  let dest :=
    if Migration.dest r =? TSK_NULL then -1 else Migration.dest r in
  PyTuple [PyFloat (Migration.left r); PyFloat (Migration.right r);
           PyLong (int_of_id (Migration.node r)); PyLong source; PyLong dest;
           PyFloat (Migration.time r)].

(** The tuple that [Simulator_get_samples] builds for a sample:
    [Py_BuildValue("id", population, samples[j].time)]. *)
Definition sample_to_python (sample : sample_t) : PyObject :=
  let population :=
    if population_id sample =? TSK_NULL then -1 else population_id sample in
  PyTuple [PyLong population; PyFloat (time sample)].

(** The loop [for (j = 0; j < n; j++)] that fills a list of [n] rows,
    from row [j] on; [None] when a row is read past the end of a
    column. *)
Fixpoint rows_from {A} (row : nat -> option A) (j n : nat)
  : option (list A) :=
  match n with
  | O => Some []
  | S n => r ← row j; rs ← rows_from row (S j) n; Some (r :: rs)
  end.

Definition edge_row (edges : EdgeTable.t) (j : nat) : option Edge.t :=
  left ← EdgeTable.left edges !! j;
  right ← EdgeTable.right edges !! j;
  parent ← EdgeTable.parent edges !! j;
  child ← EdgeTable.child edges !! j;
  Some (Edge.mk left right parent child).

Definition migration_row (migrations : MigrationTable.t) (j : nat)
  : option Migration.t :=
  left ← MigrationTable.left migrations !! j;
  right ← MigrationTable.right migrations !! j;
  node ← MigrationTable.node migrations !! j;
  source ← MigrationTable.source migrations !! j;
  dest ← MigrationTable.dest migrations !! j;
  time ← MigrationTable.time migrations !! j;
  Some (Migration.mk left right node source dest time).

(** The kernel functions behind the queries.  [msp_tables] stands for
    the field [tables] of the simulator, the collection it was allocated
    with; a function that writes through a pointer returns what it
    writes next to its code. *)
Record msp_queries (K : msp_api) := mk_msp_queries {
  msp_tables : msp_t K -> tsk_table_collection_t;
  msp_get_num_samples : msp_t K -> Z;
  msp_get_samples : msp_t K -> Z * list sample_t;
  msp_get_num_edges : msp_t K -> Z;
  msp_get_num_migrations : msp_t K -> Z;
  msp_get_migration_matrix : msp_t K -> Z * list double;
  msp_get_population_configuration : msp_t K -> Z -> Z * (double * double);
  msp_finalise_tables : msp_t K -> Z * msp_t K;
  msp_reset : msp_t K -> Z * msp_t K;
  msp_debug_demography : msp_t K -> Z * double * msp_t K;
  msp_compute_population_size : msp_t K -> Z -> double -> Z * double
}.

Section Queries.

Context (K : msp_api) (Q : msp_queries K).

(** [Py_BuildValue("n", (Py_ssize_t) n)] *)
Definition build_ssize_t (n : Z) : PyObject := PyLong (wrap_signed 64 n).

Definition Simulator_get_num_samples (self : Simulator K) : result PyObject :=
  s ← Simulator_check_sim K self;
  Ok (build_ssize_t (msp_get_num_samples K Q s)).

Definition Simulator_get_num_populations (self : Simulator K)
  : result PyObject :=
  s ← Simulator_check_sim K self;
  Ok (build_ssize_t (msp_get_num_populations K s)).

Definition Simulator_get_num_edges (self : Simulator K) : result PyObject :=
  s ← Simulator_check_sim K self;
  Ok (build_ssize_t (msp_get_num_edges K Q s)).

Definition Simulator_get_num_migrations (self : Simulator K)
  : result PyObject :=
  s ← Simulator_check_sim K self;
  Ok (build_ssize_t (msp_get_num_migrations K Q s)).

(** The list of the first [num_rows] rows of a table, each made into a
    tuple. *)
Definition rows_to_python {A} (row : nat -> option A) (make : A -> PyObject)
    (num_rows : Z) : result PyObject :=
  match rows_from row 0 (Z.to_nat (size_t_of num_rows)) with
  | None => Undefined
  | Some rows => Ok (PyList (map make rows))
  end.

Definition Simulator_get_edges (self : Simulator K) : result PyObject :=
  s ← Simulator_check_sim K self;
  let num_edges := msp_get_num_edges K Q s in
  let edges := edges (msp_tables K Q s) in
  rows_to_python (edge_row edges) make_edge num_edges.

Definition Simulator_get_migrations (self : Simulator K) : result PyObject :=
  s ← Simulator_check_sim K self;
  let num_migrations := msp_get_num_migrations K Q s in
  let migrations := migrations (msp_tables K Q s) in
  rows_to_python (migration_row migrations) make_migration num_migrations.

Definition Simulator_get_samples (self : Simulator K) : result PyObject :=
  s ← Simulator_check_sim K self;
  let num_samples := msp_get_num_samples K Q s in
  let (sim_ret, samples) := msp_get_samples K Q s in
  if negb (sim_ret =? 0) then Raise (handle_library_error sim_ret)
  else rows_to_python (fun j => samples !! j) sample_to_python num_samples.

(** The loop of [Simulator_get_population_configuration], from the
    population [j] on, with [n] populations to go. *)
Fixpoint population_configuration_from (s : msp_t K) (j : Z) (n : nat)
  : result (list PyObject) :=
  match n with
  | O => Ok []
  | S n =>
      let '(sim_ret, (initial_size, growth_rate)) :=
        msp_get_population_configuration K Q s j in
      if negb (sim_ret =? 0) then Raise (handle_library_error sim_ret)
      else
        let d := PyDict_SetItemString
                   (PyDict_SetItemString ∅ "initial_size"
                      (PyFloat initial_size))
                   "growth_rate" (PyFloat growth_rate) in
        rest ← population_configuration_from s (j + 1) n;
        Ok (PyDict d :: rest)
  end.

Definition Simulator_get_population_configuration (self : Simulator K)
  : result PyObject :=
  s ← Simulator_check_sim K self;
  let num_populations := size_t_of (msp_get_num_populations K s) in
  l ← population_configuration_from s 0 (Z.to_nat num_populations);
  Ok (PyList l).

(** The matrix comes back as a flat array of [N2] doubles, which the
    kernel fills. *)
Definition Simulator_get_migration_matrix (self : Simulator K)
  : result PyObject :=
  s ← Simulator_check_sim K self;
  let N2 := wrap_signed 64 (msp_get_num_populations K s) in
  let N2 := wrap_signed 64 (N2 * N2) in
  if N2 <? 0
  then Raise (PyErr_SetString PyExc_ValueError
                "negative dimensions are not allowed")
  else
    let (err, data) := msp_get_migration_matrix K Q s in
    if negb (err =? 0) then Raise (handle_library_error err)
    else Ok (PyArray (mk_ndarray [N2] (Float64Data data))).

(** [Simulator_run_event]: one call of the kernel with a budget of one
    event and no end time; the signals are not looked at. *)
Definition Simulator_run_event (self : Simulator K)
  : result PyObject * Simulator K :=
  on_sim K self (fun s =>
    let (status, s) := msp_run K s DBL_MAX 1 in
    if status <? 0 then (Raise (handle_library_error status), s)
    else
      let coalesced := status =? 0 in
      (Ok (if coalesced then Py_True else Py_False), s)).

(** [Simulator_finalise_tables] gives [self->sim] to the kernel without
    [Simulator_check_sim]. *)
Definition Simulator_finalise_tables (self : Simulator K)
  : result PyObject * Simulator K :=
  match sim K self with
  | None => (Undefined, self)
  | Some s =>
      let (status, s) := msp_finalise_tables K Q s in
      if negb (status =? 0)
      then (Raise (handle_library_error status), mk_Simulator K (Some s))
      else (Ok Py_None, mk_Simulator K (Some s))
  end.

Definition Simulator_reset (self : Simulator K)
  : result PyObject * Simulator K :=
  on_sim K self (fun s =>
    let (status, s) := msp_reset K Q s in
    if status <? 0 then (Raise (handle_library_error status), s)
    else (Ok Py_None, s)).

Definition Simulator_debug_demography (self : Simulator K)
  : result PyObject * Simulator K :=
  on_sim K self (fun s =>
    let '(status, end_time, s) := msp_debug_demography K Q s in
    if status <? 0 then (Raise (handle_library_error status), s)
    else (Ok (PyFloat end_time), s)).

(** [Simulator_compute_population_size(population_id, time)], with the
    two arguments as the format [id] has converted them. *)
Definition Simulator_compute_population_size (self : Simulator K)
    (population_id : Z) (time : double) : result PyObject :=
  s ← Simulator_check_sim K self;
  let (sim_ret, size) :=
    msp_compute_population_size K Q s population_id time in
  if negb (sim_ret =? 0) then Raise (handle_library_error sim_ret)
  else Ok (PyFloat size).

End Queries.

(** ** What the further properties speak of *)

(** The names that [Simulator_parse_simulation_model] compares the entry
    "name" with. *)
Definition model_names : list string :=
  ["hudson"; "dtwf"; "wf_ped"; "smc"; "smc_prime"; "dirac"; "beta";
   "sweep_genic_selection"].

(** The kernel function that installs a model without parameters of its
    own. *)
Definition simple_model_setter (K : msp_api) (name : string)
  : option (msp_t K -> double -> Z * msp_t K) :=
  if String.eqb name "hudson" then Some (msp_set_simulation_model_hudson K)
  else if String.eqb name "dtwf" then Some (msp_set_simulation_model_dtwf K)
  else if String.eqb name "wf_ped"
  then Some (msp_set_simulation_model_wf_ped K)
  else if String.eqb name "smc" then Some (msp_set_simulation_model_smc K)
  else if String.eqb name "smc_prime"
  then Some (msp_set_simulation_model_smc_prime K)
  else None.




(** What a parser makes of the code of a kernel setter. *)
Definition input_outcome (section : string) (err : Z) : result unit :=
  if negb (err =? 0) then Raise (handle_input_error section err) else Ok tt.



(** Arguments of the constructor as [example_args None Py_None], with a
    population configuration and a migration matrix. *)
Definition example_args_demography
    (population_configuration migration_matrix : option (list PyObject))
  : Simulator_args example_kernel := {|
  py_samples := [PyTuple [PyLong 0; PyFloat 0]; PyTuple [PyLong 0; PyFloat 0]];
  recombination_map := mk_RecombinationMap example_kernel (Some tt);
  random_generator := mk_RandomGenerator 1 (Some (gsl_rng_seeded 1));
  tables_arg := mk_LightweightTableCollection (Some (empty_tables 1));
  population_configuration := population_configuration;
  pedigree := Py_None;
  migration_matrix := migration_matrix;
  demographic_events := None;
  py_model := None;
  avl_node_block_size := 10;
  segment_block_size := 10;
  node_mapping_block_size := 10;
  store_migrations := 0;
  start_time := (-1)%float;
  store_full_arg := 0;
  num_labels := 1;
  gene_conversion_rate := 0;
  gene_conversion_track_length := 1
|}.

(** The dictionary of a population for the examples. *)
Definition population_dict (initial_size growth_rate : double) : PyObject :=
  PyDict (<["initial_size" := PyFloat initial_size]>
            (<["growth_rate" := PyFloat growth_rate]> ∅)).

(** The exception of [Simulator_check_sim]. *)
Definition not_initialised : PyErr :=
  PyErr_SetString PyExc_SystemError "simulator not initialised".

(** The keys of the dictionary of a table collection. *)
Definition table_names : list string :=
  ["individuals"; "nodes"; "edges"; "migrations"; "sites"; "mutations";
   "populations"; "provenances"].

Definition collection_keys : list string := "sequence_length" :: table_names.

(** A one-dimensional array. *)
Definition is_column (o : PyObject) : Prop :=
  exists n data, o = PyArray (mk_ndarray [n] data).

(** An array over a list of offsets, with as many elements as the list
    has. *)
Definition offsets_array (offsets : list Z) : PyObject :=
  PyArray_SimpleNewFromData (Z.of_nat (length offsets)) (UInt32Data offsets).

(** An array over a list of doubles. *)
Definition doubles_array (l : list double) : PyObject :=
  PyArray_SimpleNewFromData (Z.of_nat (length l)) (Float64Data l).

(** Maps and a mutation generator for the examples: a map keeps its two
    columns, a generator its alphabet. *)
Definition example_maps : maps_api example_kernel := {|
  interval_map_t := list double * list double;
  mutgen_t := Z;
  interval_map_alloc := fun _ position value => (0, (position, value));
  interval_map_size := fun m => Z.of_nat (length (fst m));
  interval_map_position := fst;
  interval_map_value := snd;
  recomb_map_alloc := fun _ _ _ _ => (0, tt : recomb_map_t example_kernel);
  recomb_map_get_size := fun _ => 2;
  recomb_map_get_total_recombination_rate := fun _ => 0%float;
  recomb_map_get_sequence_length := fun _ => 1%float;
  recomb_map_get_discrete := fun _ => false;
  recomb_map_get_positions := fun _ => (0, [0; 1]%float);
  recomb_map_get_rates := fun _ => (0, [0; 0]%float);
  MSP_ALPHABET_BINARY := 0;
  MSP_ALPHABET_NUCLEOTIDE := 1;
  mutgen_alloc := fun _ _ alphabet _ => (0, alphabet);
  mutgen_set_time_interval := fun g _ _ => (0, g);
  mutgen_alphabet := fun g => g
|}.

(** Queries for the examples, over the example tables: one edge, two
    samples, no migration; the fields in the order of [msp_queries]. *)
Definition example_queries : msp_queries example_kernel :=
  mk_msp_queries example_kernel
    (fun _ => example_tables)
    (fun _ => 2)
    (fun _ => (0, [mk_sample 0 0; mk_sample 0 0]))
    (fun _ => 1)
    (fun _ => 0)
    (fun s => (0, ex_migration_matrix s))
    (fun _ _ => (0, (1, 0)%float))
    ex_keep
    ex_keep
    (fun s => (0, infinity, s))
    (fun _ _ _ => (0, 1%float)).

(** The exceptions of the checks of the maps and of the mutation
    generator. *)
Definition recomb_map_not_initialised : PyErr :=
  PyErr_SetString PyExc_ValueError "recomb_map not initialised".

Definition mutgen_not_initialised : PyErr :=
  PyErr_SetString PyExc_SystemError "MutationGenerator not initialised".

(** The optional argument of [LightweightTableCollection_init] as a
    double. *)
Definition sequence_length_arg (arg : option PyObject) : result double :=
  match arg with
  | Some o => PyArg_Parse_d o
  | None => Ok (-1)%float
  end.

(** An array over a list of 32-bit integers. *)
Definition int32_array (l : list Z) : PyObject :=
  PyArray_SimpleNewFromData (Z.of_nat (length l)) (Int32Data l).

(** The exceptions of [get_table_dict_value]. *)
Definition not_specified (key : string) : PyErr :=
  PyErr_Format PyExc_ValueError "'%s' not specified" [ArgStr key].

Definition is_required (key : string) : PyErr :=
  PyErr_Format PyExc_TypeError "'%s' is required" [ArgStr key].

(** A pedigree for the examples: two rows of parents, and columns for
    three individuals. *)
Definition example_parents : PyObject :=
  PyArray (mk_ndarray [2; 2] (Int32Data [-1; -1; 0; 0])).

Definition example_pedigree : gmap string PyObject :=
  <["individual" := int32_array [1; 2; 3]]>
    (<["parents" := example_parents]>
       (<["time" := doubles_array [1; 0; 0]%float]>
          (<["is_sample" := offsets_array [0; 1; 1]]> ∅))).

(** * Properties *)

(** ** Machine integers and doubles *)

Lemma wrap_signed_id (w z : Z) :
  0 < w -> - 2 ^ (w - 1) <= z < 2 ^ (w - 1) -> wrap_signed w z = z.
Proof.
  intros Hw Hz. unfold wrap_signed.
  assert (E : 2 ^ w = 2 * 2 ^ (w - 1)).
  { replace w with (Z.succ (w - 1)) at 1 by lia. apply Z.pow_succ_r. lia. }
  rewrite Z.mod_small; lia.
Qed.

Lemma failed_Ok {A} (a : A) : ~ failed (Ok a).
Proof. intros [e He]. discriminate. Qed.

Lemma failed_Raise {A} (e : PyErr) : failed (@Raise A e).
Proof. now exists e. Qed.

#[local] Hint Resolve failed_Raise : core.

(** ** Numbers and the values they denote *)

Ltac destruct_array a :=
  let shape := fresh "shape" in
  let l := fresh "l" in
  destruct a as [shape [l | l | l | l]];
  destruct shape as [ | ? ?]; destruct l as [ | ? [ | ? ?]].

(** What [PyLong_AsLong] returns for an object that denotes an integer:
    the integer, or [-1] when it does not fit a [long]. *)
Lemma integer_of_Some (p : PyObject) (n : Z) :
  integer_of p = Some n ->
  PyNumber_Check p = true /\
  (PyLong_AsLong p = n \/
   PyLong_AsLong p = -1 /\ ~ (LONG_MIN <= n <= LONG_MAX)).
Proof.
  destruct p as [ | [ | ] | m | d | s | items | items | items | a];
    try discriminate.
  - intros H. injection H as <-. cbn. auto.
  - intros H. injection H as <-. cbn. auto.
  - intros H. injection H as <-. split; [reflexivity | ].
    cbn [PyLong_AsLong].
    destruct (Z.leb_spec LONG_MIN m); destruct (Z.leb_spec m LONG_MAX);
      cbn [andb]; first [now left | right; split; [reflexivity | lia]].
  - destruct_array a; cbn; intros H; try discriminate;
      injection H as <-; auto.
Qed.

Lemma integer_of_None (p : PyObject) :
  integer_of p = None -> PyNumber_Check p = false \/ PyLong_AsLong p = -1.
Proof.
  destruct p as [ | [ | ] | m | d | s | items | items | items | a];
    try discriminate; try (intros _; now left); try (intros _; now right).
  destruct_array a; cbn; intros H; try discriminate; now right.
Qed.

(** What [PyFloat_AsDouble] returns for a number: its double, or [-1.0]
    when it has none. *)
Lemma double_of_Some (t : PyObject) (x : double) :
  double_of t = Some x -> PyNumber_Check t = true /\ PyFloat_AsDouble t = x.
Proof.
  unfold PyFloat_AsDouble.
  destruct t as [ | [ | ] | m | d | s | items | items | items | a];
    try discriminate.
  - intros H. injection H as <-. now split.
  - intros H. injection H as <-. now split.
  - cbn [double_of float_of_object PyNumber_Check].
    destruct (PrimFloat.eqb (abs (Z_to_double m)) infinity); [discriminate | ].
    intros H. injection H as <-. now split.
  - intros H. injection H as <-. now split.
  - destruct_array a; cbn; intros H; try discriminate;
      injection H as <-; now split.
Qed.

Lemma double_of_None (t : PyObject) :
  double_of t = None ->
  PyNumber_Check t = false \/ PyFloat_AsDouble t = (-1)%float.
Proof.
  unfold PyFloat_AsDouble.
  destruct t as [ | [ | ] | m | d | s | items | items | items | a];
    try discriminate; try (intros _; now left).
  - cbn [double_of float_of_object].
    destruct (PrimFloat.eqb (abs (Z_to_double m)) infinity);
      [intros _; now right | discriminate].
  - destruct_array a; cbn; intros H; try discriminate; now right.
Qed.

(** ** Sample parsing *)

(** The checks on a tuple of two objects, in the order of the loop. *)
Lemma parse_sample_pair (j P : Z) (p t : PyObject) :
  failed (parse_sample j P (PyTuple [p; t])) /\
    (PyNumber_Check p = false \/ PyLong_AsLong p < 0 \/
     PyLong_AsLong p >= P \/ PyNumber_Check t = false \/
     dlt (PyFloat_AsDouble t) 0 = true) \/
  PyNumber_Check p = true /\ 0 <= PyLong_AsLong p < P /\
    PyNumber_Check t = true /\ dlt (PyFloat_AsDouble t) 0 = false /\
    parse_sample j P (PyTuple [p; t]) =
      Ok (mk_sample (population_id_of_long (PyLong_AsLong p))
            (PyFloat_AsDouble t)).
Proof.
  unfold parse_sample.
  destruct (PyNumber_Check p) eqn:Np; cbn [negb]; [ | left; auto].
  destruct (Z.ltb_spec (PyLong_AsLong p) 0) as [Hneg | Hneg];
    [left; auto | ].
  destruct (Z.geb_spec (PyLong_AsLong p) P) as [Hbig | Hbig];
    [left; split; auto; right; right; left; lia | ].
  destruct (PyNumber_Check t) eqn:Nt; cbn [negb];
    [ | left; split; auto; tauto].
  destruct (dlt (PyFloat_AsDouble t) 0) eqn:Ht;
    [left; split; auto; tauto | ].
  right. repeat split; auto; lia.
Qed.

(** One entry: the parser refuses it exactly when it is a refused
    sample.  An entry that it accepts denotes a sample, and this is the
    sample stored when population ids fit their 32 bits. *)
Lemma parse_sample_cases (j P : Z) (o : PyObject) :
  P <= LONG_MAX ->
  (refused_sample P o /\ failed (parse_sample j P o)) \/
  (~ refused_sample P o /\
   exists s, parse_sample j P o = Ok s /\
             (P <= 2 ^ 31 -> sample_of o = Some s)).
Proof.
  intros HP. unfold refused_sample.
  destruct o as [ | | | | | items | | | ];
    try (left; split; [exact I | cbn; auto]).
  destruct items as [ | p [ | t [ | x items ] ] ];
    try (left; split; [exact I | cbn; auto]).
  cbn [sample_of].
  destruct (parse_sample_pair j P p t)
    as [[Hfail Hwhy] | (Np & Hp & Nt & Ht & Hok)].
  - left. split; [ | exact Hfail].
    destruct (integer_of p) as [n | ] eqn:Hi; [ | exact I].
    destruct (double_of t) as [x | ] eqn:Hd; [ | exact I].
    cbn [mbind option_bind population_id time].
    apply integer_of_Some in Hi. destruct Hi as [Np Hl].
    apply double_of_Some in Hd. destruct Hd as [Nt Hx].
    unfold LONG_MIN, LONG_MAX in *.
    destruct Hwhy as [H | [H | [H | [H | H]]]]; try congruence;
      destruct Hl as [Hl | [Hl Hout]]; try lia.
    all: right; right; rewrite <- Hx; exact H.
  - destruct (integer_of p) as [n | ] eqn:Hi.
    2:{ apply integer_of_None in Hi. destruct Hi; [congruence | lia]. }
    destruct (double_of t) as [x | ] eqn:Hd.
    2:{ apply double_of_None in Hd. destruct Hd as [Hd | Hd]; [congruence | ].
        rewrite Hd in Ht. discriminate. }
    apply integer_of_Some in Hi. destruct Hi as [_ [Hl | [Hl _]]]; [ | lia].
    apply double_of_Some in Hd. destruct Hd as [_ Hx].
    right. cbn [mbind option_bind population_id time]. split.
    + intros [H | [H | H]]; [lia | lia | ]. rewrite Hx in Ht. congruence.
    + eexists. split; [exact Hok | ]. intros HP32.
      unfold population_id_of_long. rewrite wrap_signed_id by lia.
      congruence.
Qed.

Lemma parse_samples_from_cases (l : list PyObject) (j P : Z) :
  P <= LONG_MAX ->
  (failed (parse_samples_from j P l) /\
   exists o, In o l /\ refused_sample P o) \/
  (exists ss, parse_samples_from j P l = Ok ss /\
              (P <= 2 ^ 31 -> Forall2 (fun o s => sample_of o = Some s) l ss) /\
              forall o, In o l -> ~ refused_sample P o).
Proof.
  intros HP. revert j. induction l as [ | o l IH]; intros j.
  - right. exists []. cbn. split; [reflexivity | ]. split; [constructor | ].
    intros o [].
  - cbn [parse_samples_from].
    destruct (parse_sample_cases j P o HP) as [[Hb [e He]] | [Hg (s & Hs & St)]].
    + left. rewrite He. cbn. split; auto. exists o. split; [now left | exact Hb].
    + rewrite Hs. cbn [rbind].
      destruct (IH (j + 1)) as [[[e He] (o' & Hin & Hb)] | (ss & Hss & Hst & Hall)].
      * left. rewrite He. cbn. split; auto. exists o'. split; [now right | exact Hb].
      * right. exists (s :: ss). rewrite Hss. cbn. split; [reflexivity | ].
        split; [intros HP32; constructor; auto | ].
        intros o' [<- | Hin]; auto.
Qed.

(** C3, as amended.  An entry of a sample list denotes a sample when it
    is a tuple of two objects of which the first denotes an integer, the
    population id, and the second has a double value, the time: a float,
    or an int that is not too large for a double.  Parsing a sample list
    against [num_populations] populations fails exactly when some entry
    denotes no sample, or has a population id below zero or not below
    [num_populations], or has a time below zero; the number of
    populations is a [Py_ssize_t], at most [LONG_MAX].  When it does
    not fail it succeeds, the number of samples is the length of the
    list, and
    with at most [2^31] populations (population ids are 32-bit) the
    sample stored for each entry is the one that the entry denotes: its
    population id, and its time as a double. *)
Theorem parse_samples_spec (py_samples : list PyObject) (num_populations : Z) :
  num_populations <= LONG_MAX ->
  (failed (parse_samples py_samples num_populations) <->
   exists o, In o py_samples /\ refused_sample num_populations o) /\
  (~ failed (parse_samples py_samples num_populations) ->
   exists samples,
     parse_samples py_samples num_populations =
       Ok (Z.of_nat (length py_samples), samples) /\
     (num_populations <= 2 ^ 31 ->
      Forall2 (fun o s => sample_of o = Some s) py_samples samples)).
Proof.
  intros HP. unfold parse_samples.
  destruct (parse_samples_from_cases py_samples 0 num_populations HP)
    as [[[e He] Hbad] | (ss & Hss & Hst & Hall)].
  - rewrite He. cbn. split.
    + split; auto.
    + intros H. exfalso. apply H. auto.
  - rewrite Hss. cbn. split.
    + split.
      * intros H. now apply failed_Ok in H.
      * intros (o & Hin & Hb). now apply Hall in Hin.
    + intros _. exists ss. auto.
Qed.

(** C3, the claim as it stands fails on the time [10 ** 400]: the entry
    is a pair of numbers, its population id is [0] with one population
    and its time is above zero, and the list is refused all the same,
    as the int has no double value. *)
Lemma parse_samples_large_time :
  let entry := PyTuple [PyLong 0; PyLong (10 ^ 400)] in
  failed (parse_samples [entry] 1) /\
  ~ (exists o, In o [entry] /\ refused_as_claimed 1 o).
Proof.
  cbn zeta. split.
  - eexists. vm_compute. reflexivity.
  - intros (o & [<- | []] & [Hn | (p & t & E & H)]).
    + apply Hn. exists (PyLong 0), (PyLong (10 ^ 400)). now repeat split.
    + injection E as <- <-.
      destruct H as [H | [(id & Hid & H) | H]].
      * cbn in H. lia.
      * injection Hid as <-. lia.
      * unfold below_zero in H.
        pose proof (Z.pow_nonneg 10 400). lia.
Qed.

(** Population ids are narrowed to 32 bits: with more than [2^31]
    populations the id [2^31] is accepted and stored as [-2^31]. *)
Example parse_samples_narrows_population :
  parse_samples [PyTuple [PyLong (2 ^ 31); PyFloat 0]] (2 ^ 31 + 1)
  = Ok (1, [mk_sample (- 2 ^ 31) 0]).
Proof. vm_compute. reflexivity. Qed.

(** ** The dictionary encoding of a table collection *)

Lemma assoc_app {A} (key : string) (l1 l2 : list (string * A)) :
  assoc key (l1 ++ l2) =
  match assoc key l1 with Some v => Some v | None => assoc key l2 end.
Proof.
  induction l1 as [ | [k v] l1 IH]; cbn; [reflexivity | ].
  destruct (String.eqb k key); [reflexivity | exact IH].
Qed.

(** A dictionary filled entry by entry holds, for each key, the value of
    the last entry with that key. *)
Lemma lookup_fold_insert {A} (g : A -> PyObject) (l : list (string * A))
    (m : gmap string PyObject) (key : string) :
  fold_left (fun d c => PyDict_SetItemString d (fst c) (g (snd c))) l m !! key
  = match assoc key (rev l) with
    | Some v => Some (g v)
    | None => m !! key
    end.
Proof.
  revert m. induction l as [ | [k v] l IH]; intros m; cbn [fold_left rev].
  - reflexivity.
  - rewrite IH, assoc_app. destruct (assoc key (rev l)); [reflexivity | ].
    cbn. unfold PyDict_SetItemString.
    destruct (String.eqb_spec k key) as [-> | Hne].
    + now rewrite lookup_insert_eq.
    + now rewrite lookup_insert_ne.
Qed.

Lemma lookup_write_cols (cols : list (string * PyObject)) (key : string) :
  write_cols cols !! key = assoc key (rev cols).
Proof.
  unfold write_cols.
  rewrite (lookup_fold_insert (fun v => v)), lookup_empty.
  now destruct (assoc key (rev cols)).
Qed.

Lemma get_table_dict_value_write_cols cols key required :
  get_table_dict_value (write_cols cols) key required =
  match assoc key (rev cols) with
  | None => Raise (PyErr_Format PyExc_ValueError "'%s' not specified"
                     [ArgStr key])
  | Some ret =>
      if required && is_None ret
      then Raise (PyErr_Format PyExc_TypeError "'%s' is required"
                    [ArgStr key])
      else Ok ret
  end.
Proof.
  unfold get_table_dict_value, PyDict_GetItemString.
  now rewrite lookup_write_cols.
Qed.

Lemma wrap_unsigned_small (w z : Z) :
  0 <= z < 2 ^ w -> wrap_unsigned w z = z.
Proof. intros H. unfold wrap_unsigned. now apply Z.mod_small. Qed.

Lemma size_t_of_small (z : Z) : 0 <= z <= UINT32_MAX -> size_t_of z = z.
Proof.
  intros H. apply wrap_unsigned_small. unfold UINT32_MAX in H.
  assert (2 ^ 32 < 2 ^ 64) by (apply Z.pow_lt_mono_r; lia). lia.
Qed.

Lemma uint32_t_of_small (z : Z) : 0 <= z <= UINT32_MAX -> uint32_t_of z = z.
Proof.
  intros H. apply wrap_unsigned_small. unfold UINT32_MAX in H. lia.
Qed.

Lemma read_buffer_all {A} (n : Z) (buf : list A) :
  wf_column n buf -> read_buffer n buf = Some buf.
Proof.
  unfold wf_column, read_buffer. intros <-.
  rewrite Z.ltb_irrefl, Nat2Z.id. now rewrite firstn_all.
Qed.

Lemma offsets_monotone_Sorted (l : list Z) :
  Sorted Z.le l -> offsets_monotone l = true.
Proof.
  induction 1 as [ | a l HS IH Hd]; [reflexivity | ].
  destruct l as [ | b l]; [reflexivity | ].
  cbn [offsets_monotone]. inversion Hd; subst.
  apply andb_true_intro. split; [now apply Z.leb_le | exact IH].
Qed.

Lemma last_lookup_Z (l : list Z) (n : Z) (x : Z) :
  0 <= n -> Z.of_nat (length l) = n + 1 -> l !! Z.to_nat n = Some x ->
  List.last l 0 = x.
Proof.
  intros Hn Hlen Hx.
  destruct (exists_last (l := l)) as (l' & y & ->).
  { intros ->. cbn in Hlen. lia. }
  rewrite last_last. rewrite length_app in Hlen. cbn in Hlen.
  rewrite lookup_app_r in Hx by lia.
  replace (Z.to_nat n - length l')%nat with 0%nat in Hx by lia.
  cbn in Hx. congruence.
Qed.

Section RoundTrip.

Variable PyArray_FROMANY : PyObject -> npy_type -> Z -> Z -> result ndarray.
Hypothesis FROMANY_keeps : keeps_arrays PyArray_FROMANY.

Lemma read_column_new (data : npy_data) (t : npy_type) (n rows : Z)
    (check : bool) :
  npy_dtype data = t ->
  0 <= n <= UINT32_MAX -> (check = true -> rows = n) ->
  table_read_column_array PyArray_FROMANY (PyArray_SimpleNewFromData n data)
    t rows check
  = Ok (mk_ndarray [n] data, n).
Proof.
  intros <- Hn Hrows. unfold table_read_column_array, PyArray_SimpleNewFromData.
  rewrite FROMANY_keeps. cbn. rewrite (size_t_of_small n Hn).
  destruct check; [ | reflexivity].
  rewrite (Hrows eq_refl), Z.eqb_refl. reflexivity.
Qed.

Lemma read_offset_new (offset : list Z) (n rows len : Z) (check : bool) :
  wf_num_rows n -> wf_offsets n offset len -> 0 <= len ->
  (check = true -> rows = n) ->
  table_read_offset_array PyArray_FROMANY
    (PyArray_SimpleNewFromData (n + 1) (UInt32Data offset)) rows len check
  = Ok (mk_ndarray [n + 1] (UInt32Data offset), n).
Proof.
  intros Hn (Hlen & H0 & Hlast & Hsorted & Hmax) Hlen0 Hrows.
  unfold wf_num_rows in Hn.
  unfold table_read_offset_array, PyArray_SimpleNewFromData.
  pose proof (FROMANY_keeps (n + 1) (UInt32Data offset)) as K.
  cbn [npy_dtype] in K. rewrite K. cbn.
  rewrite (size_t_of_small (n + 1)) by lia.
  assert (E : (if negb check
               then if n + 1 =? 0
                    then Raise (PyErr_SetString PyExc_ValueError
                                  "Offset arrays must have at least one element")
                    else Ok (size_t_of (n + 1 - 1))
               else Ok rows) = Ok n).
  { destruct check; cbn.
    - now rewrite (Hrows eq_refl).
    - destruct (Z.eqb_spec (n + 1) 0); [lia | ].
      replace (n + 1 - 1) with n by lia. now rewrite size_t_of_small by lia. }
  rewrite E. cbn.
  rewrite (size_t_of_small (n + 1)) by lia. rewrite Z.eqb_refl. cbn.
  unfold uint32_data. cbn. rewrite Hlast.
  rewrite uint32_t_of_small by lia. now rewrite Z.eqb_refl.
Qed.

Lemma sorted_bounds (l : list Z) :
  StronglySorted Z.le l ->
  forall x, In x l -> hd 0 l <= x <= List.last l 0.
Proof.
  induction 1 as [ | a l HS IH Hall]; intros x Hin; [destruct Hin | ].
  cbn [hd]. destruct l as [ | b l].
  - destruct Hin as [<- | []]. cbn. lia.
  - change (List.last (a :: b :: l) 0) with (List.last (b :: l) 0).
    assert (Hb : a <= b) by (inversion Hall; assumption).
    destruct Hin as [<- | Hin].
    + specialize (IH b (or_introl eq_refl)). cbn [hd] in IH. lia.
    + specialize (IH x Hin). cbn [hd] in IH. lia.
Qed.

Lemma wf_offsets_range (n len : Z) (offset : list Z) :
  0 <= n -> wf_offsets n offset len ->
  Forall (fun x => 0 <= x <= UINT32_MAX) offset.
Proof.
  intros Hn (Hlen & H0 & Hlast & Hsorted & Hmax).
  apply List.Forall_forall. intros x Hin.
  apply Sorted_StronglySorted in Hsorted; [ | intros a b c; lia].
  pose proof (sorted_bounds offset Hsorted x Hin) as Hb.
  rewrite (last_lookup_Z offset n len Hn Hlen Hlast) in Hb.
  destruct offset as [ | o0 offset]; [destruct Hin | ].
  cbn in H0. injection H0 as ->. cbn [hd] in Hb. lia.
Qed.

Lemma check_offsets_wf (n len : Z) (offset : list Z) :
  wf_offsets n offset len -> check_offsets offset = true.
Proof.
  intros (Hlen & H0 & Hlast & Hsorted & Hmax).
  destruct offset as [ | o0 offset]; [discriminate | ].
  cbn in H0. injection H0 as ->.
  unfold check_offsets. rewrite Z.eqb_refl.
  now rewrite offsets_monotone_Sorted.
Qed.

(** Appending a well-formed variable-length column to an empty one gives
    the column back. *)
Lemma append_ragged_cleared {A} (data : list A) (offset : list Z) (n : Z) :
  wf_num_rows n -> wf_ragged n data offset ->
  append_ragged [] [0] 0 n (Some data) (Some offset)
  = Some (0, (data, offset)).
Proof.
  intros Hn Hwf. pose proof Hwf as (Hlen & H0 & Hlast & Hsorted & Hmax).
  unfold wf_num_rows in Hn.
  unfold append_ragged.
  rewrite (read_buffer_all (n + 1) offset Hlen). cbn.
  rewrite (check_offsets_wf _ _ _ Hwf). cbn.
  rewrite (last_lookup_Z offset n _ (proj1 Hn) Hlen Hlast).
  rewrite (read_buffer_all _ data eq_refl). cbn.
  do 3 f_equal. change (take (Z.to_nat 0) [0]) with (@nil Z). cbn [app].
  pose proof (wf_offsets_range n _ offset (proj1 Hn) Hwf) as Hr.
  clear -Hr. induction Hr as [ | x l Hx Hr IH]; [reflexivity | ].
  cbn [map]. f_equal; [ | exact IH]. apply wrap_unsigned_small.
  unfold UINT32_MAX in Hx. cbn [length Z.of_nat]. lia.
Qed.

Lemma wf_ragged_length {A} (n : Z) (data : list A) (offset : list Z) :
  wf_ragged n data offset -> 0 <= Z.of_nat (length data) <= UINT32_MAX.
Proof. intros (_ & _ & _ & _ & Hmax). lia. Qed.

#[local] Arguments append_ragged : simpl never.
#[local] Arguments read_buffer : simpl never.
#[local] Arguments read_ids : simpl never.
#[local] Arguments wrap_unsigned : simpl never.

Lemma wf_num_rows_size (n : Z) : wf_num_rows n -> 0 <= n <= UINT32_MAX.
Proof. unfold wf_num_rows. lia. Qed.

Lemma wrap_num_rows (n : Z) : wf_num_rows n -> wrap_unsigned 32 (0 + n) = n.
Proof.
  unfold wf_num_rows, UINT32_MAX. intros H.
  apply wrap_unsigned_small. lia.
Qed.

Ltac side_condition :=
  first [ reflexivity
        | assumption
        | apply wf_num_rows_size; assumption
        | eapply wf_ragged_length; eassumption
        | apply Zle_0_nat
        | intros _; reflexivity
        | discriminate ].

Ltac read_arrays :=
  repeat (first [ rewrite read_column_new by side_condition
                | rewrite read_offset_new by side_condition ];
          cbn).

Ltac append_columns :=
  repeat match goal with
         | |- context [uint32_t_of ?n] =>
             rewrite (uint32_t_of_small n) by side_condition
         end;
  unfold read_ids;
  rewrite ?read_buffer_all by assumption;
  cbn;
  rewrite ?append_ragged_cleared by assumption;
  cbn;
  rewrite ?wrap_num_rows by assumption.

Ltac split_wf H :=
  red in H; cbn zeta in H;
  repeat match type of H with
         | _ /\ _ => let H1 := fresh "Hwf" in destruct H as [H1 H]
         end.

Ltac table_roundtrip parse append H :=
  split_wf H; unfold parse;
  rewrite !get_table_dict_value_write_cols; cbn;
  read_arrays; unfold append; cbn; append_columns.

Lemma parse_individual_roundtrip (t t0 : IndividualTable.t) :
  wf_individual_table t ->
  parse_individual_table_dict PyArray_FROMANY t0
    (write_cols (individual_cols t)) true = Ok t.
Proof.
  intros H.
  table_roundtrip parse_individual_table_dict
    tsk_individual_table_append_columns H.
  now destruct t.
Qed.

Lemma parse_node_roundtrip (t t0 : NodeTable.t) :
  wf_node_table t ->
  parse_node_table_dict PyArray_FROMANY t0 (write_cols (node_cols t)) true
  = Ok t.
Proof.
  intros H.
  table_roundtrip parse_node_table_dict tsk_node_table_append_columns H.
  now destruct t.
Qed.

Lemma parse_edge_roundtrip (t t0 : EdgeTable.t) :
  wf_edge_table t ->
  parse_edge_table_dict PyArray_FROMANY t0 (write_cols (edge_cols t)) true
  = Ok t.
Proof.
  intros H.
  table_roundtrip parse_edge_table_dict tsk_edge_table_append_columns H.
  now destruct t.
Qed.

Lemma parse_migration_roundtrip (t t0 : MigrationTable.t) :
  wf_migration_table t ->
  parse_migration_table_dict PyArray_FROMANY t0
    (write_cols (migration_cols t)) true = Ok t.
Proof.
  intros H.
  table_roundtrip parse_migration_table_dict
    tsk_migration_table_append_columns H.
  now destruct t.
Qed.

Lemma parse_site_roundtrip (t t0 : SiteTable.t) :
  wf_site_table t ->
  parse_site_table_dict PyArray_FROMANY t0 (write_cols (site_cols t)) true
  = Ok t.
Proof.
  intros H.
  table_roundtrip parse_site_table_dict tsk_site_table_append_columns H.
  now destruct t.
Qed.

Lemma parse_mutation_roundtrip (t t0 : MutationTable.t) :
  wf_mutation_table t ->
  parse_mutation_table_dict PyArray_FROMANY t0
    (write_cols (mutation_cols t)) true = Ok t.
Proof.
  intros H.
  table_roundtrip parse_mutation_table_dict
    tsk_mutation_table_append_columns H.
  now destruct t.
Qed.

Lemma parse_population_roundtrip (t t0 : PopulationTable.t) :
  wf_population_table t ->
  parse_population_table_dict PyArray_FROMANY t0
    (write_cols (population_cols t)) true = Ok t.
Proof.
  intros H.
  table_roundtrip parse_population_table_dict
    tsk_population_table_append_columns H.
  now destruct t.
Qed.

Lemma parse_provenance_roundtrip (t t0 : ProvenanceTable.t) :
  wf_provenance_table t ->
  parse_provenance_table_dict PyArray_FROMANY t0
    (write_cols (provenance_cols t)) true = Ok t.
Proof.
  intros H.
  table_roundtrip parse_provenance_table_dict
    tsk_provenance_table_append_columns H.
  now destruct t.
Qed.

Lemma get_table_dict_written (T : tsk_table_collection_t)
    (dict : gmap string PyObject) (name : string)
    (cols : list (string * PyObject)) :
  assoc name (rev (table_descs T)) = Some cols ->
  get_table_dict (write_table_arrays T dict) name = Ok (write_cols cols).
Proof.
  intros H. unfold get_table_dict, get_table_dict_value, PyDict_GetItemString.
  unfold write_table_arrays.
  rewrite (lookup_fold_insert (fun c => PyDict (write_cols c))), H.
  reflexivity.
Qed.

Ltac step :=
  cbn [mbind result_bind rbind negb PyNumber_Check PyFloat_AsDouble
       float_of_object default].

Lemma parse_table_collection_roundtrip (T T0 : tsk_table_collection_t) :
  wf_table_collection T ->
  forall dict, dump_tables_dict T = PyDict dict ->
  parse_table_collection_dict PyArray_FROMANY (Some T0) dict = Ok T.
Proof.
  intros (Hi & Hn & He & Hm & Hs & Hmu & Hp & Hpr) dict Hd.
  injection Hd as <-. unfold parse_table_collection_dict.
  assert (Hseq : get_table_dict_value
                   (write_table_arrays T
                      (PyDict_SetItemString ∅ "sequence_length"
                         (PyFloat (sequence_length T))))
                   "sequence_length" true
                 = Ok (PyFloat (sequence_length T))).
  { unfold get_table_dict_value, PyDict_GetItemString, write_table_arrays.
    rewrite (lookup_fold_insert (fun c => PyDict (write_cols c))). cbn.
    unfold PyDict_SetItemString. now rewrite lookup_insert_eq. }
  rewrite Hseq. step.
  rewrite (get_table_dict_written T _ "individuals" _ eq_refl). step.
  rewrite (parse_individual_roundtrip _ _ Hi). step.
  rewrite (get_table_dict_written T _ "nodes" _ eq_refl). step.
  rewrite (parse_node_roundtrip _ _ Hn). step.
  rewrite (get_table_dict_written T _ "edges" _ eq_refl). step.
  rewrite (parse_edge_roundtrip _ _ He). step.
  rewrite (get_table_dict_written T _ "migrations" _ eq_refl). step.
  rewrite (parse_migration_roundtrip _ _ Hm). step.
  rewrite (get_table_dict_written T _ "sites" _ eq_refl). step.
  rewrite (parse_site_roundtrip _ _ Hs). step.
  rewrite (get_table_dict_written T _ "mutations" _ eq_refl). step.
  rewrite (parse_mutation_roundtrip _ _ Hmu). step.
  rewrite (get_table_dict_written T _ "populations" _ eq_refl). step.
  rewrite (parse_population_roundtrip _ _ Hp). step.
  rewrite (get_table_dict_written T _ "provenances" _ eq_refl). step.
  rewrite (parse_provenance_roundtrip _ _ Hpr). step.
  now destruct T.
Qed.

(** C2.  For every table collection [T] that satisfies the encoding
    contract, [asdict] succeeds, and [fromdict] applied to its
    dictionary, on any initialised collection, leaves that collection
    equal to [T]: the sequence length and every column of the eight
    tables, the packed data and offset columns included. *)
Theorem fromdict_asdict_roundtrip (T T0 : tsk_table_collection_t) :
  wf_table_collection T ->
  exists dict,
    LightweightTableCollection_asdict
      (mk_LightweightTableCollection (Some T)) = Ok dict /\
    LightweightTableCollection_fromdict PyArray_FROMANY
      (mk_LightweightTableCollection (Some T0)) dict
    = Ok (Py_None, mk_LightweightTableCollection (Some T)).
Proof.
  intros HT. exists (dump_tables_dict T). split; [reflexivity | ].
  unfold LightweightTableCollection_fromdict.
  unfold dump_tables_dict at 1. cbn [tables].
  rewrite (parse_table_collection_roundtrip T T0 HT _ eq_refl).
  reflexivity.
Qed.

End RoundTrip.

(** ** Comparisons of doubles *)

Lemma SFcompare_antisym (x y : spec_float) :
  SFcompare y x = option_map CompOpp (SFcompare x y).
Proof.
  destruct x as [sx | sx | | sx mx ex], y as [sy | sy | | sy my ey];
    try reflexivity;
    try (destruct sx; reflexivity); try (destruct sy; reflexivity);
    try (destruct sx, sy; reflexivity).
  cbn. destruct sx, sy; try reflexivity;
    rewrite (Z.compare_antisym ey ex);
    destruct (ey ?= ex)%Z; cbn; try reflexivity;
    change (Pos.compare_cont Eq my mx) with (Pos.compare my mx);
    change (Pos.compare_cont Eq mx my) with (Pos.compare mx my);
    rewrite (Pos.compare_antisym my mx); now destruct (my ?= mx)%positive.
Qed.

(** [x < y] excludes [y <= x], and [x <= y] excludes [y < x]. *)
Lemma dlt_not_dge (x y : double) : dlt x y = true -> dle y x = false.
Proof.
  unfold dlt, dle. rewrite ltb_spec, leb_spec. unfold SFltb, SFleb.
  rewrite (SFcompare_antisym (Prim2SF x) (Prim2SF y)).
  destruct (SFcompare (Prim2SF x) (Prim2SF y)) as [[ | | ] | ]; cbn;
    congruence.
Qed.

Lemma dle_not_dgt (x y : double) : dle x y = true -> dlt y x = false.
Proof.
  unfold dlt, dle. rewrite ltb_spec, leb_spec. unfold SFltb, SFleb.
  rewrite (SFcompare_antisym (Prim2SF x) (Prim2SF y)).
  destruct (SFcompare (Prim2SF x) (Prim2SF y)) as [[ | | ] | ]; cbn;
    congruence.
Qed.

(** A double that is not NaN compares with zero: it is below zero or at
    least zero. *)
Lemma not_nan_compares (x : double) :
  is_nan x = false -> dlt x 0 = false -> dle 0 x = true.
Proof.
  unfold dlt, dle, is_nan. rewrite FloatAxioms.eqb_spec, ltb_spec, leb_spec.
  change (Prim2SF 0) with (S754_zero false).
  destruct (Prim2SF x) as [sx | sx | | sx mx ex]; cbn;
    try destruct sx; cbn; congruence.
Qed.

(** ** RandomGenerator *)

(** X1.  For a seed that fits 64 bits the constructor succeeds exactly
    when the seed is above zero and below [2^32], and [get_seed] then
    returns the seed. *)
Lemma RandomGenerator_init_64 (n : Z) :
  0 <= n < 2 ^ 64 ->
  (failed (RandomGenerator_init (PyLong n)) <-> ~ 0 < n < 2 ^ 32) /\
  (forall self, RandomGenerator_init (PyLong n) = Ok self ->
                RandomGenerator_get_seed self = Ok (PyLong n)).
Proof.
  intros Hn. unfold RandomGenerator_init. cbn.
  rewrite (wrap_unsigned_small 64 n Hn).
  destruct (Z.eqb_spec n 0) as [-> | Hz]; cbn.
  - split; [split; [lia | auto] | discriminate].
  - destruct (Z.geb_spec n (2 ^ 32)) as [Hbig | Hsmall].
    + split; [split; [lia | auto] | discriminate].
    + split.
      * split; [intros H; now apply failed_Ok in H | lia].
      * intros self H. injection H as <-.
        now rewrite (wrap_unsigned_small 64 n Hn).
Qed.

(** C10.  The constructor reduces the seed modulo [2^64] before it tests
    the range: the seed [2^64 + 1] is accepted, and [get_seed] then
    returns 1. *)
Theorem RandomGenerator_init_wraps :
  RandomGenerator_init (PyLong (2 ^ 64 + 1))
  = Ok (mk_RandomGenerator 1 (Some (gsl_rng_seeded 1))) /\
  (self ← RandomGenerator_init (PyLong (2 ^ 64 + 1));
   RandomGenerator_get_seed self) = Ok (PyLong 1).
Proof. split; reflexivity. Qed.

(** ** The GSL error handler *)

(** C9, as amended.  [unset_gsl_error_handler] captures the handler that
    it finds and [restore_gsl_error_handler] installs the captured one:
    after the pair the handler is the one that was found.  The pair
    writes no other variable of the module.  The initialisation of the
    module captures nothing: it leaves the handler of GSL alone and
    sets the saved one to NULL, [unset_gsl_error_handler] being meant
    to be called when the package is imported.  The initialisation also
    writes the two exception classes, which are variables of the module
    as the saved handler is. *)
Theorem gsl_error_handler_restored (g : globals) :
  let captured := snd (msprime_unset_gsl_error_handler g) in
  let restored := snd (msprime_restore_gsl_error_handler captured) in
  old_gsl_error_handler captured = gsl_error_handler g /\
  gsl_error_handler restored = gsl_error_handler g /\
  MsprimeInputError_obj restored = MsprimeInputError_obj g /\
  MsprimeLibraryError_obj restored = MsprimeLibraryError_obj g /\
  gsl_error_handler (PyInit__msprime g) = gsl_error_handler g /\
  old_gsl_error_handler (PyInit__msprime g) = NULL_handler /\
  MsprimeInputError_obj (PyInit__msprime g) = Some "_msprime.InputError" /\
  MsprimeLibraryError_obj (PyInit__msprime g)
  = Some "_msprime.LibraryError".
Proof. destruct g. cbn. repeat split. Qed.

(** C9, the claim as it stands fails at the initialisation of the
    module: with a handler that someone else has installed, the
    initialisation saves NULL and not this handler, and it writes the
    two exception classes, state of the module beside the saved
    handler. *)
Lemma module_load_captures_nothing :
  let g := mk_globals (user_handler 7) (user_handler 3) None None in
  old_gsl_error_handler (PyInit__msprime g) <> gsl_error_handler g /\
  MsprimeInputError_obj (PyInit__msprime g) <> MsprimeInputError_obj g /\
  MsprimeLibraryError_obj (PyInit__msprime g) <> MsprimeLibraryError_obj g.
Proof. cbn. repeat split; discriminate. Qed.

(** ** log_likelihood_arg *)

Section Likelihood.

Context (K : msp_api).

(** A negative recombination rate is refused before anything else is
    done: whatever the kernel and the table library are, the call raises
    [ValueError] and the tables are as they were. *)
Lemma log_likelihood_arg_negative (tables : LightweightTableCollection)
    (Ne recombination_rate : double) :
  dlt recombination_rate 0 = true ->
  msprime_log_likelihood_arg K tables Ne recombination_rate
  = (Raise (PyErr_SetString PyExc_ValueError
              "recombination_rate must be >= 0"), tables).
Proof. intros H. unfold msprime_log_likelihood_arg. now rewrite H. Qed.

(** C8, as amended.  A negative recombination rate raises [ValueError]
    and leaves the tables alone.  For a recombination rate that is at
    least zero the tree sequence is built from the tables; when the
    table library refuses them the call raises [LibraryError] and the
    likelihood is not computed; otherwise the likelihood is computed
    from the tree sequence, the recombination rate and [Ne], and the call
    raises [LibraryError] when the kernel returns an error and returns
    the likelihood as a float when it does not. *)
Theorem log_likelihood_arg_spec (t : tsk_table_collection_t)
    (Ne recombination_rate : double) :
  let tables := mk_LightweightTableCollection (Some t) in
  let built := tsk_treeseq_init K t in
  let computed :=
    msp_log_likelihood_arg K (snd (fst built)) recombination_rate Ne in
  let outcome :=
    fst (msprime_log_likelihood_arg K tables Ne recombination_rate) in
  (dlt recombination_rate 0 = true ->
   msprime_log_likelihood_arg K tables Ne recombination_rate
   = (Raise (PyErr_SetString PyExc_ValueError
               "recombination_rate must be >= 0"), tables)) /\
  (dle 0 recombination_rate = true ->
   (fst (fst built) <> 0 ->
    outcome = Raise (handle_tskit_library_error (fst (fst built)))) /\
   (fst (fst built) = 0 -> fst computed <> 0 ->
    outcome = Raise (handle_library_error (fst computed))) /\
   (fst (fst built) = 0 -> fst computed = 0 ->
    outcome = Ok (PyFloat (snd computed)))).
Proof.
  cbn zeta. split.
  - apply log_likelihood_arg_negative.
  - intros Hrr. apply dle_not_dgt in Hrr.
    unfold msprime_log_likelihood_arg. rewrite Hrr. cbn [tables_of tables].
    destruct (tsk_treeseq_init K t) as [[err ts] t']. cbn [fst snd].
    destruct (Z.eqb_spec err 0) as [-> | Herr]; cbn [negb].
    + destruct (msp_log_likelihood_arg K ts recombination_rate Ne)
        as [err2 lik]. cbn [fst snd].
      destruct (Z.eqb_spec err2 0) as [-> | Herr2]; cbn [negb fst].
      * repeat split; intros; congruence.
      * repeat split; intros; congruence.
    + repeat split; intros; congruence.
Qed.

End Likelihood.

(** C8, the claim as it stands fails: with a recombination rate of zero
    and the tables of a collection that has just been created, whose
    sequence length is -1, the table library refuses to build the tree
    sequence and the call raises [LibraryError]; no likelihood is
    returned. *)
Lemma log_likelihood_arg_library_error :
  dle 0 0 = true /\
  msprime_log_likelihood_arg example_kernel
    (mk_LightweightTableCollection (Some (empty_tables (-1)))) 1 0
  = (Raise (handle_tskit_library_error TSK_ERR_BAD_SEQUENCE_LENGTH),
     mk_LightweightTableCollection (Some (empty_tables (-1)))).
Proof. split; reflexivity. Qed.

(** ** Simulator.run *)

Section Run.

Context (K : msp_api).

Lemma state_before_shift (end_time : double) (s : msp_t K) (n : nat) :
  state_before K end_time s (S n)
  = state_before K end_time (snd (msp_run K s end_time 1024)) n.
Proof.
  induction n as [ | n IH]; [reflexivity | ].
  cbn [state_before] in *. now rewrite IH.
Qed.

Lemma status_of_shift (end_time : double) (s : msp_t K) (n : nat) :
  status_of K end_time s (S n)
  = status_of K end_time (snd (msp_run K s end_time 1024)) n.
Proof. unfold status_of. now rewrite state_before_shift. Qed.

(** The loop calls the kernel until a call returns a status other than
    [MSP_EXIT_MAX_EVENTS] or the signal check after a call fails. *)
Lemma Simulator_run_loop_spec (end_time : double)
    (signals : nat -> option PyErr) (n : nat) :
  forall (fuel calls : nat) (s : msp_t K),
    (forall i, (i < n)%nat ->
       status_of K end_time s i = MSP_EXIT_MAX_EVENTS /\
       signals (calls + i)%nat = None) ->
    status_of K end_time s n <> MSP_EXIT_MAX_EVENTS \/
    signals (calls + n)%nat <> None ->
    (n < fuel)%nat ->
    Simulator_run_loop K fuel end_time signals calls s
    = Some (run_outcome (status_of K end_time s n) (signals (calls + n)%nat),
            state_before K end_time s (S n)).
Proof.
  induction n as [ | n IH]; intros fuel calls s Hcont Hstop Hfuel.
  - destruct fuel as [ | fuel]; [lia | ]. cbn [Simulator_run_loop].
    unfold status_of in *. cbn [state_before] in *.
    rewrite Nat.add_0_r in *.
    destruct (msp_run K s end_time 1024) as [status s'] eqn:E.
    cbn [fst snd] in *. unfold run_outcome.
    destruct (status <? 0); [reflexivity | ].
    destruct (signals calls) as [e | ]; [reflexivity | ].
    destruct (Z.eqb_spec status MSP_EXIT_MAX_EVENTS) as [-> | Hne].
    + destruct Hstop as [H | H]; congruence.
    + reflexivity.
  - destruct fuel as [ | fuel]; [lia | ]. cbn [Simulator_run_loop].
    destruct (Hcont 0%nat ltac:(lia)) as [Hst Hsig].
    unfold status_of in Hst. cbn [state_before] in Hst.
    rewrite Nat.add_0_r in Hsig.
    rewrite status_of_shift, state_before_shift.
    destruct (msp_run K s end_time 1024) as [status s'] eqn:E.
    cbn [fst snd] in *. subst status. rewrite Hsig. cbn.
    replace (calls + S n)%nat with (S calls + n)%nat by lia.
    apply IH; [ | | lia].
    + intros i Hi. destruct (Hcont (S i) ltac:(lia)) as [H1 H2].
      rewrite status_of_shift, E in H1. cbn [snd] in H1.
      split; [exact H1 | ].
      now replace (S calls + i)%nat with (calls + S i)%nat by lia.
    + replace (S calls + n)%nat with (calls + S n)%nat by lia.
      rewrite status_of_shift, E in Hstop. exact Hstop.
Qed.

(** C1, as amended.  For an end time that is at least zero,
    [Simulator.run] calls the kernel with a budget of 1024 events and,
    after every call that returns a status that is not negative, asks
    the interpreter for pending signals.  It goes on exactly while the
    kernel returns [MSP_EXIT_MAX_EVENTS] and no signal handler has
    raised.  When call [n] ends the loop, the run has made [n + 1]
    calls, and it raises [LibraryError] if the last status is negative;
    otherwise it raises the exception of the signal handler if there is
    one; otherwise it returns [True] if the last status is 0 and
    [False] if it is another status. *)
Theorem Simulator_run_spec (s : msp_t K) (arg : option PyObject)
    (end_time : double) (signals : nat -> option PyErr) (n : nat) :
  run_end_time arg = Ok end_time ->
  dle 0 end_time = true ->
  (forall i, (i < n)%nat ->
     status_of K end_time s i = MSP_EXIT_MAX_EVENTS /\ signals i = None) ->
  status_of K end_time s n <> MSP_EXIT_MAX_EVENTS \/ signals n <> None ->
  forall fuel, (n < fuel)%nat ->
    Simulator_run K fuel signals (mk_Simulator K (Some s)) arg
    = Some (run_outcome (status_of K end_time s n) (signals n),
            mk_Simulator K (Some (state_before K end_time s (S n)))).
Proof.
  intros Harg Htime Hcont Hstop fuel Hfuel.
  unfold Simulator_run. cbn [Simulator_check_sim sim].
  rewrite Harg, (dle_not_dgt _ _ Htime).
  now rewrite (Simulator_run_loop_spec end_time signals n fuel 0 s).
Qed.

End Run.

(** The kernel state of the examples of [Simulator.run]: the next calls
    return [MSP_EXIT_MAX_EVENTS] and then [MSP_EXIT_COALESCENCE]. *)
Lemma Simulator_run_example :
  Simulator_run example_kernel 3 (fun _ => None)
    (mk_Simulator example_kernel
       (Some (mk_example_msp (mk_model MSP_MODEL_HUDSON 1 no_params) 1 []
                [MSP_EXIT_MAX_EVENTS; MSP_EXIT_COALESCENCE])))
    (Some (PyFloat 0))
  = Some (Ok Py_True,
          mk_Simulator example_kernel
            (Some (mk_example_msp (mk_model MSP_MODEL_HUDSON 1 no_params) 1 []
                     []))).
Proof. reflexivity. Qed.

(** C1, the claim as it stands fails: the kernel returns
    [MSP_EXIT_MAX_EVENTS], a signal handler has raised
    [KeyboardInterrupt], and the run stops after this one call and raises;
    the status that the next call would return stays in the script. *)
Lemma Simulator_run_interrupted :
  let s := mk_example_msp (mk_model MSP_MODEL_HUDSON 1 no_params) 1 []
             [MSP_EXIT_MAX_EVENTS; MSP_EXIT_COALESCENCE] in
  dle 0 0 = true /\
  status_of example_kernel 0 s 0 = MSP_EXIT_MAX_EVENTS /\
  Simulator_run example_kernel 3 (fun _ => Some KeyboardInterrupt)
    (mk_Simulator example_kernel (Some s)) (Some (PyFloat 0))
  = Some (Raise KeyboardInterrupt,
          mk_Simulator example_kernel
            (Some (mk_example_msp (mk_model MSP_MODEL_HUDSON 1 no_params) 1 []
                     [MSP_EXIT_COALESCENCE]))).
Proof. cbn zeta. repeat split. Qed.

(** ** The constructor and the pedigree *)

Section Pedigree.

Context (K : msp_api).
Variable PyArray_FROMANY : PyObject -> npy_type -> Z -> Z -> result ndarray.

Lemma model_type_eqb_eq (a b : model_type) :
  model_type_eqb a b = true <-> a = b.
Proof. destruct a, b; cbn; split; congruence. Qed.

(** With a pedigree and a model that is not the pedigree model, the
    pedigree step raises and leaves the kernel as it is. *)
Lemma Simulator_init_pedigree_refused (args : Simulator_args K)
    (s : msp_t K) :
  pedigree K args <> Py_None ->
  type (msp_get_model K s) <> MSP_MODEL_WF_PED ->
  exists e, Simulator_init_pedigree K PyArray_FROMANY args s = (Raise e, s).
Proof.
  intros Hped Hmodel. unfold Simulator_init_pedigree.
  destruct (pedigree K args) as [ | | | | | | | d | ] eqn:E;
    try congruence; cbn [is_None negb]; try (eexists; reflexivity).
  destruct (model_type_eqb (type (msp_get_model K s)) MSP_MODEL_WF_PED) eqn:T.
  - apply model_type_eqb_eq in T. contradiction.
  - cbn [negb]. eexists; reflexivity.
Qed.

(** With a pedigree, the pedigree step succeeds only for a dictionary,
    under the pedigree model, when [Simulator_parse_pedigree] succeeds. *)
Lemma Simulator_init_pedigree_accepted (args : Simulator_args K)
    (s s' : msp_t K) :
  pedigree K args <> Py_None ->
  Simulator_init_pedigree K PyArray_FROMANY args s = (Ok tt, s') ->
  exists d, pedigree K args = PyDict d /\
            type (msp_get_model K s) = MSP_MODEL_WF_PED /\
            Simulator_parse_pedigree K PyArray_FROMANY d s = (Ok tt, s').
Proof.
  intros Hped. unfold Simulator_init_pedigree.
  destruct (pedigree K args) as [ | | | | | | | d | ] eqn:E;
    try congruence; cbn [is_None negb]; try discriminate.
  destruct (model_type_eqb (type (msp_get_model K s)) MSP_MODEL_WF_PED) eqn:T;
    cbn [negb]; [ | discriminate].
  apply model_type_eqb_eq in T. intros H. now exists d.
Qed.

(** C7.  When a pedigree is supplied, the constructor fails whenever the
    simulation model, at the point where the pedigree is looked at, is
    not the Wright-Fisher pedigree model, and the kernel is then left as
    it was at that point: no pedigree has been parsed or installed.  A
    constructor that succeeds has found the pedigree model there and has
    parsed the pedigree, a dictionary, from that state. *)
Theorem pedigree_requires_wf_ped (args : Simulator_args K) :
  pedigree K args <> Py_None ->
  (forall s,
     reaches_pedigree_check K args s ->
     type (msp_get_model K s) <> MSP_MODEL_WF_PED ->
     exists e, Simulator_init K PyArray_FROMANY args
               = (Raise e, mk_Simulator K (Some s))) /\
  (fst (Simulator_init K PyArray_FROMANY args) = Ok tt ->
   exists s d,
     reaches_pedigree_check K args s /\
     pedigree K args = PyDict d /\
     type (msp_get_model K s) = MSP_MODEL_WF_PED /\
     fst (Simulator_parse_pedigree K PyArray_FROMANY d s) = Ok tt).
Proof.
  intros Hped. split.
  - intros s (np & ns & samples & recomb & rng & Hsamples & Hreach) Hmodel.
    cbn zeta in Hreach.
    destruct (Simulator_init_pedigree_refused args s Hped Hmodel) as [e He].
    exists e. unfold Simulator_init. rewrite Hsamples.
    destruct (msp_alloc K (size_t_of ns) samples recomb
                (tables (tables_arg K args)) rng) as [sim_ret s0].
    cbn [fst snd] in Hreach.
    unfold mbind, M_bind, M_bind_def. rewrite Hreach. now rewrite He.
  - unfold Simulator_init.
    destruct (Simulator_init_samples K args)
      as [[[[[np ns] samples] recomb] rng] | e | ] eqn:Hsamples;
      [ | discriminate | discriminate].
    destruct (msp_alloc K (size_t_of ns) samples recomb
                (tables (tables_arg K args)) rng) as [sim_ret s0] eqn:Halloc.
    unfold mbind, M_bind, M_bind_def.
    destruct (Simulator_init_to_pedigree K args np sim_ret s0)
      as [[[] | e | ] s] eqn:Hreach; [ | discriminate | discriminate].
    destruct (Simulator_init_pedigree K PyArray_FROMANY args s)
      as [[[] | e | ] s'] eqn:Hp; [ | discriminate | discriminate].
    intros _.
    destruct (Simulator_init_pedigree_accepted args s s' Hped Hp)
      as (d & Hd & Hmodel & Hparse).
    exists s, d. repeat split; auto.
    + exists np, ns, samples, recomb, rng. cbn zeta.
      rewrite Halloc. cbn [fst snd]. auto.
    + now rewrite Hparse.
Qed.

End Pedigree.

(** ** The migration matrix *)

Lemma Forall2_In_left {A B} (R : A -> B -> Prop) (l : list A) (l' : list B)
    (a : A) :
  Forall2 R l l' -> In a l -> exists b, In b l' /\ R a b.
Proof.
  induction 1 as [ | x y l l' Hxy Hall IH]; [intros [] | ].
  intros [<- | Hin].
  - exists y. split; [now left | exact Hxy].
  - destruct (IH Hin) as (b & Hb & Hab). exists b. split; [now right | exact Hab].
Qed.

(** A list of numbers has at most one list of doubles. *)
Lemma doubles_of_unique (l : list PyObject) (r1 r2 : list double) :
  Forall2 (fun v x => double_of v = Some x) l r1 ->
  Forall2 (fun v x => double_of v = Some x) l r2 -> r1 = r2.
Proof.
  intros H1. revert r2.
  induction H1 as [ | v x l r1 Hx Hall IH]; intros r2 H2;
    inversion H2 as [ | v' x' l' r2' Hx' Hall']; subst; [reflexivity | ].
  rewrite (IH _ Hall'). congruence.
Qed.

(** The loop over the entries stops at the first entry that has no
    double or whose double is below zero, and else gives the doubles of
    the entries. *)
Lemma parse_migration_rates_cases (l : list PyObject) :
  (failed (parse_migration_rates l) /\
   exists v, In v l /\
     (double_of v = None \/
      exists x, double_of v = Some x /\ dlt x 0 = true)) \/
  (exists rates,
     parse_migration_rates l = Ok rates /\
     Forall2 (fun v x => double_of v = Some x) l rates /\
     Forall (fun x => dlt x 0 = false) rates).
Proof.
  induction l as [ | v l IH].
  { right. exists []. split; [reflexivity | ]. split; constructor. }
  cbn [parse_migration_rates].
  destruct (double_of v) as [x | ] eqn:Hd.
  - destruct (double_of_Some _ _ Hd) as [Hn Hx]. rewrite Hn, Hx. cbn [negb].
    destruct (dlt x 0) eqn:Hv.
    { left. split; auto. exists v. split; [now left | ]. right. now exists x. }
    destruct IH as [[[e He] (v' & Hin & Hbad)] | (rates & Hok & Hall & Hpos)].
    + left. rewrite He. split; [cbn; auto | ].
      exists v'. split; [now right | exact Hbad].
    + right. exists (x :: rates). rewrite Hok. split; [reflexivity | ].
      split; now constructor.
  - left. split; [ | exists v; split; [now left | now left]].
    destruct (double_of_None _ Hd) as [Hn | Hx].
    + rewrite Hn. cbn. auto.
    + rewrite Hx. destruct (PyNumber_Check v); cbn; auto.
Qed.

Section MigrationMatrix.

Context (K : msp_api).
Hypothesis setter_accepts : migration_matrix_setter_accepts K.

(** C4, as amended.  With [P] populations configured, [P] below [2^32]:
    for a list none of whose entries is NaN, setting the migration
    matrix fails exactly when the list does not have [P * P] entries, or
    has an entry without a double value (not a number, or an int too
    large for a double), or has an entry below zero.  A list of [P * P]
    numbers whose doubles are all at least zero is accepted, and the
    kernel is given these doubles in the same order. *)
Theorem parse_migration_matrix_spec (s : msp_t K) (l : list PyObject) :
  0 <= msp_get_num_populations K s < 2 ^ 32 ->
  let P := msp_get_num_populations K s in
  let r := Simulator_parse_migration_matrix K (mk_Simulator K (Some s)) l in
  ((forall v x, In v l -> double_of v = Some x -> is_nan x = false) ->
   (failed (fst r) <->
    Z.of_nat (length l) <> P * P \/
    exists v, In v l /\
      (double_of v = None \/
       exists x, double_of v = Some x /\ dlt x 0 = true))) /\
  (forall rates,
     Forall2 (fun v x => double_of v = Some x) l rates ->
     Z.of_nat (length rates) = P * P ->
     Forall (fun rate => dle 0 rate = true) rates ->
     r = (Ok tt,
          mk_Simulator K
            (Some (snd (msp_set_migration_matrix K s (P * P) rates))))).
Proof.
  intros HP. cbn zeta.
  unfold Simulator_parse_migration_matrix, on_sim.
  cbn [Simulator_check_sim sim]. unfold parse_migration_matrix.
  assert (HP2 : 0 <= msp_get_num_populations K s * msp_get_num_populations K s
                < 2 ^ 64).
  { change (2 ^ 64) with (2 ^ 32 * 2 ^ 32). nia. }
  unfold size_t_of.
  rewrite (wrap_unsigned_small 64 (msp_get_num_populations K s))
    by (change (2 ^ 64) with (2 ^ 32 * 2 ^ 32); nia).
  rewrite (wrap_unsigned_small 64 _ HP2).
  set (P := msp_get_num_populations K s) in *.
  destruct (Z.eqb_spec (P * P) (Z.of_nat (length l))) as [Hsize | Hsize];
    cbn [negb].
  2:{ cbn [fst]. split.
      - intros _. split; [intros _; left; congruence | auto].
      - intros rates Hrates Hlen _. apply Forall2_length in Hrates.
        congruence. }
  destruct (parse_migration_rates_cases l)
    as [[[e He] Hbad] | (rates & Hok & Hrates & Hpos)].
  - rewrite He. cbn [fst]. split.
    + intros _. split; [intros _; now right | auto].
    + intros rates Hrates Hlen Hnonneg. exfalso.
      destruct Hbad as (v & Hin & Hv).
      destruct (Forall2_In_left _ _ _ _ Hrates Hin) as (x & Hx & Hvx).
      rewrite List.Forall_forall in Hnonneg.
      specialize (Hnonneg x Hx). apply dle_not_dgt in Hnonneg.
      destruct Hv as [Hv | (x' & Hv & Hneg)]; congruence.
  - rewrite Hok.
    assert (Hlen : Z.of_nat (length rates) = Z.of_nat (length l))
      by (apply Forall2_length in Hrates; congruence).
    assert (Hacc : Forall (fun rate => dle 0 rate = true) rates ->
                   fst (msp_set_migration_matrix K s (Z.of_nat (length l))
                          rates) = 0).
    { intros Hall. apply setter_accepts; [fold P; congruence | exact Hlen
                                          | exact Hall]. }
    destruct (msp_set_migration_matrix K s (Z.of_nat (length l)) rates)
      as [err s'] eqn:E.
    cbn [fst] in Hacc. split.
    + intros Hnan.
      rewrite Hacc.
      2:{ apply List.Forall_forall. intros x Hx.
          rewrite List.Forall_forall in Hpos.
          apply Forall2_flip in Hrates.
          destruct (Forall2_In_left _ _ _ _ Hrates Hx) as (v & Hv & Hvx).
          apply not_nan_compares; [exact (Hnan v x Hv Hvx) | now apply Hpos]. }
      cbn [Z.eqb negb fst]. split; [intros H; now apply failed_Ok in H | ].
      intros [Hne | (v & Hin & Hv)]; [congruence | ].
      destruct (Forall2_In_left _ _ _ _ Hrates Hin) as (x & Hx & Hvx).
      rewrite List.Forall_forall in Hpos. specialize (Hpos x Hx).
      destruct Hv as [Hv | (x' & Hv & Hneg)]; congruence.
    + intros rates' Hrates' _ Hnonneg.
      rewrite (doubles_of_unique _ _ _ Hrates' Hrates) in *.
      rewrite (Hacc Hnonneg), Hsize, E. reflexivity.
Qed.

End MigrationMatrix.

(** ** The simulation model *)

Lemma get_dict_number_entry (m : gmap string PyObject) (key : string)
    (x : double) :
  model_entry m key x ->
  exists v, get_dict_number m key = Ok v /\ PyFloat_AsDouble v = x.
Proof.
  intros (v & Hv & Hn & Hx). exists v. split; [ | exact Hx].
  unfold get_dict_number, get_dict_value, PyDict_GetItemString.
  rewrite Hv. cbn. now rewrite Hn.
Qed.

Lemma get_dict_value_name (m : gmap string PyObject) (name : string) :
  m !! "name" = Some (PyUnicode name) ->
  get_dict_value m "name" = Ok (PyUnicode name).
Proof.
  intros H. unfold get_dict_value, PyDict_GetItemString. now rewrite H.
Qed.

#[local] Arguments dlt : simpl never.
#[local] Arguments dle : simpl never.
#[local] Arguments dge : simpl never.
#[local] Arguments dgt : simpl never.

Ltac run_M :=
  unfold lift, raise, kernel_call, set_if, check_input, mbind, mret,
    M_bind, M_ret, M_bind_def, M_ret_def.

Section Models.

Context (K : msp_api).

(** For the model "beta" with a reference size above zero and numeric
    parameters, the parser asks the kernel and turns its code into the
    outcome. *)
Lemma parse_simulation_model_beta (m : gmap string PyObject)
    (N alpha tp : double) (s : msp_t K) :
  m !! "name" = Some (PyUnicode "beta") ->
  model_entry m "reference_size" N -> dlt 0 N = true ->
  model_entry m "alpha" alpha -> model_entry m "truncation_point" tp ->
  parse_simulation_model K m s
  = let (err, s') := msp_set_simulation_model_beta K s N alpha tp in
    (if negb (err =? 0)
     then Raise (handle_input_error "simulation model" err)
     else Ok tt, s').
Proof.
  intros Hname HN Hpos Ha Ht.
  destruct (get_dict_number_entry _ _ _ HN) as (vN & EN & <-).
  destruct (get_dict_number_entry _ _ _ Ha) as (va & Ea & <-).
  destruct (get_dict_number_entry _ _ _ Ht) as (vt & Et & <-).
  unfold parse_simulation_model. run_M.
  rewrite EN, (dlt_not_dge _ _ Hpos), (get_dict_value_name _ _ Hname).
  cbn. rewrite Ea, Et.
  destruct (msp_set_simulation_model_beta K s (PyFloat_AsDouble vN)
              (PyFloat_AsDouble va) (PyFloat_AsDouble vt)) as [err s'].
  now destruct (err =? 0).
Qed.

Lemma parse_simulation_model_dirac (m : gmap string PyObject)
    (N psi c : double) (s : msp_t K) :
  m !! "name" = Some (PyUnicode "dirac") ->
  model_entry m "reference_size" N -> dlt 0 N = true ->
  model_entry m "psi" psi -> model_entry m "c" c ->
  parse_simulation_model K m s
  = if dle psi 0 || dge psi 1
    then (Raise (PyErr_SetString PyExc_ValueError "Must have 0 < psi < 1"), s)
    else if dlt c 0
    then (Raise (PyErr_SetString PyExc_ValueError "c >= 0"), s)
    else
      let (err, s') := msp_set_simulation_model_dirac K s N psi c in
      (if negb (err =? 0)
       then Raise (handle_input_error "simulation model" err)
       else Ok tt, s').
Proof.
  intros Hname HN Hpos Hpsi Hc.
  destruct (get_dict_number_entry _ _ _ HN) as (vN & EN & <-).
  destruct (get_dict_number_entry _ _ _ Hpsi) as (vp & Ep & <-).
  destruct (get_dict_number_entry _ _ _ Hc) as (vc & Ec & <-).
  unfold parse_simulation_model. run_M.
  rewrite EN, (dlt_not_dge _ _ Hpos), (get_dict_value_name _ _ Hname).
  cbn. rewrite Ep, Ec.
  destruct (dle (PyFloat_AsDouble vp) 0 || dge (PyFloat_AsDouble vp) 1);
    [reflexivity | ].
  destruct (dlt (PyFloat_AsDouble vc) 0); [reflexivity | ].
  destruct (msp_set_simulation_model_dirac K s (PyFloat_AsDouble vN)
              (PyFloat_AsDouble vp) (PyFloat_AsDouble vc)) as [err s'].
  run_M. now destruct (err =? 0).
Qed.

(** C5.  When the model dictionary names "beta", with a reference size
    above zero, and alpha is outside (1,2) or the truncation point is
    outside (0,1], the constructor fails with an input error of the
    section "simulation model" that carries the negative code of the
    kernel, and the model of the simulator is the one it had after its
    allocation: the Beta model is not installed.  The range test is the
    kernel's; the module passes the two parameters on as they are. *)
Theorem beta_parameters_rejected
    (PyArray_FROMANY : PyObject -> npy_type -> Z -> Z -> result ndarray)
    (args : Simulator_args K) (m : gmap string PyObject)
    (N alpha tp : double) (num_populations num_samples : Z)
    (samples : list sample_t) (recomb : recomb_map_t K) (rng : gsl_rng)
    (s : msp_t K) :
  beta_setter_validates K ->
  py_model K args = Some m ->
  m !! "name" = Some (PyUnicode "beta") ->
  model_entry m "reference_size" N -> dlt 0 N = true ->
  model_entry m "alpha" alpha -> model_entry m "truncation_point" tp ->
  valid_beta alpha tp = false ->
  Simulator_init_samples K args
  = Ok (num_populations, num_samples, samples, recomb, rng) ->
  msp_alloc K (size_t_of num_samples) samples recomb
    (tables (tables_arg K args)) rng = (0, s) ->
  exists err s',
    err < 0 /\
    Simulator_init K PyArray_FROMANY args
    = (Raise (handle_input_error "simulation model" err),
       mk_Simulator K (Some s')) /\
    msp_get_model K s' = msp_get_model K s.
Proof.
  intros Hbeta Hm Hname HN Hpos Ha Ht Hinvalid Hsamples Halloc.
  destruct (Hbeta s N alpha tp Hinvalid) as [Herr Hmodel].
  exists (fst (msp_set_simulation_model_beta K s N alpha tp)),
         (snd (msp_set_simulation_model_beta K s N alpha tp)).
  split; [exact Herr | ]. split; [ | exact Hmodel].
  unfold Simulator_init. rewrite Hsamples, Halloc.
  unfold Simulator_init_to_pedigree, Simulator_init_configure.
  rewrite Hm. run_M. cbn [Z.eqb negb].
  rewrite (parse_simulation_model_beta m N alpha tp s Hname HN Hpos Ha Ht).
  destruct (msp_set_simulation_model_beta K s N alpha tp) as [err s'].
  cbn [fst snd] in *.
  destruct (Z.eqb_spec err 0) as [-> | Hne]; [lia | reflexivity].
Qed.

Lemma number_entry_model_entry (m : gmap string PyObject) (key : string)
    (x : double) :
  number_entry m key x -> model_entry m key x.
Proof.
  intros (v & Hv & Hx). destruct (double_of_Some _ _ Hx) as [Hn Hd].
  now exists v.
Qed.

(** C6, as amended.  For a model dictionary that names "dirac" and whose
    reference size, psi and c have double values, the reference size
    above zero: parsing the model, as the constructor and [set_model] do
    it, raises [ValueError] exactly when psi <= 0, psi >= 1 or c < 0.
    In that case a construction that has come to the model (the random
    generator, the recombination map and the samples are accepted and
    the simulator is allocated) fails with this error, and the
    simulator is as it was allocated.  When 0 < psi < 1 and c >= 0 the
    parsing succeeds, [set_model] returns [None], the model of the
    simulator is the Dirac model with this reference size, psi and c,
    and the dictionary that [get_model] returns holds the same psi and
    c. *)
Theorem dirac_parameters_spec
    (PyArray_FROMANY : PyObject -> npy_type -> Z -> Z -> result ndarray)
    (args : Simulator_args K) (m : gmap string PyObject)
    (N psi c : double) (num_populations num_samples : Z)
    (samples : list sample_t) (recomb : recomb_map_t K) (rng : gsl_rng)
    (s : msp_t K) :
  dirac_setter_installs K ->
  py_model K args = Some m ->
  m !! "name" = Some (PyUnicode "dirac") ->
  number_entry m "reference_size" N -> dlt 0 N = true ->
  number_entry m "psi" psi -> number_entry m "c" c ->
  Simulator_init_samples K args
  = Ok (num_populations, num_samples, samples, recomb, rng) ->
  msp_alloc K (size_t_of num_samples) samples recomb
    (tables (tables_arg K args)) rng = (0, s) ->
  let r := Simulator_parse_simulation_model K (mk_Simulator K (Some s)) m in
  let out_of_range :=
    dle psi 0 = true \/ dge psi 1 = true \/ dlt c 0 = true in
  (raises PyExc_ValueError (fst r) <-> out_of_range) /\
  (out_of_range ->
   exists e,
     err_type e = PyExc_ValueError /\
     r = (Raise e, mk_Simulator K (Some s)) /\
     Simulator_init K PyArray_FROMANY args
     = (Raise e, mk_Simulator K (Some s))) /\
  (valid_dirac psi c = true ->
   fst r = Ok tt /\
   Simulator_set_model K (mk_Simulator K (Some s)) (PyDict m)
   = (Ok Py_None, snd r) /\
   exists s' d,
     snd r = mk_Simulator K (Some s') /\
     msp_get_model K s'
     = mk_model MSP_MODEL_DIRAC N (dirac_coalescent psi c) /\
     Simulator_get_model K (snd r) = Ok (PyDict d) /\
     d !! "psi" = Some (PyFloat psi) /\ d !! "c" = Some (PyFloat c)).
Proof.
  intros Hdirac Hm Hname HN Hpos Hpsi Hc Hsamples Halloc. cbn zeta.
  apply number_entry_model_entry in HN, Hpsi, Hc.
  pose proof (parse_simulation_model_dirac m N psi c s Hname HN Hpos Hpsi Hc)
    as Hparse.
  assert (Hinit : forall e,
            parse_simulation_model K m s = (Raise e, s) ->
            Simulator_init K PyArray_FROMANY args
            = (Raise e, mk_Simulator K (Some s))).
  { intros e He. unfold Simulator_init. rewrite Hsamples, Halloc.
    unfold Simulator_init_to_pedigree, Simulator_init_configure.
    rewrite Hm. run_M. cbn [Z.eqb negb]. now rewrite He. }
  unfold Simulator_set_model, Simulator_parse_simulation_model, on_sim.
  cbn [Simulator_check_sim sim]. rewrite Hparse in *.
  split; [ | split].
  - destruct (dle psi 0) eqn:H1; cbn [orb].
    { cbn [fst]. split; [auto | ]. intros _. eexists. split; reflexivity. }
    destruct (dge psi 1) eqn:H2; cbn [orb].
    { cbn [fst]. split; [auto | ]. intros _. eexists. split; reflexivity. }
    destruct (dlt c 0) eqn:H3.
    { cbn [fst]. split; [auto | ]. intros _. eexists. split; reflexivity. }
    destruct (msp_set_simulation_model_dirac K s N psi c) as [err s'].
    cbn [fst]. split.
    + intros (e & He & Hty). destruct (err =? 0); cbn [negb] in He.
      * discriminate.
      * injection He as <-. discriminate.
    + intros [H | [H | H]]; discriminate.
  - intros Hout.
    destruct (dle psi 0 || dge psi 1) eqn:H12.
    { eexists. split; [ | split; [reflexivity | now apply Hinit]].
      reflexivity. }
    destruct (dlt c 0) eqn:H3.
    { eexists. split; [ | split; [reflexivity | now apply Hinit]].
      reflexivity. }
    apply orb_false_elim in H12. destruct H12 as [H1 H2].
    destruct Hout as [H | [H | H]]; congruence.
  - intros Hvalid. destruct (Hdirac s N psi c Hpos Hvalid) as [Herr Hmodel].
    unfold valid_dirac in Hvalid.
    apply andb_prop in Hvalid. destruct Hvalid as [Hvalid H3].
    apply andb_prop in Hvalid. destruct Hvalid as [H1 H2].
    rewrite (dlt_not_dge _ _ H1). change (dge psi 1) with (dle 1 psi).
    rewrite (dlt_not_dge _ _ H2), (dle_not_dgt _ _ H3). cbn [orb].
    destruct (msp_set_simulation_model_dirac K s N psi c) as [err s'].
    cbn [fst snd] in *. subst err. cbn [Z.eqb negb fst snd].
    split; [reflexivity | ]. split; [reflexivity | ].
    eexists s', _. split; [reflexivity | ]. split; [exact Hmodel | ].
    unfold Simulator_get_model. cbn [Simulator_check_sim sim mbind].
    cbn [result_bind rbind]. rewrite Hmodel. cbn [type params].
    split; [reflexivity | ].
    unfold PyDict_SetItemString. split.
    + rewrite lookup_insert_ne by discriminate. now rewrite lookup_insert_eq.
    + now rewrite lookup_insert_eq.
Qed.

End Models.

(** ** The properties at concrete inputs *)

Lemma example_FROMANY_keeps : keeps_arrays example_FROMANY.
Proof. intros shape0 data. now destruct data. Qed.

Lemma example_tables_wf : wf_table_collection example_tables.
Proof.
  unfold wf_table_collection, example_tables; cbn.
  repeat split; try reflexivity; try lia;
    repeat (constructor; try lia); try discriminate.
Qed.

Lemma example_kernel_beta : beta_setter_validates example_kernel.
Proof. intros s N alpha tp H. cbn. rewrite H. cbn. now split. Qed.

Lemma example_kernel_dirac : dirac_setter_installs example_kernel.
Proof. intros s N psi c _ H. cbn. rewrite H. cbn. now split. Qed.

Lemma example_kernel_matrix : migration_matrix_setter_accepts example_kernel.
Proof.
  intros s size mm Hsize Hlen Hall. cbn in *. rewrite <- Hsize, Z.eqb_refl.
  replace (forallb (fun rate => negb (dlt rate 0)) mm) with true;
    [reflexivity | ].
  symmetry. apply forallb_forall. intros rate Hin.
  rewrite List.Forall_forall in Hall.
  now rewrite (dle_not_dgt _ _ (Hall rate Hin)).
Qed.

(** C1 at an end time of zero, for a kernel whose first call returns
    [MSP_EXIT_MAX_EVENTS] and whose second call returns
    [MSP_EXIT_COALESCENCE], without signals: the run makes two calls and
    returns [True]. *)
Lemma Simulator_run_spec_witness :
  Simulator_run example_kernel 3 (fun _ => None)
    (mk_Simulator example_kernel
       (Some (example_state [MSP_EXIT_MAX_EVENTS; MSP_EXIT_COALESCENCE])))
    (Some (PyFloat 0))
  = Some (run_outcome
            (status_of example_kernel 0
               (example_state [MSP_EXIT_MAX_EVENTS; MSP_EXIT_COALESCENCE]) 1)
            None,
          mk_Simulator example_kernel
            (Some (state_before example_kernel 0
                     (example_state [MSP_EXIT_MAX_EVENTS; MSP_EXIT_COALESCENCE])
                     2))).
Proof.
  apply (Simulator_run_spec example_kernel
           (example_state [MSP_EXIT_MAX_EVENTS; MSP_EXIT_COALESCENCE])
           (Some (PyFloat 0)) 0%float (fun _ => None) 1).
  - reflexivity.
  - reflexivity.
  - intros i Hi. assert (i = 0)%nat as -> by lia. split; reflexivity.
  - left. cbn. discriminate.
  - lia.
Defined.

(** C2 at the example tables. *)
Lemma fromdict_asdict_roundtrip_witness :
  exists dict,
    LightweightTableCollection_asdict
      (mk_LightweightTableCollection (Some example_tables)) = Ok dict /\
    LightweightTableCollection_fromdict example_FROMANY
      (mk_LightweightTableCollection (Some (empty_tables (-1)))) dict
    = Ok (Py_None, mk_LightweightTableCollection (Some example_tables)).
Proof.
  exact (fromdict_asdict_roundtrip example_FROMANY example_FROMANY_keeps
           example_tables (empty_tables (-1)) example_tables_wf).
Defined.

(** C3 at two populations and the samples (0, 0.0) and (1, 2.5): the
    list is parsed and each stored sample is the one its entry
    denotes. *)
Lemma parse_samples_spec_witness :
  exists samples,
    parse_samples [PyTuple [PyLong 0; PyFloat 0];
                   PyTuple [PyLong 1; PyFloat 2.5]] 2 = Ok (2, samples) /\
    Forall2 (fun o s => sample_of o = Some s)
      [PyTuple [PyLong 0; PyFloat 0]; PyTuple [PyLong 1; PyFloat 2.5]]
      samples.
Proof.
  assert (H : 2 <= LONG_MAX) by (unfold LONG_MAX; lia).
  assert (H31 : 2 <= 2 ^ 31) by lia.
  destruct (parse_samples_spec [PyTuple [PyLong 0; PyFloat 0];
                                PyTuple [PyLong 1; PyFloat 2.5]] 2 H)
    as [_ Hstored].
  destruct Hstored as (samples & Hok & Hall).
  - intros [e He]. discriminate He.
  - exists samples. split; [exact Hok | exact (Hall H31)].
Defined.

Example parse_samples_accepts :
  parse_samples [PyTuple [PyLong 0; PyFloat 0];
                 PyTuple [PyLong 1; PyFloat 2.5]] 2
  = Ok (2, [mk_sample 0 0; mk_sample 1 2.5]).
Proof. reflexivity. Qed.

Example parse_samples_refuses_population :
  parse_samples [PyTuple [PyLong 0; PyFloat 0];
                 PyTuple [PyLong 2; PyFloat 2.5]] 2
  = Raise (PyErr_Format PyExc_ValueError
             "Invalid population reference '%d' in sample at index %d"
             [ArgInt 2; ArgInt 1]).
Proof. reflexivity. Qed.

(** C4 at two populations and the matrix 0, 0.5, 0.25, 0: the list is
    accepted and the kernel is given its doubles. *)
Lemma parse_migration_matrix_spec_witness :
  let s := mk_example_msp (mk_model MSP_MODEL_HUDSON 1 no_params) 2 [] [] in
  let l := [PyFloat 0; PyFloat 0.5; PyFloat 0.25; PyLong 0] in
  let r := Simulator_parse_migration_matrix example_kernel
             (mk_Simulator example_kernel (Some s)) l in
  (failed (fst r) <->
   Z.of_nat (length l) <> 2 * 2 \/
   exists v, In v l /\
     (double_of v = None \/
      exists x, double_of v = Some x /\ dlt x 0 = true)) /\
  r = (Ok tt,
       mk_Simulator example_kernel
         (Some (snd (msp_set_migration_matrix example_kernel s (2 * 2)
                       [0; 0.5; 0.25; 0]%float)))).
Proof.
  cbn zeta.
  assert (Hrange : 0 <= 2 < 2 ^ 32) by lia.
  pose proof (parse_migration_matrix_spec example_kernel example_kernel_matrix
                (mk_example_msp (mk_model MSP_MODEL_HUDSON 1 no_params) 2 [] [])
                [PyFloat 0; PyFloat 0.5; PyFloat 0.25; PyLong 0] Hrange)
    as Hspec.
  cbn zeta in Hspec. destruct Hspec as [Hiff Hok]. split.
  - apply Hiff. intros v x Hin Hx.
    repeat (destruct Hin as [<- | Hin]; [injection Hx as <-; reflexivity | ]).
    destruct Hin.
  - apply Hok.
    + repeat constructor.
    + reflexivity.
    + repeat constructor.
Defined.

(** C4, the claim as it stands fails on the rate [10 ** 400]: with
    one population the list has [1 * 1] entries, the entry is a number
    and is not below zero, and the list is refused all the same, as the
    int has no double value. *)
Lemma parse_migration_matrix_large_rate :
  let s := mk_example_msp (mk_model MSP_MODEL_HUDSON 1 no_params) 1 [] [] in
  let l := [PyLong (10 ^ 400)] in
  let r := Simulator_parse_migration_matrix example_kernel
             (mk_Simulator example_kernel (Some s)) l in
  failed (fst r) /\
  ~ (Z.of_nat (length l) <> 1 * 1 \/
     exists v, In v l /\ (PyNumber_Check v = false \/ below_zero v)).
Proof.
  cbn zeta. split.
  - eexists. vm_compute. reflexivity.
  - intros [Hlen | (v & [<- | []] & [Hv | Hv])].
    + now apply Hlen.
    + discriminate Hv.
    + unfold below_zero in Hv. pose proof (Z.pow_nonneg 10 400). lia.
Qed.

Example parse_migration_matrix_accepts :
  Simulator_parse_migration_matrix example_kernel
    (mk_Simulator example_kernel
       (Some (mk_example_msp (mk_model MSP_MODEL_HUDSON 1 no_params) 2 [] [])))
    (map PyFloat [0; 0.5; 0.25; 0]%float)
  = (Ok tt,
     mk_Simulator example_kernel
       (Some (mk_example_msp (mk_model MSP_MODEL_HUDSON 1 no_params) 2
                [0; 0.5; 0.25; 0]%float []))).
Proof. reflexivity. Qed.

Lemma model_entry_lookup (m : gmap string PyObject) (key : string)
    (x : double) :
  m !! key = Some (PyFloat x) -> model_entry m key x.
Proof. intros H. exists (PyFloat x). now repeat split. Qed.

(** C5 at alpha = 5 and a truncation point of 1. *)
Lemma beta_parameters_rejected_witness :
  exists err s',
    err < 0 /\
    Simulator_init example_kernel example_FROMANY
      (example_args (Some (beta_model 5 1)) Py_None)
    = (Raise (handle_input_error "simulation model" err),
       mk_Simulator example_kernel (Some s')) /\
    msp_get_model example_kernel s'
    = msp_get_model example_kernel (example_state []).
Proof.
  apply (beta_parameters_rejected example_kernel
           example_FROMANY (example_args (Some (beta_model 5 1)) Py_None)
           (beta_model 5 1) 1 5 1 1 2
           [mk_sample 0 0; mk_sample 0 0] tt (gsl_rng_seeded 1)
           (example_state [])).
  - exact example_kernel_beta.
  - reflexivity.
  - reflexivity.
  - now apply model_entry_lookup.
  - reflexivity.
  - now apply model_entry_lookup.
  - now apply model_entry_lookup.
  - reflexivity.
  - reflexivity.
  - reflexivity.
Defined.

Example beta_model_refused :
  Simulator_init example_kernel example_FROMANY
    (example_args (Some (beta_model 5 1)) Py_None)
  = (Raise (handle_input_error "simulation model" MSP_ERR_BAD_PARAM_VALUE),
     mk_Simulator example_kernel (Some (example_state []))).
Proof. reflexivity. Qed.

Lemma number_entry_lookup (m : gmap string PyObject) (key : string)
    (v : PyObject) (x : double) :
  m !! key = Some v -> double_of v = Some x -> number_entry m key x.
Proof. intros H Hx. now exists v. Qed.

(** C6 at a reference size of 2, psi = 0.5 and c = 1, the reference size
    and c given as ints: the model is installed and reported back. *)
Lemma dirac_parameters_spec_witness :
  let m := dirac_dict (PyLong 2) (PyFloat 0.5) (PyLong 1) in
  let r := Simulator_parse_simulation_model example_kernel
             (mk_Simulator example_kernel (Some (example_state []))) m in
  (raises PyExc_ValueError (fst r) <->
   dle 0.5 0 = true \/ dge 0.5 1 = true \/ dlt 1 0 = true) /\
  fst r = Ok tt /\
  Simulator_set_model example_kernel
    (mk_Simulator example_kernel (Some (example_state []))) (PyDict m)
  = (Ok Py_None, snd r) /\
  exists s' d,
    snd r = mk_Simulator example_kernel (Some s') /\
    msp_get_model example_kernel s'
    = mk_model MSP_MODEL_DIRAC 2 (dirac_coalescent 0.5 1) /\
    Simulator_get_model example_kernel (snd r) = Ok (PyDict d) /\
    d !! "psi" = Some (PyFloat 0.5) /\ d !! "c" = Some (PyFloat 1).
Proof.
  cbn zeta.
  assert (Hname : dirac_dict (PyLong 2) (PyFloat 0.5) (PyLong 1) !! "name"
                  = Some (PyUnicode "dirac")) by reflexivity.
  assert (HN : number_entry (dirac_dict (PyLong 2) (PyFloat 0.5) (PyLong 1))
                 "reference_size" 2)
    by (now apply (number_entry_lookup _ _ (PyLong 2))).
  assert (Hpsi : number_entry (dirac_dict (PyLong 2) (PyFloat 0.5) (PyLong 1))
                   "psi" 0.5)
    by (now apply (number_entry_lookup _ _ (PyFloat 0.5))).
  assert (Hc : number_entry (dirac_dict (PyLong 2) (PyFloat 0.5) (PyLong 1))
                 "c" 1)
    by (now apply (number_entry_lookup _ _ (PyLong 1))).
  assert (Hpos : dlt 0 2 = true) by reflexivity.
  assert (Hvalid : valid_dirac 0.5 1 = true) by reflexivity.
  pose proof (dirac_parameters_spec example_kernel example_FROMANY
                (example_args
                   (Some (dirac_dict (PyLong 2) (PyFloat 0.5) (PyLong 1)))
                   Py_None)
                (dirac_dict (PyLong 2) (PyFloat 0.5) (PyLong 1)) 2 0.5 1 1 2
                [mk_sample 0 0; mk_sample 0 0] tt (gsl_rng_seeded 1)
                (example_state []) example_kernel_dirac
                (ltac:(reflexivity)) Hname HN Hpos Hpsi Hc
                (ltac:(reflexivity)) (ltac:(reflexivity))) as Hspec.
  cbn zeta in Hspec. destruct Hspec as (Hiff & _ & Hinstalled).
  split; [exact Hiff | exact (Hinstalled Hvalid)].
Defined.

(** C6, the claim as it stands fails on a reference size of zero: the
    dictionary names "dirac", psi = 0.5 is inside (0,1) and c = 1 is at
    least zero, and construction raises [ValueError] all the same. *)
Lemma dirac_reference_size_zero :
  let m := dirac_dict (PyFloat 0) (PyFloat 0.5) (PyFloat 1) in
  Simulator_init example_kernel example_FROMANY
    (example_args (Some m) Py_None)
  = (Raise (PyErr_SetString PyExc_ValueError "population size must be >= 0"),
     mk_Simulator example_kernel (Some (example_state []))) /\
  m !! "name" = Some (PyUnicode "dirac") /\
  m !! "psi" = Some (PyFloat 0.5) /\ m !! "c" = Some (PyFloat 1) /\
  ~ (dle 0.5 0 = true \/ dge 0.5 1 = true \/ dlt 1 0 = true).
Proof.
  cbn zeta. repeat split; try reflexivity.
  intros [H | [H | H]]; discriminate H.
Qed.

(** So does it on a dictionary without psi. *)
Example dirac_without_psi :
  Simulator_init example_kernel example_FROMANY
    (example_args
       (Some (<["name" := PyUnicode "dirac"]>
                (<["reference_size" := PyFloat 1]>
                   (<["c" := PyFloat 1]> ∅))))
       Py_None)
  = (Raise (PyErr_Format PyExc_ValueError "'%s' not specified"
              [ArgStr "psi"]),
     mk_Simulator example_kernel (Some (example_state []))).
Proof. reflexivity. Qed.

(** Construction with psi = 1 fails with the error of the parser. *)
Example dirac_construction_refused :
  Simulator_init example_kernel example_FROMANY
    (example_args (Some (dirac_model 1 1)) Py_None)
  = (Raise (PyErr_SetString PyExc_ValueError "Must have 0 < psi < 1"),
     mk_Simulator example_kernel (Some (example_state []))).
Proof. reflexivity. Qed.

Example dirac_model_refused :
  fst (Simulator_parse_simulation_model example_kernel
         (mk_Simulator example_kernel (Some (example_state [])))
         (dirac_model 1 1))
  = Raise (PyErr_SetString PyExc_ValueError "Must have 0 < psi < 1").
Proof. reflexivity. Qed.

(** C7 at the default model, which is not the pedigree model, and an
    empty dictionary as the pedigree. *)
Lemma pedigree_requires_wf_ped_witness :
  let args := example_args None (PyDict ∅) in
  (forall s,
     reaches_pedigree_check example_kernel args s ->
     type (msp_get_model example_kernel s) <> MSP_MODEL_WF_PED ->
     exists e, Simulator_init example_kernel example_FROMANY args
               = (Raise e, mk_Simulator example_kernel (Some s))) /\
  (fst (Simulator_init example_kernel example_FROMANY args) = Ok tt ->
   exists s d,
     reaches_pedigree_check example_kernel args s /\
     pedigree example_kernel args = PyDict d /\
     type (msp_get_model example_kernel s) = MSP_MODEL_WF_PED /\
     fst (Simulator_parse_pedigree example_kernel example_FROMANY d s)
     = Ok tt).
Proof.
  cbn zeta.
  apply (pedigree_requires_wf_ped example_kernel example_FROMANY
           (example_args None (PyDict ∅))).
  discriminate.
Defined.

Example pedigree_refused :
  Simulator_init example_kernel example_FROMANY
    (example_args None (PyDict ∅))
  = (Raise (PyErr_SetString PyExc_ValueError
              "A pedigree can only be supplied under the `msprime.WrightFisherPedigree` simulation model"),
     mk_Simulator example_kernel (Some (example_state []))).
Proof. reflexivity. Qed.

(** C8 at the example tables and a recombination rate of 0.5. *)
Lemma log_likelihood_arg_spec_witness :
  msprime_log_likelihood_arg example_kernel
    (mk_LightweightTableCollection (Some example_tables)) 1 0.5
  = (Ok (PyFloat 0), mk_LightweightTableCollection (Some example_tables)) /\
  (dle 0 0.5 = true ->
   fst (msprime_log_likelihood_arg example_kernel
          (mk_LightweightTableCollection (Some example_tables)) 1 0.5)
   = Ok (PyFloat 0)).
Proof.
  split; [reflexivity | ]. intros H.
  exact (proj2 (proj2 (proj2 (log_likelihood_arg_spec example_kernel
                                example_tables 1 0.5) H))
           eq_refl eq_refl).
Defined.

(** * Further properties of the module *)

(** ** RandomGenerator *)

Lemma RandomGenerator_init_64_witness :
  0 <= 42 < 2 ^ 64 /\
  RandomGenerator_get_seed (mk_RandomGenerator 42 (Some (gsl_rng_seeded 42)))
  = Ok (PyLong 42).
Proof.
  assert (H : 0 <= 42 < 2 ^ 64) by (split; [discriminate | reflexivity]).
  split; [exact H | ].
  exact (proj2 (RandomGenerator_init_64 42 H) _ eq_refl).
Defined.

(** ** Sample lists *)

Lemma parse_samples_from_app (good rest : list PyObject) (j P : Z)
    (ss : list sample_t) :
  parse_samples_from j P good = Ok ss ->
  parse_samples_from j P (good ++ rest)
  = (rs ← parse_samples_from (j + Z.of_nat (length good)) P rest;
     Ok (ss ++ rs)).
Proof.
  revert j ss. induction good as [ | o good IH]; intros j ss H.
  - cbn in H. injection H as <-. cbn. rewrite Z.add_0_r.
    now destruct (parse_samples_from j P rest).
  - cbn [parse_samples_from] in H. cbn [app parse_samples_from].
    destruct (parse_sample j P o) as [s | e | ]; cbn in H |- *;
      try discriminate.
    destruct (parse_samples_from (j + 1) P good) as [ss' | e | ] eqn:E;
      cbn in H; try discriminate.
    injection H as <-. rewrite (IH (j + 1) ss' E).
    replace (j + 1 + Z.of_nat (length good))
      with (j + Z.of_nat (length (o :: good))) by (cbn [length]; lia).
    now destruct (parse_samples_from _ P rest).
Qed.

(** X2.  The parser stops at the first entry that it refuses: when the
    entries before it are accepted, the call raises the exception of
    that entry, made with the entry's own index, whatever comes after
    it in the list. *)
Theorem parse_samples_first_error (good rest : list PyObject)
    (bad : PyObject) (P n : Z) (ss : list sample_t) (e : PyErr) :
  parse_samples good P = Ok (n, ss) ->
  parse_sample n P bad = Raise e ->
  parse_samples (good ++ bad :: rest) P = Raise e.
Proof.
  unfold parse_samples. intros Hgood Hbad.
  destruct (parse_samples_from 0 P good) as [ss' | | ] eqn:E;
    cbn in Hgood; try discriminate.
  injection Hgood as <- <-.
  rewrite (parse_samples_from_app good (bad :: rest) 0 P ss' E).
  cbn [parse_samples_from]. rewrite Z.add_0_l, Hbad. reflexivity.
Qed.

Lemma parse_samples_first_error_witness :
  parse_samples
    [PyTuple [PyLong 0; PyFloat 0]; PyTuple [PyLong (-1); PyFloat 0]; Py_None]
    1
  = Raise (PyErr_Format PyExc_ValueError
             "Negative population ID in sample at index %d" [ArgInt 1]).
Proof.
  exact (parse_samples_first_error [PyTuple [PyLong 0; PyFloat 0]] [Py_None]
           (PyTuple [PyLong (-1); PyFloat 0]) 1 1 [mk_sample 0 0] _
           eq_refl eq_refl).
Defined.

(** What [Simulator_get_samples] makes of a sample is read back by
    [parse_samples]. *)
Lemma parse_sample_to_python (j P : Z) (s : sample_t) :
  0 <= population_id s < P -> P <= 2 ^ 31 -> dlt (time s) 0 = false ->
  parse_sample j P (sample_to_python s) = Ok s.
Proof.
  intros Hid HP Ht. destruct s as [id t]. cbn in *.
  unfold sample_to_python, parse_sample. cbn.
  assert (Hnull : (id =? TSK_NULL) = false)
    by (apply Z.eqb_neq; unfold TSK_NULL; lia).
  rewrite Hnull. unfold LONG_MIN, LONG_MAX.
  assert (Hlong : (- 2 ^ 63 <=? id) && (id <=? 2 ^ 63 - 1) = true).
  { apply andb_true_intro. split; apply Z.leb_le; lia. }
  rewrite Hlong.
  destruct (Z.ltb_spec id 0); [lia | ].
  destruct (Z.geb_spec id P); [lia | ].
  rewrite Ht. unfold population_id_of_long.
  rewrite wrap_signed_id by lia. reflexivity.
Qed.

(** X3.  The samples go round: the list of tuples that
    [Simulator.get_samples] builds for samples whose population ids are
    in range and whose times are not negative is a sample list that
    [parse_samples] accepts, and parsing it gives the same samples. *)
Theorem parse_samples_of_get_samples (samples : list sample_t) (P : Z) :
  P <= 2 ^ 31 ->
  Forall (fun s => 0 <= population_id s < P /\ dlt (time s) 0 = false)
         samples ->
  parse_samples (map sample_to_python samples) P
  = Ok (Z.of_nat (length samples), samples).
Proof.
  intros HP Hall. unfold parse_samples. rewrite length_map.
  enough (H : forall j, parse_samples_from j P (map sample_to_python samples)
                        = Ok samples) by now rewrite H.
  induction Hall as [ | s samples [Hid Ht] _ IH]; intros j; [reflexivity | ].
  cbn [map parse_samples_from].
  rewrite (parse_sample_to_python j P s Hid HP Ht). cbn.
  now rewrite IH.
Qed.

Lemma parse_samples_of_get_samples_witness :
  parse_samples
    (map sample_to_python [mk_sample 0 0; mk_sample 1 2.5]) 2
  = Ok (2, [mk_sample 0 0; mk_sample 1 2.5]).
Proof.
  apply (parse_samples_of_get_samples [mk_sample 0 0; mk_sample 1 2.5] 2).
  - discriminate.
  - repeat constructor; cbn; first [discriminate | reflexivity].
Defined.

(** ** Loops over the entries of a list *)



(** ** Demographic events *)

Section Events.

Context (K : msp_api).



End Events.



(** ** Simulation models *)

Section ModelNames.

Context (K : msp_api).

(** X6.  A reference size that is not above zero is refused before the
    name of the model is looked at and before the kernel is called: the
    simulator is as it was.  Zero is refused too. *)
Theorem reference_size_refused (s : msp_t K) (m : gmap string PyObject)
    (N : double) :
  model_entry m "reference_size" N -> dle N 0 = true ->
  Simulator_parse_simulation_model K (mk_Simulator K (Some s)) m
  = (Raise (PyErr_SetString PyExc_ValueError "population size must be >= 0"),
     mk_Simulator K (Some s)).
Proof.
  intros HN Hle. destruct (get_dict_number_entry _ _ _ HN) as (vN & EN & <-).
  unfold Simulator_parse_simulation_model, on_sim.
  cbn [Simulator_check_sim sim]. unfold parse_simulation_model. run_M.
  now rewrite EN, Hle.
Qed.

(** X7.  A name that is none of the eight model names is refused with
    [ValueError], and no kernel function has been called: the simulator
    is as it was. *)
Theorem unknown_model_refused (s : msp_t K) (m : gmap string PyObject)
    (N : double) (name : string) :
  model_entry m "reference_size" N -> dlt 0 N = true ->
  m !! "name" = Some (PyUnicode name) ->
  ~ In name model_names ->
  Simulator_parse_simulation_model K (mk_Simulator K (Some s)) m
  = (Raise (PyErr_SetString PyExc_ValueError "Unknown simulation model"),
     mk_Simulator K (Some s)).
Proof.
  intros HN Hpos Hname Hnot.
  destruct (get_dict_number_entry _ _ _ HN) as (vN & EN & <-).
  assert (Hne : forall x, In x model_names -> String.eqb name x = false).
  { intros x Hx. apply String.eqb_neq. intros ->. contradiction. }
  unfold Simulator_parse_simulation_model, on_sim.
  cbn [Simulator_check_sim sim]. unfold parse_simulation_model. run_M.
  rewrite EN, (dlt_not_dge _ _ Hpos), (get_dict_value_name _ _ Hname).
  cbn [PyObject_RichCompareBool_EQ].
  rewrite !Hne by (cbn; auto 10). reflexivity.
Qed.

(** X8.  For each of the five models without parameters of their own the
    parser calls the kernel function of that model, once, with the
    reference size, and its code decides the outcome: 0 is success,
    another code an input error of the section "simulation model". *)
Theorem simple_model_installed (s : msp_t K) (m : gmap string PyObject)
    (N : double) (name : string)
    (set : msp_t K -> double -> Z * msp_t K) :
  model_entry m "reference_size" N -> dlt 0 N = true ->
  m !! "name" = Some (PyUnicode name) ->
  simple_model_setter K name = Some set ->
  Simulator_parse_simulation_model K (mk_Simulator K (Some s)) m
  = (input_outcome "simulation model" (fst (set s N)),
     mk_Simulator K (Some (snd (set s N)))).
Proof.
  intros HN Hpos Hname Hset.
  destruct (get_dict_number_entry _ _ _ HN) as (vN & EN & <-).
  unfold simple_model_setter in Hset.
  unfold Simulator_parse_simulation_model, on_sim.
  cbn [Simulator_check_sim sim]. unfold parse_simulation_model. run_M.
  rewrite EN, (dlt_not_dge _ _ Hpos), (get_dict_value_name _ _ Hname).
  unfold input_outcome.
  repeat match type of Hset with
         | (if String.eqb name ?x then _ else _) = _ =>
             destruct (String.eqb_spec name x) as [-> | _];
             [injection Hset as <-; cbn; run_M;
              match goal with
              | |- context [?f K s ?n] => destruct (f K s n) as [err s']
              end;
              cbn; now destruct (err =? 0)
             | ]
         end.
  discriminate.
Qed.

End ModelNames.

Lemma reference_size_refused_witness :
  Simulator_parse_simulation_model example_kernel
    (mk_Simulator example_kernel (Some (example_state [])))
    (<["name" := PyUnicode "hudson"]> (<["reference_size" := PyFloat 0]> ∅))
  = (Raise (PyErr_SetString PyExc_ValueError "population size must be >= 0"),
     mk_Simulator example_kernel (Some (example_state []))).
Proof.
  apply (reference_size_refused example_kernel (example_state []) _ 0).
  - now apply model_entry_lookup.
  - reflexivity.
Defined.

Lemma unknown_model_refused_witness :
  Simulator_parse_simulation_model example_kernel
    (mk_Simulator example_kernel (Some (example_state [])))
    (<["name" := PyUnicode "kingman"]> (<["reference_size" := PyFloat 1]> ∅))
  = (Raise (PyErr_SetString PyExc_ValueError "Unknown simulation model"),
     mk_Simulator example_kernel (Some (example_state []))).
Proof.
  apply (unknown_model_refused example_kernel (example_state []) _ 1
           "kingman").
  - now apply model_entry_lookup.
  - reflexivity.
  - reflexivity.
  - cbn. intros H. repeat (destruct H as [H | H]; [discriminate H | ]).
    exact H.
Defined.

Lemma simple_model_installed_witness :
  Simulator_parse_simulation_model example_kernel
    (mk_Simulator example_kernel (Some (example_state [])))
    (<["name" := PyUnicode "dtwf"]> (<["reference_size" := PyFloat 2]> ∅))
  = (Ok tt,
     mk_Simulator example_kernel
       (Some (mk_example_msp (mk_model MSP_MODEL_DTWF 2 no_params) 1
                [0%float] []))).
Proof.
  apply (simple_model_installed example_kernel (example_state []) _ 2 "dtwf"
           (msp_set_simulation_model_dtwf example_kernel)).
  - now apply model_entry_lookup.
  - reflexivity.
  - reflexivity.
  - reflexivity.
Defined.

(** ** The constructor of Simulator *)

Section Constructor.

Context (K : msp_api) (Q : msp_queries K).
Variable PyArray_FROMANY : PyObject -> npy_type -> Z -> Z -> result ndarray.

(** X9.  An empty population configuration is refused before the
    simulator is allocated: the constructor raises [ValueError], the
    object has no simulator, and [run] and [get_model] on it raise
    [SystemError]. *)
Theorem empty_population_configuration_refused (args : Simulator_args K)
    (rng : gsl_rng) (map : recomb_map_t K) (fuel : nat)
    (signals : nat -> option PyErr) (arg : option PyObject) :
  rg_rng (random_generator K args) = Some rng ->
  recomb_map K (recombination_map K args) = Some map ->
  population_configuration K args = Some [] ->
  let self := snd (Simulator_init K PyArray_FROMANY args) in
  Simulator_init K PyArray_FROMANY args
  = (Raise (PyErr_SetString PyExc_ValueError "Empty population configuration"),
     mk_Simulator K None) /\
  Simulator_run K fuel signals self arg = Some (Raise not_initialised, self) /\
  Simulator_get_model K self = Raise not_initialised.
Proof.
  intros Hrng Hmap Hconf.
  assert (E : Simulator_init K PyArray_FROMANY args
              = (Raise (PyErr_SetString PyExc_ValueError
                          "Empty population configuration"),
                 mk_Simulator K None)).
  { unfold Simulator_init, Simulator_init_samples,
      RandomGenerator_check_state, RecombinationMap_check_recomb_map.
    now rewrite Hrng, Hmap, Hconf. }
  cbn zeta. rewrite E. repeat split.
Qed.

(** X10.  A population configuration and a migration matrix go
    together.  With no pedigree, once the constructor has configured
    the simulator up to its dimensions: a migration matrix without a
    population configuration is refused, and so is a population
    configuration without a migration matrix, after the populations
    have been configured in the kernel. *)
Theorem populations_and_matrix_together (args : Simulator_args K)
    (s : msp_t K) :
  reaches_pedigree_check K args s ->
  pedigree K args = Py_None ->
  (forall matrix,
     population_configuration K args = None ->
     migration_matrix K args = Some matrix ->
     Simulator_init K PyArray_FROMANY args
     = (Raise (PyErr_SetString PyExc_ValueError
                 "Cannot supply migration_matrix without population_configuration."),
        mk_Simulator K (Some s))) /\
  (forall populations s',
     population_configuration K args = Some populations ->
     parse_population_configuration K populations s = (Ok tt, s') ->
     migration_matrix K args = None ->
     Simulator_init K PyArray_FROMANY args
     = (Raise (PyErr_SetString PyExc_ValueError
                 "A migration matrix must be provided when a non-default population configuration is used."),
        mk_Simulator K (Some s'))).
Proof.
  intros (np & ns & samples & recomb & rng & Hsamples & Hreach) Hped.
  cbn zeta in Hreach.
  assert (Hinit : forall r s',
            Simulator_init_demography K args s = (r, s') ->
            Simulator_init K PyArray_FROMANY args
            = (r, mk_Simulator K (Some s'))).
  { intros r s' Hd. unfold Simulator_init. rewrite Hsamples.
    destruct (msp_alloc K (size_t_of ns) samples recomb
                (tables (tables_arg K args)) rng) as [sim_ret s0].
    cbn [fst snd] in Hreach.
    unfold mbind, M_bind, M_bind_def. rewrite Hreach.
    unfold Simulator_init_pedigree. rewrite Hped. cbn [is_None negb].
    unfold mret, M_ret, M_ret_def. now rewrite Hd. }
  split.
  - intros matrix Hconf Hmatrix. apply Hinit.
    unfold Simulator_init_demography. now rewrite Hconf, Hmatrix.
  - intros populations s' Hconf Hparse Hmatrix. apply Hinit.
    unfold Simulator_init_demography. rewrite Hconf, Hmatrix.
    unfold mbind, M_bind, M_bind_def. now rewrite Hparse.
Qed.

(** X11.  [Simulator.run] with an end time below zero raises
    [ValueError] without a call of the kernel: the simulator is as it
    was, whatever the signals are. *)
Theorem negative_end_time_refused (s : msp_t K) (arg : option PyObject)
    (end_time : double) (fuel : nat) (signals : nat -> option PyErr) :
  run_end_time arg = Ok end_time -> dlt end_time 0 = true ->
  Simulator_run K fuel signals (mk_Simulator K (Some s)) arg
  = Some (Raise (PyErr_SetString PyExc_ValueError "end_time must be > 0"),
          mk_Simulator K (Some s)).
Proof.
  intros Harg Hneg. unfold Simulator_run. cbn [Simulator_check_sim sim].
  now rewrite Harg, Hneg.
Qed.

(** X12.  On an object without a simulator every method that asks
    [Simulator_check_sim] raises [SystemError] and leaves the object as
    it is. *)
Theorem methods_need_a_simulator (fuel : nat)
    (signals : nat -> option PyErr) (arg : option PyObject)
    (model : PyObject) (py_model : gmap string PyObject)
    (l : list PyObject) (population_id : Z) (time : double) :
  let self := mk_Simulator K None in
  Simulator_run K fuel signals self arg = Some (Raise not_initialised, self) /\
  Simulator_run_event K self = (Raise not_initialised, self) /\
  Simulator_reset K Q self = (Raise not_initialised, self) /\
  Simulator_debug_demography K Q self = (Raise not_initialised, self) /\
  Simulator_set_model K self model = (Raise not_initialised, self) /\
  Simulator_get_model K self = Raise not_initialised /\
  Simulator_parse_simulation_model K self py_model
  = (Raise not_initialised, self) /\
  Simulator_parse_population_configuration K self l
  = (Raise not_initialised, self) /\
  Simulator_parse_migration_matrix K self l = (Raise not_initialised, self) /\
  Simulator_parse_demographic_events K self l
  = (Raise not_initialised, self) /\
  Simulator_get_num_samples K Q self = Raise not_initialised /\
  Simulator_get_num_populations K self = Raise not_initialised /\
  Simulator_get_num_edges K Q self = Raise not_initialised /\
  Simulator_get_num_migrations K Q self = Raise not_initialised /\
  Simulator_get_samples K Q self = Raise not_initialised /\
  Simulator_get_edges K Q self = Raise not_initialised /\
  Simulator_get_migrations K Q self = Raise not_initialised /\
  Simulator_get_population_configuration K Q self = Raise not_initialised /\
  Simulator_get_migration_matrix K Q self = Raise not_initialised /\
  Simulator_compute_population_size K Q self population_id time
  = Raise not_initialised.
Proof. cbn zeta. repeat split. Qed.

End Constructor.

(** ** The saved GSL error handler *)

(** X13.  The module saves one handler.  A second
    [unset_gsl_error_handler] saves the handler that the first one
    installed, so that [restore_gsl_error_handler] after two of them
    leaves errors ignored; a restore right after the initialisation of
    the module installs NULL, the default handler of GSL; and a second
    restore changes nothing. *)
Theorem saved_handler_is_one_slot (g : globals) :
  let unset g := snd (msprime_unset_gsl_error_handler g) in
  let restore g := snd (msprime_restore_gsl_error_handler g) in
  gsl_error_handler (restore (unset (unset g))) = no_error_handler /\
  gsl_error_handler (restore (PyInit__msprime g)) = NULL_handler /\
  restore (restore g) = restore g.
Proof. destruct g. cbn. repeat split. Qed.

Lemma empty_population_configuration_refused_witness :
  Simulator_init example_kernel example_FROMANY
    (example_args_demography (Some []) None)
  = (Raise (PyErr_SetString PyExc_ValueError "Empty population configuration"),
     mk_Simulator example_kernel None).
Proof.
  exact (proj1 (empty_population_configuration_refused example_kernel
                  example_FROMANY (example_args_demography (Some []) None)
                  (gsl_rng_seeded 1) tt 0 (fun _ => None) None
                  eq_refl eq_refl eq_refl)).
Defined.

Lemma example_reaches_without_populations :
  reaches_pedigree_check example_kernel
    (example_args_demography None (Some [PyFloat 0])) (example_state []).
Proof. do 5 eexists. cbn zeta. split; reflexivity. Qed.

Lemma example_reaches_with_populations :
  reaches_pedigree_check example_kernel
    (example_args_demography (Some [population_dict 1 0]) None)
    (example_state []).
Proof. do 5 eexists. cbn zeta. split; reflexivity. Qed.

Lemma populations_and_matrix_together_witness :
  Simulator_init example_kernel example_FROMANY
    (example_args_demography None (Some [PyFloat 0]))
  = (Raise (PyErr_SetString PyExc_ValueError
              "Cannot supply migration_matrix without population_configuration."),
     mk_Simulator example_kernel (Some (example_state []))) /\
  Simulator_init example_kernel example_FROMANY
    (example_args_demography (Some [population_dict 1 0]) None)
  = (Raise (PyErr_SetString PyExc_ValueError
              "A migration matrix must be provided when a non-default population configuration is used."),
     mk_Simulator example_kernel (Some (example_state []))).
Proof.
  split.
  - apply (proj1 (populations_and_matrix_together example_kernel
                    example_FROMANY
                    (example_args_demography None (Some [PyFloat 0]))
                    (example_state [])
                    example_reaches_without_populations eq_refl)
             [PyFloat 0]); reflexivity.
  - apply (proj2 (populations_and_matrix_together example_kernel
                    example_FROMANY
                    (example_args_demography (Some [population_dict 1 0]) None)
                    (example_state [])
                    example_reaches_with_populations eq_refl)
             [population_dict 1 0] (example_state [])); reflexivity.
Defined.

Lemma negative_end_time_refused_witness :
  Simulator_run example_kernel 0 (fun _ => None)
    (mk_Simulator example_kernel (Some (example_state [])))
    (Some (PyFloat (-1)))
  = Some (Raise (PyErr_SetString PyExc_ValueError "end_time must be > 0"),
          mk_Simulator example_kernel (Some (example_state []))).
Proof.
  exact (negative_end_time_refused example_kernel (example_state [])
           (Some (PyFloat (-1))) (-1) 0 (fun _ => None) eq_refl eq_refl).
Defined.

(** ** The dictionary of a table collection *)

Lemma get_table_dict_value_insert_ne (dict : gmap string PyObject)
    (key name : string) (value : PyObject) (required : bool) :
  key <> name ->
  get_table_dict_value (<[key := value]> dict) name required
  = get_table_dict_value dict name required.
Proof.
  intros Hne. unfold get_table_dict_value, PyDict_GetItemString.
  now rewrite lookup_insert_ne.
Qed.

(** X14.  [fromdict] reads the nine keys of the encoding and no other:
    an entry under another key changes nothing, neither the outcome nor
    the tables. *)
Theorem fromdict_ignores_other_keys
    (PyArray_FROMANY : PyObject -> npy_type -> Z -> Z -> result ndarray)
    (self : LightweightTableCollection) (dict : gmap string PyObject)
    (key : string) (value : PyObject) :
  ~ In key collection_keys ->
  LightweightTableCollection_fromdict PyArray_FROMANY self
    (PyDict (<[key := value]> dict))
  = LightweightTableCollection_fromdict PyArray_FROMANY self (PyDict dict).
Proof.
  intros Hkey.
  assert (Hget : forall name required,
            In name collection_keys ->
            get_table_dict_value (<[key := value]> dict) name required
            = get_table_dict_value dict name required).
  { intros name required Hname. apply get_table_dict_value_insert_ne.
    intros ->. contradiction. }
  unfold LightweightTableCollection_fromdict, parse_table_collection_dict,
    get_table_dict.
  rewrite !Hget by (cbn; auto 12). reflexivity.
Qed.

Lemma fromdict_ignores_other_keys_witness :
  LightweightTableCollection_fromdict example_FROMANY
    (mk_LightweightTableCollection (Some (empty_tables 1)))
    (PyDict (<["encoding_version" := PyLong 1]> ∅))
  = Raise (PyErr_Format PyExc_ValueError "'%s' not specified"
             [ArgStr "sequence_length"]).
Proof.
  rewrite (fromdict_ignores_other_keys example_FROMANY
             (mk_LightweightTableCollection (Some (empty_tables 1))) ∅
             "encoding_version" (PyLong 1)).
  - reflexivity.
  - cbn. intros H. repeat (destruct H as [H | H]; [discriminate H | ]).
    exact H.
Defined.

Lemma is_column_table_col (name : string) (data : npy_data) (n : Z) :
  is_column (snd (table_col name data n)).
Proof. now exists n, data. Qed.

Lemma write_cols_columns (cols : list (string * PyObject)) (key : string)
    (v : PyObject) :
  Forall (fun col => is_column (snd col)) cols ->
  write_cols cols !! key = Some v -> is_column v.
Proof.
  intros Hall. rewrite lookup_write_cols.
  assert (Hrev : Forall (fun col => is_column (snd col)) (rev cols))
    by now apply Forall_rev.
  induction Hrev as [ | [k w] l Hw _ IH]; cbn; [discriminate | ].
  destruct (String.eqb k key); [ | exact IH].
  intros H. injection H as <-. exact Hw.
Qed.

Lemma table_descs_columns (T : tsk_table_collection_t) :
  Forall (fun desc => Forall (fun col => is_column (snd col)) (snd desc))
         (table_descs T).
Proof.
  unfold table_descs, individual_cols, node_cols, edge_cols, migration_cols,
    site_cols, mutation_cols, population_cols, provenance_cols.
  repeat constructor; apply is_column_table_col.
Qed.

(** X15.  The dictionary of [asdict] has the nine keys of the encoding
    and no other; "sequence_length" holds the sequence length as a
    float, and each of the eight tables is a dictionary whose values
    are all one-dimensional arrays. *)
Theorem asdict_schema (T : tsk_table_collection_t) :
  exists d,
    LightweightTableCollection_asdict (mk_LightweightTableCollection (Some T))
    = Ok (PyDict d) /\
    d !! "sequence_length" = Some (PyFloat (sequence_length T)) /\
    (forall key, is_Some (d !! key) <-> In key collection_keys) /\
    (forall name, In name table_names ->
       exists cols, d !! name = Some (PyDict cols) /\
         forall key v, cols !! key = Some v -> is_column v).
Proof.
  eexists. split; [reflexivity | ].
  assert (Hlookup : forall key,
            write_table_arrays T
              (PyDict_SetItemString ∅ "sequence_length"
                 (PyFloat (sequence_length T))) !! key
            = match assoc key (rev (table_descs T)) with
              | Some cols => Some (PyDict (write_cols cols))
              | None => (<["sequence_length" := PyFloat (sequence_length T)]>
                           (∅ : gmap string PyObject)) !! key
              end).
  { intros key. unfold write_table_arrays.
    now rewrite (lookup_fold_insert (fun c => PyDict (write_cols c))). }
  split; [ | split].
  - rewrite Hlookup. reflexivity.
  - intros key. rewrite Hlookup. unfold collection_keys, table_names.
    cbn [rev app table_descs assoc In].
    repeat match goal with
           | |- context [String.eqb ?k key] =>
               destruct (String.eqb_spec k key) as [<- | ?];
               [split; [intros _; auto 12 | intros _; eexists; reflexivity]
               | ]
           end.
    split.
    + intros [v Hv]. apply lookup_insert_Some in Hv.
      destruct Hv as [[<- _] | [_ Hv]]; [now left | ].
      rewrite lookup_empty in Hv. discriminate.
    + intros [<- | H]; [eexists; apply lookup_insert_eq | ].
      repeat (destruct H as [H | H]; [congruence | ]). contradiction.
  - intros name Hname.
    assert (Hsome : exists cols,
              assoc name (rev (table_descs T)) = Some cols /\
              In (name, cols) (table_descs T)).
    { unfold table_names in Hname. cbn [In] in Hname.
      repeat (destruct Hname as [<- | Hname];
              [eexists; split; [reflexivity | cbn; auto 12] | ]).
      contradiction. }
    destruct Hsome as (cols & Hassoc & Hin).
    exists (write_cols cols). split.
    + now rewrite Hlookup, Hassoc.
    + intros key v Hv. apply (write_cols_columns cols key v); [ | exact Hv].
      pose proof (table_descs_columns T) as Hall.
      rewrite List.Forall_forall in Hall. exact (Hall _ Hin).
Qed.

(** ** Columns and offsets *)

Section Columns.

Variable PyArray_FROMANY : PyObject -> npy_type -> Z -> Z -> result ndarray.
Hypothesis FROMANY_keeps : keeps_arrays PyArray_FROMANY.

(** X16.  What the module asks of an offset column, given as an array
    of unsigned 32-bit integers: it has one element more than the table
    has rows, and its last element is the length of the packed data as
    a 32-bit number.  When the number of rows is not given, it is the
    number of offsets less one, and an empty offset column is refused.
    Every other offset column is refused with [ValueError].  The module
    does not ask that the offsets start at zero or never decrease. *)
Theorem offset_array_checked (offsets : list Z) (rows data_length : Z)
    (check : bool) :
  Z.of_nat (length offsets) < 2 ^ 63 -> 0 <= rows < 2 ^ 63 ->
  let n := if check then rows else Z.of_nat (length offsets) - 1 in
  let accepted :=
    Z.of_nat (length offsets) = n + 1 /\
    offsets !! Z.to_nat n = Some (uint32_t_of data_length) in
  let r := table_read_offset_array PyArray_FROMANY (offsets_array offsets)
             rows data_length check in
  (accepted ->
   r = Ok (mk_ndarray [Z.of_nat (length offsets)] (UInt32Data offsets), n)) /\
  (~ accepted -> raises PyExc_ValueError r).
Proof.
  intros Hlen Hrows. cbn zeta.
  set (len := Z.of_nat (length offsets)) in *.
  assert (Hlen0 : 0 <= len) by (unfold len; lia).
  unfold table_read_offset_array, offsets_array, PyArray_SimpleNewFromData.
  pose proof (FROMANY_keeps len (UInt32Data offsets)) as E.
  cbn [npy_dtype] in E. fold len. rewrite E. cbn [mbind result_bind rbind].
  cbn [nd_shape hd]. unfold size_t_of.
  rewrite (wrap_unsigned_small 64 len) by lia.
  destruct check; cbn [negb mbind result_bind rbind].
  - rewrite (wrap_unsigned_small 64 (rows + 1)) by lia.
    destruct (Z.eqb_spec len (rows + 1)) as [Heq | Hne]; cbn [negb].
    + assert (Hsome : is_Some (offsets !! Z.to_nat rows)).
      { apply lookup_lt_is_Some. unfold len in Heq. lia. }
      destruct Hsome as [x Hx]. unfold uint32_data. cbn [nd_data].
      rewrite Hx.
      destruct (Z.eqb_spec x (uint32_t_of data_length)) as [-> | Hx'];
        cbn [negb].
      * split; [reflexivity | ]. intros Hn. exfalso. apply Hn. now split.
      * split.
        -- intros [_ Hacc]. congruence.
        -- intros _. eexists. split; reflexivity.
    + split.
      * intros [Hacc _]. contradiction.
      * intros _. eexists. split; reflexivity.
  - destruct (Z.eqb_spec len 0) as [H0 | H0]; cbn [mbind result_bind rbind].
    + split.
      * intros [_ Hacc]. assert (offsets = []) as ->.
        { apply length_zero_iff_nil. unfold len in H0. lia. }
        discriminate Hacc.
      * intros _. eexists. split; reflexivity.
    + rewrite (wrap_unsigned_small 64 (len - 1)) by lia.
      replace (len - 1 + 1) with len by lia.
      rewrite (wrap_unsigned_small 64 len) by lia.
      rewrite Z.eqb_refl. cbn [negb].
      assert (Hsome : is_Some (offsets !! Z.to_nat (len - 1))).
      { apply lookup_lt_is_Some. unfold len in *. lia. }
      destruct Hsome as [x Hx]. unfold uint32_data. cbn [nd_data].
      rewrite Hx.
      destruct (Z.eqb_spec x (uint32_t_of data_length)) as [-> | Hx'];
        cbn [negb].
      * split; [reflexivity | ]. intros Hn. exfalso. apply Hn.
        split; [lia | reflexivity].
      * split.
        -- intros [_ Hacc]. congruence.
        -- intros _. eexists. split; reflexivity.
Qed.

(** X17.  The columns of the edge table must have one length: when
    "left" and "right" are arrays of doubles of different lengths, the
    edges are refused with [ValueError], whatever the other two columns
    are, before the table is touched. *)
Theorem edge_columns_must_agree (table : EdgeTable.t)
    (dict : gmap string PyObject) (left right : list double)
    (parent child : PyObject) (clear_table : bool) :
  dict !! "left" = Some (doubles_array left) ->
  dict !! "right" = Some (doubles_array right) ->
  dict !! "parent" = Some parent -> parent <> Py_None ->
  dict !! "child" = Some child -> child <> Py_None ->
  Z.of_nat (length left) < 2 ^ 63 -> Z.of_nat (length right) < 2 ^ 63 ->
  length left <> length right ->
  parse_edge_table_dict PyArray_FROMANY table dict clear_table
  = Raise (PyErr_SetString PyExc_ValueError
             "Input array dimensions must be equal.").
Proof.
  intros Hl Hr Hp Hpn Hc Hcn Hll Hlr Hne.
  assert (Hreq : forall key v, dict !! key = Some v -> v <> Py_None ->
                   get_table_dict_value dict key true = Ok v).
  { intros key v Hv Hn. unfold get_table_dict_value, PyDict_GetItemString.
    rewrite Hv. destruct v; try reflexivity. contradiction. }
  unfold parse_edge_table_dict.
  rewrite (Hreq "left" _ Hl) by discriminate.
  rewrite (Hreq "right" _ Hr) by discriminate.
  rewrite (Hreq "parent" _ Hp Hpn), (Hreq "child" _ Hc Hcn).
  cbn [mbind result_bind rbind].
  unfold table_read_column_array, doubles_array, PyArray_SimpleNewFromData.
  pose proof (FROMANY_keeps (Z.of_nat (length left)) (Float64Data left)) as El.
  pose proof (FROMANY_keeps (Z.of_nat (length right)) (Float64Data right))
    as Er.
  cbn [npy_dtype] in El, Er. rewrite El. cbn [mbind result_bind rbind].
  rewrite Er. cbn [mbind result_bind rbind nd_shape hd].
  unfold size_t_of. rewrite !wrap_unsigned_small by lia.
  destruct (Z.eqb_spec (Z.of_nat (length left)) (Z.of_nat (length right)));
    [lia | reflexivity].
Qed.

End Columns.

Lemma offset_array_checked_witness :
  table_read_offset_array example_FROMANY (offsets_array [0; 2; 5]) 0 5 false
  = Ok (mk_ndarray [3] (UInt32Data [0; 2; 5]), 2) /\
  raises PyExc_ValueError
    (table_read_offset_array example_FROMANY (offsets_array [0; 2; 4]) 2 5
       true).
Proof.
  assert (H3 : Z.of_nat 3 < 2 ^ 63) by reflexivity.
  assert (H0 : 0 <= 0 < 2 ^ 63) by (split; [discriminate | reflexivity]).
  assert (H2 : 0 <= 2 < 2 ^ 63) by (split; [discriminate | reflexivity]).
  pose proof (offset_array_checked example_FROMANY example_FROMANY_keeps
                [0; 2; 5] 0 5 false H3 H0) as Hgood.
  pose proof (offset_array_checked example_FROMANY example_FROMANY_keeps
                [0; 2; 4] 2 5 true H3 H2) as Hbad.
  cbn zeta in Hgood, Hbad. split.
  - apply (proj1 Hgood). split; reflexivity.
  - apply (proj2 Hbad). intros [_ H]. discriminate H.
Defined.

Lemma edge_columns_must_agree_witness :
  parse_edge_table_dict example_FROMANY (edges example_tables)
    (<["left" := doubles_array [0; 1]%float]>
       (<["right" := doubles_array [1%float]]>
          (<["parent" := PyLong 0]> (<["child" := PyLong 0]> ∅))))
    true
  = Raise (PyErr_SetString PyExc_ValueError
             "Input array dimensions must be equal.").
Proof.
  apply (edge_columns_must_agree example_FROMANY example_FROMANY_keeps
           (edges example_tables) _ [0; 1]%float [1%float]
           (PyLong 0) (PyLong 0) true);
    first [reflexivity | discriminate].
Defined.

(** ** Maps and mutation generators *)

Section MapObjects.

Context (K : msp_api) (L : maps_api K).
Variable PyArray_FROMANY : PyObject -> npy_type -> Z -> Z -> result ndarray.
Hypothesis FROMANY_keeps : keeps_arrays PyArray_FROMANY.

Lemma parse_two_doubles_arrays (first second : list double) :
  parse_two_arrays PyArray_FROMANY (doubles_array first)
    (doubles_array second)
  = Ok (mk_ndarray [Z.of_nat (length first)] (Float64Data first),
        mk_ndarray [Z.of_nat (length second)] (Float64Data second)).
Proof.
  unfold parse_two_arrays, double_PyArray_converter, doubles_array,
    PyArray_SimpleNewFromData.
  pose proof (FROMANY_keeps (Z.of_nat (length first)) (Float64Data first))
    as E1.
  pose proof (FROMANY_keeps (Z.of_nat (length second)) (Float64Data second))
    as E2.
  cbn [npy_dtype] in E1, E2. now rewrite E1, E2.
Qed.

(** X18.  The two columns of an interval map, and of a recombination
    map, must have one length: arrays of doubles of different lengths
    are refused with [ValueError] before the kernel is called, the
    object stays without a map, and the methods of the recombination
    map then raise the exception of its check. *)
Theorem maps_need_equal_lengths (first second : list double)
    (discrete : bool) :
  length first <> length second ->
  let map := snd (RecombinationMap_init K L PyArray_FROMANY
                    (doubles_array first) (doubles_array second) discrete) in
  IntervalMap_init K L PyArray_FROMANY (doubles_array first)
    (doubles_array second)
  = (Raise (PyErr_SetString PyExc_ValueError
              "position and  list must be the same length"),
     mk_IntervalMap K L None) /\
  RecombinationMap_init K L PyArray_FROMANY (doubles_array first)
    (doubles_array second) discrete
  = (Raise (PyErr_SetString PyExc_ValueError
              "positions and rates list must be the same length"),
     mk_RecombinationMap K None) /\
  RecombinationMap_get_size K L map = Raise recomb_map_not_initialised /\
  RecombinationMap_get_positions K L map = Raise recomb_map_not_initialised /\
  RecombinationMap_get_rates K L map = Raise recomb_map_not_initialised.
Proof.
  intros Hne. cbn zeta.
  unfold IntervalMap_init, RecombinationMap_init.
  rewrite parse_two_doubles_arrays. unfold PyObject_Size. cbn [nd_shape hd].
  destruct (Z.eqb_spec (Z.of_nat (length first)) (Z.of_nat (length second)));
    [lia | ].
  cbn. repeat split.
Qed.

(** X19.  When the columns have one length the recombination map is
    made by the kernel from that length and the two columns as they
    are, and the map stays with the object also when the kernel
    reports an error, which is raised as [LibraryError]. *)
Theorem recombination_map_allocated (positions rates : list double)
    (discrete : bool) :
  length positions = length rates ->
  let made := recomb_map_alloc K L (Z.of_nat (length positions)) positions
                rates discrete in
  RecombinationMap_init K L PyArray_FROMANY (doubles_array positions)
    (doubles_array rates) discrete
  = (if negb (fst made =? 0) then Raise (handle_library_error (fst made))
     else Ok tt,
     mk_RecombinationMap K (Some (snd made))).
Proof.
  intros Heq. cbn zeta. unfold RecombinationMap_init.
  rewrite parse_two_doubles_arrays. unfold PyObject_Size. cbn [nd_shape hd].
  rewrite Heq, Z.eqb_refl. cbn [negb float64_data nd_data].
  destruct (recomb_map_alloc K L (Z.of_nat (length rates)) positions rates
              discrete) as [err m].
  cbn [fst snd]. now destruct (err =? 0).
Qed.

(** X20.  A mutation generator is made for the binary and the
    nucleotide alphabet only: with a generator and a rate map that are
    initialised, another alphabet is refused with [ValueError] before
    the kernel is called, the object stays without a generator, and
    its alphabet cannot be read. *)
Theorem bad_alphabet_refused (random_generator : RandomGenerator)
    (rate_map : IntervalMap K L) (rng : gsl_rng) (map : interval_map_t K L)
    (alphabet : Z) (start_time end_time : double) :
  rg_rng random_generator = Some rng ->
  interval_map K L rate_map = Some map ->
  alphabet <> MSP_ALPHABET_BINARY K L ->
  alphabet <> MSP_ALPHABET_NUCLEOTIDE K L ->
  let made := MutationGenerator_init K L random_generator rate_map alphabet
                start_time end_time in
  fst made = Raise (PyErr_Format PyExc_ValueError "Bad mutation alphabet" []) /\
  mutgen K L (snd made) = None /\
  MutationGenerator_get_alphabet K L (snd made) = Raise mutgen_not_initialised.
Proof.
  intros Hrng Hmap Hb Hn. cbn zeta.
  unfold MutationGenerator_init, RandomGenerator_check_state,
    IntervalMap_check_state.
  rewrite Hrng, Hmap.
  destruct (Z.eqb_spec alphabet (MSP_ALPHABET_BINARY K L)); [contradiction | ].
  destruct (Z.eqb_spec alphabet (MSP_ALPHABET_NUCLEOTIDE K L));
    [contradiction | ].
  cbn. repeat split.
Qed.

End MapObjects.

Lemma maps_need_equal_lengths_witness :
  RecombinationMap_init example_kernel example_maps example_FROMANY
    (doubles_array [0; 1]%float) (doubles_array [0%float]) false
  = (Raise (PyErr_SetString PyExc_ValueError
              "positions and rates list must be the same length"),
     mk_RecombinationMap example_kernel None).
Proof.
  apply (maps_need_equal_lengths example_kernel example_maps example_FROMANY
           example_FROMANY_keeps [0; 1]%float [0%float] false).
  discriminate.
Defined.

Lemma recombination_map_allocated_witness :
  RecombinationMap_init example_kernel example_maps example_FROMANY
    (doubles_array [0; 1]%float) (doubles_array [0.5; 0]%float) true
  = (Ok tt, mk_RecombinationMap example_kernel (Some tt)).
Proof.
  exact (recombination_map_allocated example_kernel example_maps
           example_FROMANY example_FROMANY_keeps [0; 1]%float [0.5; 0]%float
           true eq_refl).
Defined.

Lemma bad_alphabet_refused_witness :
  fst (MutationGenerator_init example_kernel example_maps
         (mk_RandomGenerator 1 (Some (gsl_rng_seeded 1)))
         (mk_IntervalMap example_kernel example_maps
            (Some ([0; 1]%float, [0; 0]%float)))
         2 0 1)
  = Raise (PyErr_Format PyExc_ValueError "Bad mutation alphabet" []).
Proof.
  apply (bad_alphabet_refused example_kernel example_maps
           (mk_RandomGenerator 1 (Some (gsl_rng_seeded 1)))
           (mk_IntervalMap example_kernel example_maps
              (Some ([0; 1]%float, [0; 0]%float)))
           (gsl_rng_seeded 1) ([0; 1]%float, [0; 0]%float) 2 0 1);
    first [reflexivity | discriminate].
Defined.

(** ** The rows of a table as a list *)

Lemma rows_from_spec {A} (row : nat -> option A) (n j : nat) :
  (forall i, (j <= i < j + n)%nat -> is_Some (row i)) ->
  exists rows,
    rows_from row j n = Some rows /\ length rows = n /\
    forall i, (i < n)%nat -> rows !! i = row (j + i)%nat.
Proof.
  revert j. induction n as [ | n IH]; intros j Hrow.
  - exists []. repeat split. intros i Hi. lia.
  - destruct (Hrow j ltac:(lia)) as [r Hr].
    destruct (IH (S j)) as (rows & Hrows & Hlen & Hnth).
    { intros i Hi. apply Hrow. lia. }
    exists (r :: rows). cbn [rows_from]. rewrite Hr, Hrows. cbn.
    split; [reflexivity | ]. split; [now rewrite Hlen | ].
    intros [ | i] Hi.
    + now rewrite Nat.add_0_r.
    + cbn. rewrite Hnth by lia. f_equal. lia.
Qed.

Section Rows.

Context (K : msp_api) (Q : msp_queries K).

(** X21.  [Simulator.get_edges] returns the edge table row by row: when
    the kernel counts as many edges as the table of the simulator has
    rows, the list has one tuple for each row, in the order of the
    table, made of the row's left and right ends and of its parent and
    child. *)
Theorem get_edges_rows (s : msp_t K) :
  let table := edges (msp_tables K Q s) in
  wf_edge_table table ->
  msp_get_num_edges K Q s = EdgeTable.num_rows table ->
  exists rows,
    Simulator_get_edges K Q (mk_Simulator K (Some s)) = Ok (PyList rows) /\
    Z.of_nat (length rows) = EdgeTable.num_rows table /\
    forall j left right parent child,
      EdgeTable.left table !! j = Some left ->
      EdgeTable.right table !! j = Some right ->
      EdgeTable.parent table !! j = Some parent ->
      EdgeTable.child table !! j = Some child ->
      rows !! j = Some (make_edge (Edge.mk left right parent child)).
Proof.
  cbn zeta. intros (Hn & Hl & Hr & Hp & Hc) Hnum.
  unfold wf_num_rows, wf_column, UINT32_MAX in *.
  set (table := edges (msp_tables K Q s)) in *.
  set (n := EdgeTable.num_rows table) in *.
  destruct (rows_from_spec (edge_row table) (Z.to_nat n) 0)
    as (rows & Hrows & Hlen & Hnth).
  { intros i Hi. unfold edge_row.
    destruct (lookup_lt_is_Some_2 (EdgeTable.left table) i) as [l El];
      [lia | ].
    destruct (lookup_lt_is_Some_2 (EdgeTable.right table) i) as [r Er];
      [lia | ].
    destruct (lookup_lt_is_Some_2 (EdgeTable.parent table) i) as [p Ep];
      [lia | ].
    destruct (lookup_lt_is_Some_2 (EdgeTable.child table) i) as [c Ec];
      [lia | ].
    rewrite El, Er, Ep, Ec. now eexists. }
  exists (map make_edge rows).
  unfold Simulator_get_edges, rows_to_python.
  cbn [Simulator_check_sim sim mbind result_bind rbind].
  fold table. rewrite Hnum. fold n. unfold size_t_of.
  rewrite wrap_unsigned_small by lia. rewrite Hrows.
  split; [reflexivity | ]. split; [rewrite length_map; lia | ].
  intros j left right parent child El Er Ep Ec.
  assert (Hj : (j < Z.to_nat n)%nat).
  { apply lookup_lt_Some in El. lia. }
  rewrite list_lookup_fmap, (Hnth j Hj). cbn [plus].
  unfold edge_row. now rewrite El, Er, Ep, Ec.
Qed.

End Rows.

Lemma get_edges_rows_witness :
  exists rows,
    Simulator_get_edges example_kernel example_queries
      (mk_Simulator example_kernel (Some (example_state [])))
    = Ok (PyList rows) /\
    Z.of_nat (length rows) = 1 /\
    rows !! 0%nat
    = Some (PyTuple [PyFloat 0; PyFloat 1; PyLong 1; PyLong 0]).
Proof.
  destruct (get_edges_rows example_kernel example_queries (example_state []))
    as (rows & Hrows & Hlen & Hnth).
  - repeat split; try reflexivity; discriminate.
  - reflexivity.
  - exists rows. split; [exact Hrows | ]. split; [exact Hlen | ].
    exact (Hnth 0%nat 0%float 1%float 1 0 eq_refl eq_refl eq_refl eq_refl).
Defined.

(** ** New table collections *)

(** X22.  A new collection has the sequence length it was made with,
    and [-1] when it was made without one: when the table library
    initialises the collection, [asdict] on the new object holds that
    number under "sequence_length". *)
Theorem new_collection_sequence_length
    (tsk_table_collection_init : Z * tsk_table_collection_t)
    (arg : option PyObject) (sequence_length : double) :
  fst tsk_table_collection_init = 0 ->
  sequence_length_arg arg = Ok sequence_length ->
  let made := LightweightTableCollection_init tsk_table_collection_init arg in
  fst made = Ok tt /\
  exists d,
    LightweightTableCollection_asdict (snd made) = Ok (PyDict d) /\
    d !! "sequence_length" = Some (PyFloat sequence_length).
Proof.
  intros Hinit Harg. cbn zeta. unfold LightweightTableCollection_init.
  unfold sequence_length_arg in Harg. rewrite Harg.
  destruct tsk_table_collection_init as [err t]. cbn [fst] in Hinit.
  subst err. cbn [Z.eqb negb fst snd].
  split; [reflexivity | ].
  eexists. split; [reflexivity | ].
  unfold write_table_arrays.
  rewrite (lookup_fold_insert (fun c => PyDict (write_cols c))).
  cbn [rev app table_descs assoc String.eqb Ascii.eqb Bool.eqb].
  unfold PyDict_SetItemString. now rewrite lookup_insert_eq.
Qed.

Lemma new_collection_sequence_length_witness :
  exists d,
    LightweightTableCollection_asdict
      (snd (LightweightTableCollection_init (0, empty_tables 0) None))
    = Ok (PyDict d) /\
    d !! "sequence_length" = Some (PyFloat (-1)).
Proof.
  exact (proj2 (new_collection_sequence_length (0, empty_tables 0) None (-1)
                  eq_refl eq_refl)).
Defined.

(** ** Missing columns *)

Section MissingColumns.

Variable PyArray_FROMANY : PyObject -> npy_type -> Z -> Z -> result ndarray.

Lemma get_table_dict_value_present (dict : gmap string PyObject)
    (key : string) (v : PyObject) (required : bool) :
  dict !! key = Some v -> v <> Py_None ->
  get_table_dict_value dict key required = Ok v.
Proof.
  intros Hv Hn. unfold get_table_dict_value, PyDict_GetItemString.
  rewrite Hv. destruct v; try now rewrite andb_false_r. contradiction.
Qed.

Lemma get_table_dict_value_missing (dict : gmap string PyObject)
    (key : string) (required : bool) :
  dict !! key = None ->
  get_table_dict_value dict key required = Raise (not_specified key).
Proof.
  intros H. unfold get_table_dict_value, PyDict_GetItemString.
  now rewrite H.
Qed.

Lemma get_table_dict_value_None (dict : gmap string PyObject)
    (key : string) :
  dict !! key = Some Py_None ->
  get_table_dict_value dict key true = Raise (is_required key).
Proof.
  intros H. unfold get_table_dict_value, PyDict_GetItemString.
  now rewrite H.
Qed.

(** X23.  An optional column of the node table may be [None], but its
    key may not be missing: with "flags" and "time" given, a dictionary
    without the key "population" is refused with [ValueError], and one
    whose "time" is [None] with [TypeError], in both cases before any
    array is converted and before the table is touched. *)
Theorem node_columns_must_be_named (table : NodeTable.t)
    (dict : gmap string PyObject) (flags : PyObject) (clear_table : bool) :
  dict !! "flags" = Some flags -> flags <> Py_None ->
  (dict !! "time" = Some Py_None ->
   parse_node_table_dict PyArray_FROMANY table dict clear_table
   = Raise (is_required "time")) /\
  (forall time,
     dict !! "time" = Some time -> time <> Py_None ->
     dict !! "population" = None ->
     parse_node_table_dict PyArray_FROMANY table dict clear_table
     = Raise (not_specified "population")).
Proof.
  intros Hflags Hn. unfold parse_node_table_dict.
  rewrite (get_table_dict_value_present dict "flags" flags true Hflags Hn).
  cbn [mbind result_bind rbind]. split.
  - intros Htime. now rewrite (get_table_dict_value_None dict "time" Htime).
  - intros time Htime Htn Hpop.
    rewrite (get_table_dict_value_present dict "time" time true Htime Htn).
    cbn [mbind result_bind rbind].
    now rewrite (get_table_dict_value_missing dict "population" false Hpop).
Qed.

End MissingColumns.

Lemma node_columns_must_be_named_witness :
  parse_node_table_dict example_FROMANY (nodes example_tables)
    (<["flags" := offsets_array [1; 0]]>
       (<["time" := doubles_array [0; 1.5]%float]> ∅))
    true
  = Raise (not_specified "population").
Proof.
  assert (Hflags : offsets_array [1; 0] <> Py_None) by discriminate.
  assert (Htime : doubles_array [0; 1.5]%float <> Py_None) by discriminate.
  assert (Hlookup : (<["flags" := offsets_array [1; 0]]>
                       (<["time" := doubles_array [0; 1.5]%float]> ∅)
                     : gmap string PyObject) !! "flags"
                    = Some (offsets_array [1; 0])) by reflexivity.
  apply (proj2 (node_columns_must_be_named example_FROMANY
                  (nodes example_tables) _ (offsets_array [1; 0]) true
                  Hlookup Hflags)
           (doubles_array [0; 1.5]%float)).
  - reflexivity.
  - exact Htime.
  - reflexivity.
Defined.

(** ** The columns of a pedigree *)

Section PedigreeColumns.

Context (K : msp_api).
Variable PyArray_FROMANY : PyObject -> npy_type -> Z -> Z -> result ndarray.
Hypothesis FROMANY_keeps : keeps_arrays PyArray_FROMANY.

(** X24.  The columns of a pedigree must have as many elements as the
    array of parents has rows: when "parents" converts to an array of
    [n] rows and "individual" is an array of another number of 32-bit
    integers, the pedigree is refused with [ValueError] and the kernel
    is not called. *)
Theorem pedigree_columns_must_agree (dict : gmap string PyObject)
    (parents time is_sample : PyObject) (parents_array : ndarray)
    (n ploidy : Z) (individual : list Z) (s : msp_t K) :
  dict !! "individual" = Some (int32_array individual) ->
  dict !! "parents" = Some parents -> parents <> Py_None ->
  dict !! "time" = Some time -> time <> Py_None ->
  dict !! "is_sample" = Some is_sample -> is_sample <> Py_None ->
  PyArray_FROMANY parents NPY_INT32 2 2 = Ok parents_array ->
  nd_shape parents_array = [n; ploidy] ->
  0 <= n < 2 ^ 63 -> Z.of_nat (length individual) < 2 ^ 63 ->
  Z.of_nat (length individual) <> n ->
  Simulator_parse_pedigree K PyArray_FROMANY dict s
  = (Raise (PyErr_SetString PyExc_ValueError
              "Input array dimensions must be equal."), s).
Proof.
  intros Hi Hp Hpn Ht Htn Hs Hsn Hconv Hshape Hn Hlen Hne.
  unfold Simulator_parse_pedigree. run_M.
  rewrite (get_table_dict_value_present dict "individual" _ true Hi)
    by discriminate.
  rewrite (get_table_dict_value_present dict "parents" _ true Hp Hpn).
  rewrite (get_table_dict_value_present dict "time" _ true Ht Htn).
  rewrite (get_table_dict_value_present dict "is_sample" _ true Hs Hsn).
  rewrite Hconv, Hshape. cbn [nth].
  unfold table_read_column_array, int32_array, PyArray_SimpleNewFromData.
  pose proof (FROMANY_keeps (Z.of_nat (length individual))
                (Int32Data individual)) as E.
  cbn [npy_dtype] in E. rewrite E. cbn [mbind result_bind rbind nd_shape hd].
  unfold size_t_of. rewrite !wrap_unsigned_small by lia.
  destruct (Z.eqb_spec n (Z.of_nat (length individual))); [lia | reflexivity].
Qed.

End PedigreeColumns.

Lemma pedigree_columns_must_agree_witness :
  Simulator_parse_pedigree example_kernel example_FROMANY example_pedigree
    (example_state [])
  = (Raise (PyErr_SetString PyExc_ValueError
              "Input array dimensions must be equal."),
     example_state []).
Proof.
  assert (Hn : 0 <= 2 < 2 ^ 63) by (split; [discriminate | reflexivity]).
  assert (Hlen : Z.of_nat (length [1; 2; 3]) < 2 ^ 63) by reflexivity.
  assert (Hne : Z.of_nat (length [1; 2; 3]) <> 2) by discriminate.
  apply (pedigree_columns_must_agree example_kernel example_FROMANY
           example_FROMANY_keeps example_pedigree example_parents
           (doubles_array [1; 0; 0]%float) (offsets_array [0; 1; 1])
           (mk_ndarray [2; 2] (Int32Data [-1; -1; 0; 0])) 2 2 [1; 2; 3]
           (example_state []));
    first [exact Hn | exact Hlen | exact Hne | reflexivity | discriminate].
Defined.
